(** * Agent evaluation framework: hook dispatch, concurrent evaluation,
      quality gates

    A shallow embedding of three modules of the repository
    - [hooks_system.py]        (module [Hooks]),
    - [concurrent_evaluator.py] (module [Evaluator]),
    - [cicd_integration.py]    (module [CICD]),
    and the properties of them that the specification states.

    Conventions of the embedding.
    - A Python call either returns or raises: [outcome].  Every raised
      value is an instance of [Exception]; it carries the name of its
      class and the text [str(e)].
    - A [dict] with string keys is a [gmap string _]; a dict that the code
      builds with a fixed set of keys is a record, a key that the code
      reads with [.get] or tests with [in] is an [option] field.
    - Python [int]s are [Z] or [nat] (counters, ordinals).  The scores
      of the metrics, their sums, averages and differences are binary64
      floats as in Python: Rocq's primitive [float], with the same
      rounding, infinities and NaN.  The quotient of two counters and the
      measured run time are only compared with thresholds: they are the
      rationals they stand for ([Q]), as are those thresholds.
    - Fresh identifiers ([uuid4], [uuid1]) and the measured run time are
      inputs of the functions that use them; the ['timestamp'] entries of
      the result dicts, which nothing reads, are left out.
    - The order in which the workers of a thread pool finish is an input
      too: every function that waits on a pool takes a schedule. *)

From Stdlib Require Import QArith.
From Stdlib Require Import Floats.
From stdpp Require Import base option list functions gmap strings pretty.
From stdpp Require Import sorting.

Set Warnings "-clear-no-such-hyp".
Set Warnings "-inexact-float".

Local Open Scope Z_scope.
Local Open Scope string_scope.
Local Open Scope list_scope.
Local Open Scope stdpp_scope.

(** ** Python calls *)

Module Py.

Record exn := Exception { exn_type : string; exn_str : string }.

Inductive outcome (A : Type) : Type :=
| Returned (a : A)
| Raised (e : exn).
Arguments Returned {A} a.
Arguments Raised {A} e.

(** Sequencing: the first raise ends the computation. *)
#[global] Instance outcome_ret : MRet outcome := λ A a, Returned a.
#[global] Instance outcome_bind : MBind outcome := λ A B k c,
  match c with
  | Returned a => k a
  | Raised e => Raised e
  end.

(** [list.sort()] reads the elements through [__lt__] only and is stable;
    its result is the one of a stable insertion sort. *)
Section Sort.
Context {A : Type} (lt : A → A → bool).

Fixpoint sort_insert (x : A) (l : list A) : list A :=
  match l with
  | [] => [x]
  | y :: l' => if lt y x then y :: sort_insert x l' else x :: l
  end.

Fixpoint sort (l : list A) : list A :=
  match l with
  | [] => []
  | x :: l' => sort_insert x (sort l')
  end.
End Sort.

(** An order [__lt__] that compares one integer attribute, larger first
    ([key_lt]), and the order of a list it sorts ([key_ge]). *)
Definition key_lt {A} (key : A → Z) (x y : A) : bool :=
  bool_decide (key x > key y)%Z.
Definition key_ge {A} (key : A → Z) (x y : A) : Prop := (key y ≤ key x)%Z.

(** [try: body except Exception as e: handler(e)]. *)
Definition try_except {A} (body : outcome A) (handler : exn → outcome A)
    : outcome A :=
  match body with
  | Returned a => Returned a
  | Raised e => handler e
  end.

(** [str.lower()] on ASCII text. *)
Definition lower_ascii (c : Ascii.ascii) : Ascii.ascii :=
  let n := Ascii.nat_of_ascii c in
  if bool_decide (65 ≤ n ≤ 90)%nat then Ascii.ascii_of_nat (n + 32) else c.

Fixpoint lower (s : string) : string :=
  match s with
  | EmptyString => EmptyString
  | String c s' => String (lower_ascii c) (lower s')
  end.

(** [float(n)] for a length [n]. *)
Definition float_of_nat (n : nat) : float :=
  PrimFloat.of_uint63 (Uint63.of_Z (Z.of_nat n)).

(** [sum(scores) / len(scores)] on floats: [sum] adds the scores one
    after the other, from the left, starting from 0, and every addition
    rounds (CPython before 3.12; the workflow of the repository pins
    3.9); the sum is divided by the length as a float. *)
Definition mean (scores : list float) : float :=
  (foldl PrimFloat.add 0 scores / float_of_nat (length scores))%float.

(** [concurrent.futures.as_completed]: yields every pending future once,
    in the order of completion.  [picks] drives that order: each pick
    selects, among the futures still pending, the next one to finish;
    when the picks run out the rest finish in submission order. *)
Fixpoint as_completed {A} (picks : list nat) (pending : list A) : list A :=
  match picks with
  | [] => pending
  | p :: picks' =>
      let i := (p `mod` length pending)%nat in
      match pending !! i with
      | Some x => x :: as_completed picks' (delete i pending)
      | None => pending
      end
  end.

(** [ThreadPoolExecutor], as [execute_hooks] uses it.

    [executor.submit] gives one future per task, in submission order.
    The workers finish the tasks in an order the caller does not control:
    [sched] lists the tasks (by submission index) that have finished
    before the caller starts to collect.  [future.result()] waits for a
    task that has not finished yet. *)
Definition pool_run {A} (sched : list nat) (tasks : list A)
    : list (option A) :=
  foldl (λ cells i,
           match tasks !! i with
           | Some t => <[i := Some t]> cells
           | None => cells
           end)
        (replicate (length tasks) None) sched.

Definition future_result {A} (cells : list (option A)) (i : nat) (task : A)
    : A :=
  match cells !! i with
  | Some (Some r) => r
  | _ => task
  end.

(** [a / b] on the non-negative counters of the summaries: the quotient
    as a rational (the float Python returns is the nearest to it). *)
Definition truediv (a b : nat) : Q :=
  inject_Z (Z.of_nat a) / inject_Z (Z.of_nat b).

End Py.

Import Py.

(** ** hooks_system.py *)

Module Hooks.

Inductive HookType :=
| PRE_EVALUATION | POST_EVALUATION | PRE_SESSION | POST_SESSION
| PRE_TURN | POST_TURN | ERROR_HANDLER | INTEGRATION_TEST | CUSTOM.

#[global] Instance HookType_eq_dec : EqDecision HookType.
Proof. solve_decision. Defined.

Definition value (t : HookType) : string :=
  match t with
  | PRE_EVALUATION => "pre_evaluation"
  | POST_EVALUATION => "post_evaluation"
  | PRE_SESSION => "pre_session"
  | POST_SESSION => "post_session"
  | PRE_TURN => "pre_turn"
  | POST_TURN => "post_turn"
  | ERROR_HANDLER => "error_handler"
  | INTEGRATION_TEST => "integration_test"
  | CUSTOM => "custom"
  end.

(** [Obj] is the type of the Python objects that hooks receive and return
    without the dispatcher looking into them. *)
Section Dispatcher.
Context {Obj : Type}.

Record HookContext := {
  ctx_hook_type : HookType;
  ctx_session_id : option string;
  ctx_turn_id : option Z;
  ctx_trajectory_id : option string;
  ctx_data : option Obj;
  ctx_results : option Obj;
  ctx_error : option exn;
}.

(** The dict a hook returns.  Every hook of the module sets ['status'] and
    ['hook_name']; the other keys depend on the hook and the branch (the
    measured ['execution_time'] is left out). *)
Record HookRecord := {
  status : string;
  hook_name : string;
  result : option Obj;
  error : option string;
  error_type : option string;
  message : option string;
}.

(** [BaseHook]: the abstract [execute] is a field. *)
Record BaseHook := {
  name : string;
  hook_type : HookType;
  priority : Z;
  enabled : bool;
  execute : HookContext → outcome HookRecord;
}.

(** [BaseHook.__lt__]: [self.priority > other.priority]. *)
Definition hook_lt (self other : BaseHook) : bool :=
  bool_decide (priority self > priority other)%Z.

Definition success_record (nm : string) (r : Obj) : HookRecord :=
  {| status := "success"; hook_name := nm; result := Some r;
     error := None; error_type := None; message := None |}.

Definition failed_record (nm : string) (e : exn) : HookRecord :=
  {| status := "failed"; hook_name := nm; result := None;
     error := Some (exn_str e); error_type := None; message := None |}.

(** [IntegrationTestHook(name, test_function, priority)]. *)
Definition IntegrationTestHook (nm : string)
    (test_function : HookContext → outcome Obj) (prio : Z) : BaseHook :=
  {| name := nm; hook_type := INTEGRATION_TEST; priority := prio;
     enabled := true;
     execute := λ context,
       match test_function context with
       | Returned r => Returned (success_record nm r)
       | Raised e => Returned (failed_record nm e)
       end |}.

(** [CustomHook(name, hook_type, custom_function, priority)]. *)
Definition CustomHook (nm : string) (ty : HookType)
    (custom_function : HookContext → outcome Obj) (prio : Z) : BaseHook :=
  {| name := nm; hook_type := ty; priority := prio; enabled := true;
     execute := λ context,
       match custom_function context with
       | Returned r => Returned (success_record nm r)
       | Raised e => Returned (failed_record nm e)
       end |}.

(** [ErrorHandlingHook.execute]. *)
Definition ErrorHandlingHook_execute (nm : string)
    (error_handlers : gmap string (HookContext → outcome Obj))
    (context : HookContext) : outcome HookRecord :=
  match ctx_error context with
  | Some err =>
      let ety := exn_type err in
      match error_handlers !! ety with
      | Some handler =>
          match handler context with
          | Returned r =>
              Returned {| status := "handled"; hook_name := nm;
                          result := Some r; error := None;
                          error_type := Some ety; message := None |}
          | Raised e =>
              Returned {| status := "failed"; hook_name := nm;
                          result := None; error := Some (exn_str e);
                          error_type := Some ety; message := None |}
          end
      | None =>
          Returned {| status := "unhandled"; hook_name := nm;
                      result := None; error := None;
                      error_type := Some ety;
                      message := Some ("No handler for error type " +:+ ety) |}
      end
  | None =>
      Returned {| status := "no_error"; hook_name := nm; result := None;
                  error := None; error_type := None; message := None |}
  end.

Definition ErrorHandlingHook (nm : string)
    (error_handlers : gmap string (HookContext → outcome Obj))
    (prio : Z) : BaseHook :=
  {| name := nm; hook_type := ERROR_HANDLER; priority := prio;
     enabled := true;
     execute := ErrorHandlingHook_execute nm error_handlers |}.

Definition is_ErrorHandlingHook (hook : BaseHook) : Prop :=
  ∃ nm handlers prio, hook = ErrorHandlingHook nm handlers prio.

(** One entry of [execution_history]. *)
Record Execution := {
  ex_hook_type : string;
  ex_context : HookContext;
  ex_results : list HookRecord;
}.

(** [HooksManager].  [hooks] has a key for every member of [HookType]. *)
Record HooksManager := {
  hooks : HookType → list BaseHook;
  execution_history : list Execution;
  max_workers : nat;
}.

Definition HooksManager_init : HooksManager :=
  {| hooks := λ _, []; execution_history := []; max_workers := 5 |}.

Definition register_hook (hook : BaseHook) (self : HooksManager)
    : HooksManager :=
  if enabled hook then
    {| hooks := <[hook_type hook :=
                    Py.sort hook_lt (hooks self (hook_type hook) ++ [hook])]>
                  (hooks self);
       execution_history := execution_history self;
       max_workers := max_workers self |}
  else self.

Definition unregister_hook (hook_name : string) (ty : HookType)
    (self : HooksManager) : HooksManager :=
  {| hooks := <[ty := filter (λ hook, name hook ≠ hook_name) (hooks self ty)]>
                (hooks self);
     execution_history := execution_history self;
     max_workers := max_workers self |}.

Definition exception_record (hook : BaseHook) (e : exn) : HookRecord :=
  {| status := "exception"; hook_name := name hook; result := None;
     error := Some (exn_str e); error_type := None; message := None |}.

Definition collect (hook : BaseHook) (r : outcome HookRecord) : HookRecord :=
  match r with
  | Returned rec => rec
  | Raised e => exception_record hook e
  end.

(** The records of the hooks [hs] run on [context], in the order of
    [hs]. *)
Definition records_of (context : HookContext) (hs : list BaseHook)
    : list HookRecord :=
  map (λ hook, collect hook (execute hook context)) hs.

(** All the records of the firings in [execution_history], and the
    numbers of those that are ['success'] and of those that are not. *)
Definition all_records (self : HooksManager) : list HookRecord :=
  concat (map ex_results (execution_history self)).

Definition successes (rs : list HookRecord) : nat :=
  length (filter (λ r, status r = "success") rs).

Definition failures (rs : list HookRecord) : nat :=
  length (filter (λ r, status r ≠ "success") rs).

(** A dispatcher with another history, a firing with other records. *)
Definition with_history (es : list Execution) (self : HooksManager)
    : HooksManager :=
  {| hooks := hooks self; execution_history := es;
     max_workers := max_workers self |}.

Definition with_results (rs : list HookRecord) (ex : Execution) : Execution :=
  {| ex_hook_type := ex_hook_type ex; ex_context := ex_context ex;
     ex_results := rs |}.

(** The dispatcher after the calls [register_hook(h)], [h] in [regs]. *)
Definition register_all (regs : list BaseHook) : HooksManager :=
  foldl (λ self hook, register_hook hook self) HooksManager_init regs.

(** [execute_hooks]; [sched] is the order in which the workers finish.
    Every member of [HookType] is a key of [hooks], so the first test of
    the source ([hook_type not in self.hooks]) never holds.  With no hook
    at the point the call returns before anything is added to the
    history. *)
Definition execute_hooks (sched : list nat) (ty : HookType)
    (context : HookContext) (self : HooksManager)
    : list HookRecord * HooksManager :=
  let hs := hooks self ty in
  match hs with
  | [] => ([], self)
  | hook0 :: rest =>
      let results :=
        if bool_decide (1 < length hs)%nat then
          let cells :=
            Py.pool_run sched (map (λ hook, execute hook context) hs) in
          imap (λ i hook,
                  collect hook
                    (Py.future_result cells i (execute hook context)))
               hs
        else [collect hook0 (execute hook0 context)] in
      (results,
       {| hooks := hooks self;
          execution_history :=
            execution_history self ++
            [{| ex_hook_type := value ty; ex_context := context;
                ex_results := results |}];
          max_workers := max_workers self |})
  end.

(** [get_execution_summary]. *)
Record ExecutionSummary := {
  total_executions : nat;
  successful_executions : nat;
  failed_executions : nat;
  success_rate : Q;
}.

Definition tally (acc : nat * nat) (r : HookRecord) : nat * nat :=
  if decide (status r = "success") then (S acc.1, acc.2) else (acc.1, S acc.2).

Definition get_execution_summary (self : HooksManager) : ExecutionSummary :=
  let total := length (execution_history self) in
  let counts :=
    foldl (λ acc execution, foldl tally acc (ex_results execution))
          (0%nat, 0%nat) (execution_history self) in
  {| total_executions := total;
     successful_executions := counts.1;
     failed_executions := counts.2;
     success_rate :=
       if bool_decide (0 < total)%nat
       then Py.truediv counts.1 total else 0%Q |}.

End Dispatcher.
Arguments HookContext : clear implicits.
Arguments HookRecord : clear implicits.
Arguments BaseHook : clear implicits.
Arguments Execution : clear implicits.
Arguments HooksManager : clear implicits.

End Hooks.

(** ** concurrent_evaluator.py *)

Module Evaluator.

(** [Obj]: the Python objects the orchestrator stores and passes on
    without looking into them (agent responses, metadata values). *)
Section Orchestrator.
Context {Obj : Type}.

(** One element of [turns_data], a dict read from the data file. *)
Record TurnData := {
  td_question : option string;
  td_ground_truth : option string;
  td_question_type : option string;
  td_metadata : option (gmap string Obj);
}.

Record ConversationTurn := {
  turn_id : nat;
  question : string;
  expected_response : string;
  evaluation_type : string;
  metadata : gmap string Obj;
}.

Record ConversationSession := {
  session_id : string;
  trajectory_id : string;
  turns : list ConversationTurn;
  context : gmap string Obj;
  max_concurrent_turns : nat;
}.

(** The dict [run_evaluation] returns, as far as the orchestrator reads
    it: [results['agent_response']],
    [results['evaluation_results']['metrics_scores'][name]['score']].
    A score is a number; it enters sums and quotients as a float. *)
Record MetricData := { score : option float }.

Record EvaluationResults := {
  metrics_scores : option (list (string * MetricData));
}.

Record Payload := {
  agent_response : option Obj;
  evaluation_results : option EvaluationResults;
}.

(** The dict of one evaluated turn. *)
Record TurnResult := {
  tr_session_id : string;
  tr_turn_id : nat;
  status : string;
  results : option Payload;
  error : option string;
}.

(** The arguments of [create_evaluator]. *)
Record EvaluatorRequest := {
  eval_type : string;
  rq_question : string;
  rq_ground_truth : string;
  rq_question_id : nat;
  rq_metadata : gmap string Obj;
  trace_id : string;
  rq_session_id : string;
  rq_trajectory_id : string;
}.

(** An evaluator object is what its [run_evaluation()] does: it returns a
    payload, returns [None], or raises. *)
Definition EvaluatorObject : Type := outcome (option Payload).
Definition EvaluatorClass : Type :=
  EvaluatorRequest → outcome EvaluatorObject.

(** [create_evaluator] (driver.py): the class is looked up in a fixed
    table; the four classes are the evaluators of the repository. *)
Definition create_evaluator
    (RAGEvaluator Text2SQLEvaluator COTEvaluator CustomEvaluator
       : EvaluatorClass)
    (rq : EvaluatorRequest) : outcome EvaluatorObject :=
  let evaluator_map : gmap string EvaluatorClass :=
    <["CUSTOM" := CustomEvaluator]>
      (<["COT" := COTEvaluator]>
         (<["TEXT2SQL" := Text2SQLEvaluator]>
            (<["RAG" := RAGEvaluator]> ∅))) in
  match evaluator_map !! eval_type rq with
  | None =>
      Raised (Exception "ValueError"
                ("Unknown evaluation type: " +:+ eval_type rq))
  | Some evaluator_class => evaluator_class rq
  end.

(** What the orchestrator takes from its surroundings. *)
Record Environment := {
  (** [setup_environment()], [get_config()] and the constructor of the
      orchestrator, which call the agent and tracing back ends *)
  env_setup : outcome ();
  env_create_evaluator : EvaluatorRequest → outcome EvaluatorObject;
  (** [str(uuid.uuid1())] for the turn of a session *)
  env_uuid1 : string → nat → string;
  (** [str(uuid.uuid4())] for the n-th session *)
  env_uuid4 : nat → string;
  (** [json.load(open(data_file))]: the trajectories in file order *)
  env_json_load : string → outcome (list (string * list TurnData));
  (** completion order of the turns of a session, of the sessions *)
  env_turn_picks : string → list nat;
  env_session_picks : list nat;
}.

Fixpoint build_turns (i : nat) (turns_data : list TurnData)
    : outcome (list ConversationTurn) :=
  match turns_data with
  | [] => mret []
  | turn_data :: rest =>
      q ← match td_question turn_data with
          | Some q => Returned q
          | None => Raised (Exception "KeyError" "'question'")
          end;
      let turn :=
        {| turn_id := i;
           question := q;
           expected_response := default "" (td_ground_truth turn_data);
           evaluation_type := default "COT" (td_question_type turn_data);
           metadata := default ∅ (td_metadata turn_data) |} in
      ts ← build_turns (S i) rest;
      mret (turn :: ts)
  end.

(** A specification with a ['question'] entry, and the turn the loop
    makes of the [i]-th specification when it has one. *)
Definition has_question (td : TurnData) : Prop := is_Some (td_question td).

Definition turn_of (i : nat) (td : TurnData) : ConversationTurn :=
  {| turn_id := i;
     question := default "" (td_question td);
     expected_response := default "" (td_ground_truth td);
     evaluation_type := default "COT" (td_question_type td);
     metadata := default ∅ (td_metadata td) |}.

(** [create_conversation_session]; [uuid] is the value of
    [str(uuid.uuid4())].  (The entries the method adds to
    [active_sessions] and [session_locks] are read nowhere.) *)
Definition create_conversation_session (uuid : string)
    (trajectory_id : string) (turns_data : list TurnData)
    : outcome ConversationSession :=
  ts ← build_turns 0 turns_data;
  mret {| session_id := uuid; trajectory_id := trajectory_id;
          turns := ts; context := ∅; max_concurrent_turns := 3 |}.

(** The arguments [evaluate_single_turn] passes to [create_evaluator]. *)
Definition request_of (env : Environment) (session : ConversationSession)
    (turn : ConversationTurn) : EvaluatorRequest :=
  {| eval_type := evaluation_type turn;
     rq_question := question turn;
     rq_ground_truth := expected_response turn;
     rq_question_id := turn_id turn;
     rq_metadata := metadata turn;
     trace_id := env_uuid1 env (session_id session) (turn_id turn);
     rq_session_id := session_id session;
     rq_trajectory_id := trajectory_id session |}.

(** The evaluator capability on one turn: [create_evaluator(...)] and
    then [run_evaluation()]. *)
Definition run_capability (env : Environment) (rq : EvaluatorRequest)
    : outcome (option Payload) :=
  evaluator ← env_create_evaluator env rq;
  (evaluator : outcome (option Payload)).

Definition evaluate_single_turn (env : Environment)
    (session : ConversationSession) (turn : ConversationTurn)
    : outcome TurnResult :=
  try_except
    (evaluator ← env_create_evaluator env (request_of env session turn);
     res ← (evaluator : outcome (option Payload));
     match res with
     | None =>
         mret {| tr_session_id := session_id session;
                 tr_turn_id := turn_id turn;
                 status := "failed"; results := None;
                 error := Some "Evaluation returned None" |}
     | Some r =>
         mret {| tr_session_id := session_id session;
                 tr_turn_id := turn_id turn;
                 status := "success"; results := Some r; error := None |}
     end)
    (λ e,
       mret {| tr_session_id := session_id session;
               tr_turn_id := turn_id turn;
               status := "error"; results := None;
               error := Some (exn_str e) |}).

(** The key [f'turn_{turn.turn_id}_response']. *)
Definition context_key (i : nat) : string :=
  "turn_" +:+ pretty i +:+ "_response".

(** [_update_session_context], on the context dict of the session. *)
Definition _update_session_context (ctx : gmap string Obj)
    (turn : ConversationTurn) (result : TurnResult) : gmap string Obj :=
  match results result with
  | Some r =>
      match agent_response r with
      | Some a => <[context_key (turn_id turn) := a]> ctx
      | None => ctx
      end
  | None => ctx
  end.

(** One round of the collecting loop of [process_conversation_session]:
    [fut] is the finished future of [turn]. *)
Definition collect_turn (session : ConversationSession)
    (acc : list TurnResult * gmap string Obj)
    (done : outcome TurnResult * ConversationTurn)
    : list TurnResult * gmap string Obj :=
  let '(fut, turn) := done in
  match fut with
  | Returned result =>
      (acc.1 ++ [result],
       if decide (status result = "success")
       then _update_session_context acc.2 turn result
       else acc.2)
  | Raised e =>
      (acc.1 ++ [{| tr_session_id := session_id session;
                    tr_turn_id := turn_id turn;
                    status := "exception"; results := None;
                    error := Some (exn_str e) |}],
       acc.2)
  end.

(** [process_conversation_session]: the results in completion order and
    the session with the context the loop has written. *)
Definition process_conversation_session (env : Environment)
    (session : ConversationSession)
    : list TurnResult * ConversationSession :=
  let future_to_turn :=
    map (λ turn, (evaluate_single_turn env session turn, turn))
        (turns session) in
  let final :=
    foldl (collect_turn session) ([], context session)
          (as_completed (env_turn_picks env (session_id session))
                        future_to_turn) in
  (final.1,
   {| session_id := session_id session;
      trajectory_id := trajectory_id session;
      turns := turns session;
      context := final.2;
      max_concurrent_turns := max_concurrent_turns session |}).

(** The same surroundings with another completion order of the turns. *)
Definition with_turn_picks (picks : string → list nat) (env : Environment)
    : Environment :=
  {| env_setup := env_setup env;
     env_create_evaluator := env_create_evaluator env;
     env_uuid1 := env_uuid1 env;
     env_uuid4 := env_uuid4 env;
     env_json_load := env_json_load env;
     env_turn_picks := picks;
     env_session_picks := env_session_picks env |}.

(** What the turn contributes to the context: the agent response of its
    result, when the turn is a ['success'] and the result has one. *)
Definition response_of (env : Environment) (session : ConversationSession)
    (turn : ConversationTurn) : option Obj :=
  match evaluate_single_turn env session turn with
  | Returned result =>
      if decide (status result = "success")
      then results result ≫= agent_response
      else None
  | Raised _ => None
  end.

(** The entry a turn adds to the context, if any. *)
Definition write_of (env : Environment) (session : ConversationSession)
    (turn : ConversationTurn) : option (string * Obj) :=
  (λ a, (context_key (turn_id turn), a)) <$> response_of env session turn.

(** One element of [session_results]. *)
Record SessionResult := {
  sr_session_id : string;
  sr_trajectory_id : string;
  sr_results : option (list TurnResult);
  sr_context : option (gmap string Obj);
  sr_error : option string;
  sr_status : option string;
}.

Record Summary := {
  total_turns : nat;
  successful_turns : nat;
  failed_turns : nat;
  error_turns : nat;
  success_rate : Q;
  average_scores : gmap string float;
  total_sessions : nat;
}.

(** The local variables of the loop of [_generate_evaluation_summary]. *)
Record Counters := {
  c_total : nat;
  c_successful : nat;
  c_failed : nat;
  c_error : nat;
  c_scores : gmap string (list float);
}.

Definition evaluation_scores_init : gmap string (list float) :=
  <["overall" := []]>
    (<["instruction_following" := []]>
       (<["faithfulness" := []]>
          (<["helpfulness" := []]> ∅))).

Definition add_score (scores : gmap string (list float))
    (entry : string * MetricData) : gmap string (list float) :=
  match score entry.2 with
  | Some sc =>
      match scores !! lower entry.1 with
      | Some l => <[lower entry.1 := l ++ [sc]]> scores
      | None => scores
      end
  | None => scores
  end.

Definition extract_scores (scores : gmap string (list float))
    (turn_result : TurnResult) : gmap string (list float) :=
  match results turn_result with
  | Some r =>
      match evaluation_results r with
      | Some eval_results =>
          match metrics_scores eval_results with
          | Some ms => foldl add_score scores ms
          | None => scores
          end
      | None => scores
      end
  | None => scores
  end.

Definition count_turn (c : Counters) (turn_result : TurnResult) : Counters :=
  let total := S (c_total c) in
  if decide (status turn_result = "success") then
    {| c_total := total; c_successful := S (c_successful c);
       c_failed := c_failed c; c_error := c_error c;
       c_scores := extract_scores (c_scores c) turn_result |}
  else if decide (status turn_result = "failed") then
    {| c_total := total; c_successful := c_successful c;
       c_failed := S (c_failed c); c_error := c_error c;
       c_scores := c_scores c |}
  else if decide (status turn_result = "error") then
    {| c_total := total; c_successful := c_successful c;
       c_failed := c_failed c; c_error := S (c_error c);
       c_scores := c_scores c |}
  else
    {| c_total := total; c_successful := c_successful c;
       c_failed := c_failed c; c_error := c_error c;
       c_scores := c_scores c |}.

Definition count_session (c : Counters) (session_result : SessionResult)
    : Counters :=
  match sr_results session_result with
  | Some rs => foldl count_turn c rs
  | None => c
  end.

Definition _generate_evaluation_summary (session_results : list SessionResult)
    : Summary :=
  let c :=
    foldl count_session
          {| c_total := 0; c_successful := 0; c_failed := 0; c_error := 0;
             c_scores := evaluation_scores_init |}
          session_results in
  {| total_turns := c_total c;
     successful_turns := c_successful c;
     failed_turns := c_failed c;
     error_turns := c_error c;
     success_rate :=
       if bool_decide (0 < c_total c)%nat
       then Py.truediv (c_successful c) (c_total c) else 0%Q;
     average_scores :=
       (λ scores, match scores with [] => 0%float | _ => Py.mean scores end)
         <$> c_scores c;
     total_sessions := length session_results |}.

(** The turn results a batch holds, and the number of those with a
    given status. *)
Definition all_turns (session_results : list SessionResult)
    : list TurnResult :=
  concat (map (λ sr, default [] (sr_results sr)) session_results).

Definition count_status (st : string) (rs : list TurnResult) : nat :=
  length (filter (λ r, status r = st) rs).

(** What [run_concurrent_evaluations] returns. *)
Record EvaluationOutput := {
  eo_summary : Summary;
  eo_sessions : list SessionResult;
  eo_all_results : gmap string (string * list TurnResult * gmap string Obj);
  eo_total_sessions : nat;
  eo_total_turns : nat;
}.

Fixpoint create_sessions (env : Environment) (n : nat)
    (data : list (string * list TurnData))
    : outcome (list ConversationSession) :=
  match data with
  | [] => mret []
  | (trajectory_id, turns_data) :: rest =>
      session ← create_conversation_session (env_uuid4 env n)
                  trajectory_id turns_data;
      sessions ← create_sessions env (S n) rest;
      mret (session :: sessions)
  end.

Definition collect_session
    (acc : list SessionResult *
           gmap string (string * list TurnResult * gmap string Obj))
    (done : list TurnResult * ConversationSession) :=
  let '(session_result, session) := done in
  (acc.1 ++ [{| sr_session_id := session_id session;
                sr_trajectory_id := trajectory_id session;
                sr_results := Some session_result;
                sr_context := Some (context session);
                sr_error := None; sr_status := None |}],
   <[trajectory_id session :=
       (session_id session, session_result, context session)]> acc.2).

(** [run_concurrent_evaluations].  [process_conversation_session] does
    not raise, so the [except] branch of the collecting loop is never
    taken. *)
Definition run_concurrent_evaluations (env : Environment) (data_file : string)
    : outcome EvaluationOutput :=
  data_dict ← env_json_load env data_file;
  sessions ← create_sessions env 0 data_dict;
  let futures := map (process_conversation_session env) sessions in
  let collected :=
    foldl collect_session ([], ∅)
          (as_completed (env_session_picks env) futures) in
  mret {| eo_summary := _generate_evaluation_summary collected.1;
          eo_sessions := collected.1;
          eo_all_results := collected.2;
          eo_total_sessions := length sessions;
          eo_total_turns :=
            foldl Nat.add 0%nat (map (λ s, length (turns s)) sessions) |}.

(** The module-level [run_concurrent_evaluation]. *)
Definition run_concurrent_evaluation (env : Environment) (data_file : string)
    (max_workers : Z) : outcome EvaluationOutput :=
  _ ← env_setup env;
  run_concurrent_evaluations env data_file.

End Orchestrator.
Arguments TurnData : clear implicits.
Arguments ConversationTurn : clear implicits.
Arguments ConversationSession : clear implicits.
Arguments Payload : clear implicits.
Arguments TurnResult : clear implicits.
Arguments EvaluatorRequest : clear implicits.
Arguments EvaluatorObject : clear implicits.
Arguments EvaluatorClass : clear implicits.
Arguments Environment : clear implicits.
Arguments SessionResult : clear implicits.
Arguments EvaluationOutput : clear implicits.

End Evaluator.

(** ** cicd_integration.py *)

Module CICD.

Record QualityGate := {
  min_success_rate : Q;
  min_average_score : float;
  max_execution_time : Q;
  max_failed_turns : Z;
  required_metrics : list string;
}.

(** [QualityGate()] with the defaults of the dataclass. *)
Definition QualityGate_default : QualityGate :=
  {| min_success_rate := 8 # 10;
     min_average_score := 0.7;
     max_execution_time := 300;
     max_failed_turns := 5;
     required_metrics :=
       ["helpfulness"; "faithfulness"; "instruction_following"] |}.

(** The dict [evaluation_results] as the pipeline reads it; a key read
    with [.get] or [[]] may be absent. *)
Record SummaryDict := {
  success_rate : option Q;
  failed_turns : option Z;
  average_scores : option (gmap string float);
}.

Record EvaluationResults := {
  summary : option SummaryDict;
  execution_time : option Q;
  total_sessions : option nat;
  total_turns : option nat;
}.

Record ActualValues := {
  av_success_rate : Q;
  av_execution_time : Q;
  av_failed_turns : Z;
  av_average_scores : gmap string float;
}.

Record GateResult := {
  passed : bool;
  checks : gmap string bool;
  thresholds : QualityGate;
  actual_values : ActualValues;
}.

Definition empty_summary : SummaryDict :=
  {| success_rate := None; failed_turns := None; average_scores := None |}.

(** [all(checks.values())]. *)
Definition all_values (checks : gmap string bool) : bool :=
  forallb id (map snd (map_to_list checks)).

Definition _check_quality_gates (quality_gate : QualityGate)
    (evaluation_results : EvaluationResults) : GateResult :=
  let summary := default empty_summary (summary evaluation_results) in
  let checks : gmap string bool :=
    <["failed_turns" :=
        bool_decide (default 0 (failed_turns summary)
                     ≤ max_failed_turns quality_gate)%Z]>
      (<["execution_time" :=
           Qle_bool (default 0%Q (execution_time evaluation_results))
                    (max_execution_time quality_gate)]>
         (<["success_rate" :=
              Qle_bool (min_success_rate quality_gate)
                       (default 0%Q (success_rate summary))]> ∅)) in
  let avg_scores := default ∅ (average_scores summary) in
  let checks :=
    foldl (λ checks metric,
             let score := default 0%float (avg_scores !! metric) in
             <["avg_score_" +:+ metric :=
                 (min_average_score quality_gate <=? score)%float]> checks)
          checks (required_metrics quality_gate) in
  {| passed := all_values checks;
     checks := checks;
     thresholds := quality_gate;
     actual_values :=
       {| av_success_rate := default 0%Q (success_rate summary);
          av_execution_time := default 0%Q (execution_time evaluation_results);
          av_failed_turns := default 0 (failed_turns summary);
          av_average_scores := avg_scores |} |}.

(** What the gate reads of [evaluation_results]: the value of each key,
    with the default of its [.get]. *)
Definition summary_of (evaluation_results : EvaluationResults) : SummaryDict :=
  default empty_summary (summary evaluation_results).

Definition score_of (evaluation_results : EvaluationResults)
    (metric : string) : float :=
  default 0%float
    (default ∅ (average_scores (summary_of evaluation_results)) !! metric).

(** The checks of the gate as writes into the dict [checks]: the three
    entries written first, and the entry of every required metric. *)
Definition check_writes (quality_gate : QualityGate)
    (evaluation_results : EvaluationResults) : list (string * bool) :=
  (λ metric,
     ("avg_score_" +:+ metric,
      (min_average_score quality_gate
       <=? score_of evaluation_results metric)%float))
    <$> required_metrics quality_gate.

Definition base_checks (quality_gate : QualityGate)
    (evaluation_results : EvaluationResults) : gmap string bool :=
  <["failed_turns" :=
      bool_decide (default 0 (failed_turns (summary_of evaluation_results))
                   ≤ max_failed_turns quality_gate)%Z]>
    (<["execution_time" :=
         Qle_bool (default 0%Q (execution_time evaluation_results))
                  (max_execution_time quality_gate)]>
       (<["success_rate" :=
            Qle_bool (min_success_rate quality_gate)
                     (default 0%Q
                        (success_rate (summary_of evaluation_results)))]> ∅)).

Record Regression := {
  baseline : float;
  current : float;
  degradation : float;
}.

(** The two dicts [_check_performance_regression] can return. *)
Inductive RegressionResult :=
| NoComparison (reason : string)
| Comparison (regression_detected : bool)
    (regressions : gmap string Regression)
    (baseline_scores current_scores : gmap string float) (threshold : float).

(** [regression_result['regression_detected']]. *)
Definition regression_detected (r : RegressionResult) : bool :=
  match r with
  | NoComparison _ => false
  | Comparison d _ _ _ _ => d
  end.

(** [regression_result['regressions']], when the key is there. *)
Definition regressions (r : RegressionResult) : gmap string Regression :=
  match r with
  | NoComparison _ => ∅
  | Comparison _ rs _ _ _ => rs
  end.

(** [d['summary']]. *)
Definition get_summary (d : EvaluationResults) : outcome SummaryDict :=
  match summary d with
  | Some s => Returned s
  | None => Raised (Exception "KeyError" "'summary'")
  end.

(** The scores of [metric] in the runs of [recent_history] that have it. *)
Fixpoint metric_scores (metric : string)
    (recent_history : list EvaluationResults) : outcome (list float) :=
  match recent_history with
  | [] => mret []
  | historical_run :: rest =>
      s ← get_summary historical_run;
      scores ← metric_scores metric rest;
      mret match default ∅ (average_scores s) !! metric with
           | Some sc => sc :: scores
           | None => scores
           end
  end.

Fixpoint baseline_of (metrics : list string)
    (recent_history : list EvaluationResults)
    (baseline_scores : gmap string float) : outcome (gmap string float) :=
  match metrics with
  | [] => mret baseline_scores
  | metric :: rest =>
      scores ← metric_scores metric recent_history;
      baseline_of rest recent_history
        match scores with
        | [] => baseline_scores
        | _ => <[metric := Py.mean scores]> baseline_scores
        end
  end.

(** A run with a ['summary'] entry; the average of [metric] in a run
    that has one; the averages of [metric] in the runs that have one. *)
Definition has_summary (run : EvaluationResults) : Prop :=
  is_Some (summary run).

Definition avg_of (metric : string) (run : EvaluationResults)
    : option float :=
  s ← summary run; default ∅ (average_scores s) !! metric.

Definition scores_of (metric : string) (runs : list EvaluationResults)
    : list float :=
  omap (avg_of metric) runs.

(** One round of the loop that fills [baseline_scores]. *)
Definition baseline_step (recent_history : list EvaluationResults)
    (baseline_scores : gmap string float) (metric : string)
    : gmap string float :=
  match scores_of metric recent_history with
  | [] => baseline_scores
  | scores => <[metric := Py.mean scores]> baseline_scores
  end.

(** [history[-3:]]. *)
Definition last3 {A} (history : list A) : list A :=
  drop (length history - 3)%nat history.

Definition regression_threshold : float := 0.1.

Definition flag (threshold : float) (current_scores : gmap string float)
    (metric : string) (baseline_score : float) : option Regression :=
  let current_score := default 0%float (current_scores !! metric) in
  let degradation := (baseline_score - current_score)%float in
  if (threshold <? degradation)%float
  then Some {| baseline := baseline_score; current := current_score;
               degradation := degradation |}
  else None.

(** [_check_performance_regression]; [history] holds the [results] entry
    of every element of [self.evaluation_history]. *)
Definition _check_performance_regression (quality_gate : QualityGate)
    (threshold : float) (history : list EvaluationResults)
    (current_results : EvaluationResults) : outcome RegressionResult :=
  if bool_decide (length history < 2)%nat then
    mret (NoComparison "Insufficient history for regression detection")
  else
    let recent_history := last3 history in
    match recent_history with
    | [] => mret (NoComparison "No previous results available")
    | _ =>
        baseline_scores ←
          baseline_of (required_metrics quality_gate) recent_history ∅;
        s ← get_summary current_results;
        let current_scores := default ∅ (average_scores s) in
        let regressions :=
          map_imap (flag threshold current_scores) baseline_scores in
        mret (Comparison (bool_decide (0 < size regressions)%nat)
                regressions baseline_scores current_scores threshold)
    end.

(** The objects the pipeline hands to its hooks ([context.data],
    [context.results]) and the values hook functions return. *)
Inductive HookObj :=
| PipelineArgs (data_file : string) (max_workers : Z)
| Results (evaluation_results : EvaluationResults)
| Value (v : string).

Abbreviation HookRecord := (Hooks.HookRecord HookObj).
Abbreviation HooksManager := (Hooks.HooksManager HookObj).

(** The two dicts [run_evaluation_pipeline] can return. *)
Inductive PipelineReport :=
| PrePipelineFailure (status stage error : string)
    (results : list HookRecord)
| Report (status : string) (evaluation_summary : SummaryDict)
    (quality_gate : GateResult) (performance_regression : RegressionResult)
    (pre_pipeline_tests post_pipeline_tests : list HookRecord)
    (execution_time : Q) (total_sessions total_turns : nat).

(** [report['status']] and [report.get('stage')]. *)
Definition report_status (r : PipelineReport) : string :=
  match r with
  | PrePipelineFailure st _ _ _ => st
  | Report st _ _ _ _ _ _ _ _ => st
  end.

Definition report_stage (r : PipelineReport) : option string :=
  match r with
  | PrePipelineFailure _ stage _ _ => Some stage
  | Report _ _ _ _ _ _ _ _ _ => None
  end.

Record HistoryEntry := {
  h_results : EvaluationResults;
  h_quality_gate : GateResult;
  h_regression : RegressionResult;
  h_pipeline_report : PipelineReport;
}.

Record CICDPipeline := {
  quality_gate : QualityGate;
  hooks_manager : HooksManager;
  evaluation_history : list HistoryEntry;
  self_regression_threshold : float;
}.

Definition _check_pre_pipeline_tests (pre_results : list HookRecord) : bool :=
  forallb (λ result, bool_decide (Hooks.status result = "success"))
          pre_results.

Definition overall_status (quality_gate_result : GateResult)
    (regression_result : RegressionResult) : string :=
  if negb (passed quality_gate_result) then "failed"
  else if regression_detected regression_result then "warning"
  else "passed".

Definition getitem_field {A} (key : string) (v : option A) : outcome A :=
  match v with
  | Some a => Returned a
  | None => Raised (Exception "KeyError" ("'" +:+ key +:+ "'"))
  end.

Definition _generate_pipeline_report (evaluation_results : EvaluationResults)
    (quality_gate_result : GateResult) (regression_result : RegressionResult)
    (pre_results post_results : list HookRecord) : outcome PipelineReport :=
  s ← get_summary evaluation_results;
  t ← getitem_field "execution_time" (execution_time evaluation_results);
  n ← getitem_field "total_sessions" (total_sessions evaluation_results);
  m ← getitem_field "total_turns" (total_turns evaluation_results);
  mret (Report (overall_status quality_gate_result regression_result)
          s quality_gate_result regression_result pre_results post_results
          t n m).

Section Pipeline.
Context {Resp : Type}.

(** The dict of [run_concurrent_evaluation], after the pipeline has set
    ['execution_time'], as the later stages read it. *)
Definition of_output (o : Evaluator.EvaluationOutput Resp) (elapsed : Q)
    : EvaluationResults :=
  let s := Evaluator.eo_summary o in
  {| summary :=
       Some {| success_rate := Some (Evaluator.success_rate s);
               failed_turns := Some (Z.of_nat (Evaluator.failed_turns s));
               average_scores := Some (Evaluator.average_scores s) |};
     execution_time := Some elapsed;
     total_sessions := Some (Evaluator.eo_total_sessions o);
     total_turns := Some (Evaluator.eo_total_turns o) |}.

(** What a run of the pipeline takes from its surroundings. *)
Record World := {
  w_env : Evaluator.Environment Resp;
  (** the order in which the hooks of the two firings finish *)
  w_pre_sched : list nat;
  w_post_sched : list nat;
  (** [end_time - start_time] *)
  w_elapsed : Q;
}.

Definition with_hooks_manager (hm : HooksManager) (self : CICDPipeline)
    : CICDPipeline :=
  {| quality_gate := quality_gate self;
     hooks_manager := hm;
     evaluation_history := evaluation_history self;
     self_regression_threshold := self_regression_threshold self |}.

Definition pre_context (data_file : string) (max_workers : Z)
    : Hooks.HookContext HookObj :=
  {| Hooks.ctx_hook_type := Hooks.INTEGRATION_TEST;
     Hooks.ctx_session_id := None; Hooks.ctx_turn_id := None;
     Hooks.ctx_trajectory_id := None;
     Hooks.ctx_data := Some (PipelineArgs data_file max_workers);
     Hooks.ctx_results := None; Hooks.ctx_error := None |}.

Definition post_context (evaluation_results : EvaluationResults)
    : Hooks.HookContext HookObj :=
  {| Hooks.ctx_hook_type := Hooks.POST_EVALUATION;
     Hooks.ctx_session_id := None; Hooks.ctx_turn_id := None;
     Hooks.ctx_trajectory_id := None;
     Hooks.ctx_data := None;
     Hooks.ctx_results := Some (Results evaluation_results);
     Hooks.ctx_error := None |}.

(** [run_evaluation_pipeline]: what the call does (returns a report or
    raises) and the pipeline object after it. *)
Definition run_evaluation_pipeline (w : World) (data_file : string)
    (max_workers : Z) (self : CICDPipeline)
    : outcome PipelineReport * CICDPipeline :=
  let '(pre_results, hm1) :=
    Hooks.execute_hooks (w_pre_sched w) Hooks.INTEGRATION_TEST
      (pre_context data_file max_workers) (hooks_manager self) in
  let self1 := with_hooks_manager hm1 self in
  if negb (_check_pre_pipeline_tests pre_results) then
    (Returned (PrePipelineFailure "failed" "pre_pipeline"
                 "Pre-pipeline tests failed" pre_results),
     self1)
  else
    match
      Evaluator.run_concurrent_evaluation (w_env w) data_file max_workers
    with
    | Raised e => (Raised e, self1)
    | Returned output =>
        let evaluation_results := of_output output (w_elapsed w) in
        let '(post_results, hm2) :=
          Hooks.execute_hooks (w_post_sched w) Hooks.POST_EVALUATION
            (post_context evaluation_results) hm1 in
        let self2 := with_hooks_manager hm2 self in
        let quality_gate_result :=
          _check_quality_gates (quality_gate self) evaluation_results in
        match
          regression_result ←
            _check_performance_regression (quality_gate self)
              (self_regression_threshold self)
              (map h_results (evaluation_history self)) evaluation_results;
          pipeline_report ←
            _generate_pipeline_report evaluation_results quality_gate_result
              regression_result pre_results post_results;
          mret (regression_result, pipeline_report)
        with
        | Raised e => (Raised e, self2)
        | Returned (regression_result, pipeline_report) =>
            (Returned pipeline_report,
             {| quality_gate := quality_gate self;
                hooks_manager := hm2;
                evaluation_history :=
                  evaluation_history self ++
                  [{| h_results := evaluation_results;
                      h_quality_gate := quality_gate_result;
                      h_regression := regression_result;
                      h_pipeline_report := pipeline_report |}];
                self_regression_threshold := self_regression_threshold self |})
        end
    end.

(** The runs in the history of the pipeline all have a summary. *)
Definition history_ok (self : CICDPipeline) : Prop :=
  Forall has_summary (h_results <$> evaluation_history self).

(** [CICDPipeline(config, quality_gate)], given the hooks
    [create_default_hooks()] has registered. *)
Definition CICDPipeline_init (quality_gate : option QualityGate)
    (default_hooks : HooksManager) : CICDPipeline :=
  {| quality_gate := default QualityGate_default quality_gate;
     hooks_manager := default_hooks;
     evaluation_history := [];
     self_regression_threshold := regression_threshold |}.

End Pipeline.
Arguments World : clear implicits.

End CICD.

(** ** The hooks of hooks_system.py that read the context *)

Module HookLibrary.
Import Hooks.

Set Warnings "-register-all".

(** Python values, as far as the hooks tell them apart, and the classes
    that validation rules name. *)
Inductive PyVal :=
| VNone
| VBool (b : bool)
| VInt (n : Z)
| VFloat (x : float)
| VStr (s : string)
| VList (l : list PyVal)
| VDict (d : list (string * PyVal)).

Inductive PyType := TStr | TInt | TBool | TFloat | TList | TDict.

(** [bool(v)]. *)
Definition truthy (v : PyVal) : bool :=
  match v with
  | VNone => false
  | VBool b => b
  | VInt n => bool_decide (n ≠ 0)
  | VFloat x => negb (x =? 0)%float
  | VStr s => bool_decide (s ≠ "")
  | VList [] => false
  | VList (_ :: _) => true
  | VDict [] => false
  | VDict (_ :: _) => true
  end.

(** [isinstance(v, t)]; [bool] is a subclass of [int]. *)
Definition isinstance (v : PyVal) (t : PyType) : bool :=
  match v, t with
  | VStr _, TStr => true
  | VInt _, TInt => true
  | VBool _, TBool => true
  | VBool _, TInt => true
  | VFloat _, TFloat => true
  | VList _, TList => true
  | VDict _, TDict => true
  | _, _ => false
  end.

(** The dicts [context.data] and [context.results], and the dicts hook
    functions return. *)
Abbreviation Dict := (gmap string PyVal).

(** One rule of [validation_rules]: the entries ['required'] and
    ['type'], either of which may be absent. *)
Record Rule := {
  required : option PyVal;
  type : option PyType;
}.

(** One element of [validation_results]. *)
Record ValidationResult := {
  v_field : string;
  v_status : string;
  v_message : option string;
}.

(** One round of the loop of [DataValidationHook.execute]. *)
Definition validate_field (data : Dict) (entry : string * Rule)
    : option ValidationResult :=
  let '(field, rule) := entry in
  match data !! field with
  | Some value =>
      Some
        (if truthy (default (VBool false) (required rule))
            && negb (truthy value)
         then {| v_field := field; v_status := "failed";
                 v_message :=
                   Some ("Required field " +:+ field +:+ " is empty") |}
         else if match type rule with
                 | Some t => negb (isinstance value t)
                 | None => false
                 end
         then {| v_field := field; v_status := "failed";
                 v_message :=
                   Some ("Field " +:+ field +:+ " has wrong type") |}
         else {| v_field := field; v_status := "passed";
                 v_message := None |})
  | None => None
  end.

(** The list [validation_results] for the rules, in the order of
    [validation_rules.items()]. *)
Definition validation_results (validation_rules : list (string * Rule))
    (context : HookContext Dict) : list ValidationResult :=
  match ctx_data context with
  | Some data =>
      if bool_decide (dom data ≠ ∅)
      then omap (validate_field data) validation_rules
      else []
  | None => []
  end.

Definition encode_result (r : ValidationResult) : PyVal :=
  VDict ([("field", VStr (v_field r)); ("status", VStr (v_status r))]
         ++ match v_message r with
            | Some m => [("message", VStr m)]
            | None => []
            end).

(** [DataValidationHook]; the entry ['validation_results'] of the dict it
    returns is kept in [result]. *)
Definition DataValidationHook (nm : string)
    (validation_rules : list (string * Rule)) (prio : Z) : BaseHook Dict :=
  {| name := nm; hook_type := PRE_EVALUATION; priority := prio;
     enabled := true;
     execute := λ context,
       Returned
         {| status := "success"; hook_name := nm;
            result :=
              Some {["validation_results" :=
                       VList (encode_result
                                <$> validation_results validation_rules
                                      context)]};
            error := None; error_type := None; message := None |} |}.

(** The rules [create_default_hooks] gives its validation hook. *)
Definition default_validation_rules : list (string * Rule) :=
  [("question", {| required := Some (VBool true); type := Some TStr |});
   ("ground_truth", {| required := Some (VBool true); type := Some TStr |});
   ("question_id", {| required := Some (VBool true); type := Some TInt |})].

(** [test_data_integrity]. *)
Definition missing_fields (data : Dict) : list string :=
  filter (λ field, ¬ is_Some (data !! field)) ["question"; "ground_truth"].

Definition test_data_integrity (context : HookContext Dict) : outcome Dict :=
  match ctx_data context with
  | Some data =>
      if bool_decide (dom data ≠ ∅) then
        match missing_fields data with
        | [] =>
            Returned (<["message" := VStr "All required fields present"]>
                        {["integrity" := VStr "passed"]})
        | missing =>
            Returned (<["missing_fields" := VList (VStr <$> missing)]>
                        {["integrity" := VStr "failed"]})
        end
      else
        Returned (<["error" := VStr "No data provided"]>
                    {["integrity" := VStr "failed"]})
  | None =>
      Returned (<["error" := VStr "No data provided"]>
                  {["integrity" := VStr "failed"]})
  end.

(** The hook [create_default_hooks] makes of it. *)
Definition integrity_hook : BaseHook Dict :=
  IntegrationTestHook "data_integrity_test" test_data_integrity 9.

End HookLibrary.

(** ** The orchestrator at work *)

Module Orchestration.
Import Evaluator.

Section Batch.
Context {Obj : Type}.

(** The result dict the session loop collects for a turn: what
    [evaluate_single_turn] returns, or the ['exception'] dict of its
    fault. *)
Definition turn_result (env : Environment Obj)
    (session : ConversationSession Obj) (turn : ConversationTurn Obj)
    : TurnResult Obj :=
  match evaluate_single_turn env session turn with
  | Returned result => result
  | Raised e =>
      {| tr_session_id := session_id session; tr_turn_id := turn_id turn;
         status := "exception"; results := None;
         error := Some (exn_str e) |}
  end.

(** A turn of the session is a success. *)
Definition succeeded (env : Environment Obj)
    (session : ConversationSession Obj) (turn : ConversationTurn Obj)
    : Prop :=
  status (turn_result env session turn) = "success".

#[global] Instance succeeded_dec (env : Environment Obj)
    (session : ConversationSession Obj) (turn : ConversationTurn Obj)
    : Decision (succeeded env session turn).
Proof. unfold succeeded. apply _. Defined.

(** What [run_evaluation] of the evaluators of the repository returns
    (evaluators/cot_evaluator.py): [None], or a dict with the entries
    ['question_id'], ['question'], ['ground_truth'], ['agent_response'],
    ['evaluation_results'] and ['trace_id'].  [answers] says so of the
    evaluators of the surroundings, for the turns of a session: a result
    they return has an ['agent_response'] entry. *)
Definition answers (env : Environment Obj)
    (session : ConversationSession Obj) : Prop :=
  ∀ turn p,
    turn ∈ turns session →
    run_capability env (request_of env session turn) = Returned (Some p) →
    is_Some (agent_response p).

(** The same surroundings with other completion orders. *)
Definition with_picks (turn_picks : string → list nat)
    (session_picks : list nat) (env : Environment Obj) : Environment Obj :=
  {| env_setup := env_setup env;
     env_create_evaluator := env_create_evaluator env;
     env_uuid1 := env_uuid1 env;
     env_uuid4 := env_uuid4 env;
     env_json_load := env_json_load env;
     env_turn_picks := turn_picks;
     env_session_picks := session_picks |}.

(** The sessions built from the trajectories of a data file, the [n]-th
    with the [n]-th identifier, when every specification has a question. *)
Definition sessions_of (env : Environment Obj)
    (data : list (string * list (TurnData Obj)))
    : list (ConversationSession Obj) :=
  imap (λ n entry,
          {| session_id := env_uuid4 env n; trajectory_id := entry.1;
             turns := imap turn_of entry.2; context := ∅;
             max_concurrent_turns := 3 |})
       data.

(** The turn results of a batch, session by session in the order of the
    data file, turn by turn in the order of the trajectory. *)
Definition expected_results (env : Environment Obj)
    (data : list (string * list (TurnData Obj))) : list (TurnResult Obj) :=
  session ← sessions_of env data;
  turn_result env session <$> turns session.

(** The dict the batch loop appends for a completed session. *)
Definition session_record
    (done : list (TurnResult Obj) * ConversationSession Obj)
    : SessionResult Obj :=
  {| sr_session_id := session_id done.2;
     sr_trajectory_id := trajectory_id done.2;
     sr_results := Some done.1;
     sr_context := Some (context done.2);
     sr_error := None; sr_status := None |}.

(** A data file whose every specification has a question. *)
Definition well_formed (data : list (string * list (TurnData Obj))) : Prop :=
  Forall (λ entry, Forall has_question entry.2) data.

(** The metrics the summary tracks. *)
Definition tracked : list string :=
  ["helpfulness"; "faithfulness"; "instruction_following"; "overall"].

(** The scores a turn result reports for the metric [m]: those of the
    entries of its ['metrics_scores'] whose name is [m] in lower case and
    that have a ['score'], when the turn is a ['success']. *)
Definition score_for (m : string) (entry : string * MetricData)
    : option float :=
  if decide (Py.lower entry.1 = m) then score entry.2 else None.

Definition reported_by (m : string) (r : TurnResult Obj) : list float :=
  if decide (status r = "success") then
    match (results r ≫= evaluation_results) ≫= metrics_scores with
    | Some ms => omap (score_for m) ms
    | None => []
    end
  else [].

Definition reported (m : string) (rs : list (TurnResult Obj))
    : list float :=
  r ← rs; reported_by m r.

End Batch.

End Orchestration.

(** ** A dispatcher in use *)

Module Dispatcher.
Import Hooks.

Section Calls.
Context {Obj : Type}.

(** The calls a user makes on a dispatcher. *)
Inductive call :=
| Register (hook : BaseHook Obj)
| Unregister (hook_name : string) (ty : HookType)
| Fire (sched : list nat) (ty : HookType) (context : HookContext Obj).

Definition apply_call (self : HooksManager Obj) (c : call)
    : HooksManager Obj :=
  match c with
  | Register hook => register_hook hook self
  | Unregister hook_name ty => unregister_hook hook_name ty self
  | Fire sched ty context => (execute_hooks sched ty context self).2
  end.

(** The dispatcher [HooksManager()] after the calls [cs]. *)
Definition after (cs : list call) : HooksManager Obj :=
  foldl apply_call HooksManager_init cs.

(** The record [execute_hooks] keeps for a hook: what the hook returns,
    or the ['exception'] record of its fault. *)
Definition record_of (context : HookContext Obj) (hook : BaseHook Obj)
    : HookRecord Obj :=
  match execute hook context with
  | Returned r => r
  | Raised e =>
      {| status := "exception"; hook_name := name hook; result := None;
         error := Some (exn_str e); error_type := None; message := None |}
  end.

End Calls.
Arguments call : clear implicits.

End Dispatcher.

(** ** A pipeline in use *)

Module PipelineRuns.
Import CICD.

(** A gate that asks at most what another asks. *)
Definition laxer (g' g : QualityGate) : Prop :=
  (min_success_rate g' <= min_success_rate g)%Q
  ∧ (min_average_score g' <=? min_average_score g)%float = true
  ∧ (max_execution_time g <= max_execution_time g')%Q
  ∧ (max_failed_turns g ≤ max_failed_turns g')%Z
  ∧ required_metrics g' ⊆ required_metrics g.

Section Runs.
Context {Resp : Type}.

(** One call of [run_evaluation_pipeline] and its surroundings. *)
Record Call := {
  c_world : World Resp;
  c_data_file : string;
  c_max_workers : Z;
}.

Definition run (self : CICDPipeline) (c : Call)
    : outcome PipelineReport * CICDPipeline :=
  run_evaluation_pipeline (c_world c) (c_data_file c) (c_max_workers c) self.

(** The pipeline object after [CICDPipeline(config, quality_gate)] and
    the calls [cs], whatever they returned or raised. *)
Definition after (quality_gate : option QualityGate)
    (default_hooks : HooksManager) (cs : list Call) : CICDPipeline :=
  foldl (λ self c, (run self c).2)
        (CICDPipeline_init quality_gate default_hooks) cs.

End Runs.
Arguments Call : clear implicits.

End PipelineRuns.

(** ** Concrete runs *)

Module Scenarios.

(** Hook functions: one that returns, one that raises. *)
Definition ok_function (_ : Hooks.HookContext string) : outcome string :=
  Returned "done".

Definition faulty_function (_ : Hooks.HookContext string) : outcome string :=
  Raised (Exception "RuntimeError" "boom").

Definition plain_context (ty : Hooks.HookType) : Hooks.HookContext string :=
  {| Hooks.ctx_hook_type := ty;
     Hooks.ctx_session_id := None; Hooks.ctx_turn_id := None;
     Hooks.ctx_trajectory_id := None; Hooks.ctx_data := None;
     Hooks.ctx_results := None; Hooks.ctx_error := None |}.

(** A dispatcher with one failing and one succeeding hook at the same
    lifecycle point. *)
Definition two_hooks : Hooks.HooksManager string :=
  Hooks.register_hook
    (Hooks.CustomHook "good" Hooks.CUSTOM ok_function 0)
    (Hooks.register_hook
       (Hooks.CustomHook "bad" Hooks.CUSTOM faulty_function 0)
       Hooks.HooksManager_init).

(** The error handlers of [create_default_hooks], an error they handle,
    and a dispatcher that has fired one succeeding hook before. *)
Definition default_error_handlers
    : gmap string (Hooks.HookContext string → outcome string) :=
  <["ValidationException" := λ _, Returned "skip"]>
    (<["ThrottlingException" := λ _, Returned "retry after 60"]>
       (<["ClientError" := λ _, Returned "retry after 30"]> ∅)).

Definition error_context : Hooks.HookContext string :=
  {| Hooks.ctx_hook_type := Hooks.ERROR_HANDLER;
     Hooks.ctx_session_id := None; Hooks.ctx_turn_id := None;
     Hooks.ctx_trajectory_id := None; Hooks.ctx_data := None;
     Hooks.ctx_results := None;
     Hooks.ctx_error := Some (Exception "ClientError" "access denied") |}.

Definition with_error_hook : Hooks.HooksManager string :=
  (Hooks.execute_hooks [] Hooks.CUSTOM (plain_context Hooks.CUSTOM)
     (Hooks.register_hook
        (Hooks.ErrorHandlingHook "error_handler" default_error_handlers 10)
        (Hooks.register_hook
           (Hooks.CustomHook "good" Hooks.CUSTOM ok_function 0)
           Hooks.HooksManager_init))).2.

(** Evaluators with a fixed result, and surroundings in which the class
    for the tag ['COT'] is [cot]. *)
Definition payload (a : option string) : Evaluator.Payload string :=
  {| Evaluator.agent_response := a; Evaluator.evaluation_results := None |}.

Definition fixed (r : outcome (option (Evaluator.Payload string)))
    : Evaluator.EvaluatorClass string :=
  λ _, Returned r.

Definition environment (cot : Evaluator.EvaluatorClass string)
    (data : outcome (list (string * list (Evaluator.TurnData string))))
    (picks : list nat) : Evaluator.Environment string :=
  {| Evaluator.env_setup := Returned ();
     Evaluator.env_create_evaluator :=
       Evaluator.create_evaluator
         (fixed (Returned None)) (fixed (Returned None)) cot
         (fixed (Raised (Exception "RuntimeError" "agent unreachable")));
     Evaluator.env_uuid1 := λ sid i, sid +:+ "/" +:+ pretty i;
     Evaluator.env_uuid4 := λ n, "session-" +:+ pretty n;
     Evaluator.env_json_load := λ _, data;
     Evaluator.env_turn_picks := λ _, picks;
     Evaluator.env_session_picks := [] |}.

Definition spec (q ty : option string) : Evaluator.TurnData string :=
  {| Evaluator.td_question := q; Evaluator.td_ground_truth := None;
     Evaluator.td_question_type := ty; Evaluator.td_metadata := None |}.

(** A session whose turns have the given evaluation-type tags. *)
Definition turn (i : nat) (ty : string) : Evaluator.ConversationTurn string :=
  {| Evaluator.turn_id := i; Evaluator.question := "q";
     Evaluator.expected_response := "";
     Evaluator.evaluation_type := ty;
     Evaluator.metadata := ∅ |}.

Definition session_of (tags : list string)
    : Evaluator.ConversationSession string :=
  {| Evaluator.session_id := "session-0";
     Evaluator.trajectory_id := "trajectory";
     Evaluator.turns := imap turn tags;
     Evaluator.context := ∅;
     Evaluator.max_concurrent_turns := 3 |}.

(** Batches for the gate and the regression check: every tracked metric
    has the average [v]; the success rate is [rate], two turns failed and
    the run took 12 seconds. *)
Definition averages (v : float) : gmap string float :=
  <["instruction_following" := v]>
    (<["faithfulness" := v]> (<["helpfulness" := v]> ∅)).

Definition batch (rate : Q) (avg : gmap string float)
    : CICD.EvaluationResults :=
  {| CICD.summary :=
       Some {| CICD.success_rate := Some rate;
               CICD.failed_turns := Some 2;
               CICD.average_scores := Some avg |};
     CICD.execution_time := Some 12%Q;
     CICD.total_sessions := Some 1%nat;
     CICD.total_turns := Some 10%nat |}.

(** The history of the regression example: three runs in which every
    tracked metric has the average 0.9. *)
Definition steady_history : list CICD.EvaluationResults :=
  replicate 3 (batch (9 # 10) (averages 0.9)).

(** Two runs with the average 0.8, whose mean is 0.8 (the current
    average 0.7 is 0.10000000000000009 below it); three runs with the
    averages 0.8, 0.9 and 1.0, whose mean is 0.9. *)
Definition two_runs : list CICD.EvaluationResults :=
  replicate 2 (batch (9 # 10) (averages 0.8)).

Definition rising_history : list CICD.EvaluationResults :=
  [batch (9 # 10) (averages 0.8); batch (9 # 10) (averages 0.9);
   batch (9 # 10) (averages 1)].

(** A pipeline with the three integration tests of
    [create_default_hooks], all of which return, and surroundings in
    which the data file holds [data]. *)
Definition integration_hooks : CICD.HooksManager :=
  Hooks.register_all
    [Hooks.IntegrationTestHook "agent_connectivity_test"
       (λ _, Returned (CICD.Value "connectivity: success")) 10;
     Hooks.IntegrationTestHook "data_integrity_test"
       (λ _, Returned (CICD.Value "integrity: failed")) 9;
     Hooks.IntegrationTestHook "langfuse_connection_test"
       (λ _, Returned (CICD.Value "langfuse: connected")) 8].

Definition pipeline : CICD.CICDPipeline :=
  CICD.CICDPipeline_init None integration_hooks.

(** A result with an agent response and the score [v], or 0.9, for the
    three required metrics. *)
Definition scored (v : float) : Evaluator.Payload string :=
  {| Evaluator.agent_response := Some "answer";
     Evaluator.evaluation_results :=
       Some {| Evaluator.metrics_scores :=
                 Some [("Helpfulness", {| Evaluator.score := Some v |});
                       ("Faithfulness", {| Evaluator.score := Some v |});
                       ("Instruction_following",
                        {| Evaluator.score := Some v |})] |} |}.

Definition scored_payload : Evaluator.Payload string := scored 0.9.

Definition world
    (data : outcome (list (string * list (Evaluator.TurnData string))))
    : CICD.World string :=
  {| CICD.w_env :=
       environment (fixed (Returned (Some scored_payload))) data [];
     CICD.w_pre_sched := [2%nat; 0%nat];
     CICD.w_post_sched := [];
     CICD.w_elapsed := 12%Q |}.

(** A data file with one trajectory whose only turn has no question, and
    one whose only turn is well formed. *)
Definition malformed_data : list (string * list (Evaluator.TurnData string)) :=
  [("trajectory", [spec None (Some "COT")])].

Definition good_data : list (string * list (Evaluator.TurnData string)) :=
  [("trajectory", [spec (Some "What is the weather?") (Some "COT")])].

(** A data file with one trajectory of three turns, for the evaluators
    of the tags ['COT'], ['RAG'] and ['CUSTOM']. *)
Definition mixed_data : list (string * list (Evaluator.TurnData string)) :=
  [("trajectory",
    [spec (Some "What is the weather?") (Some "COT");
     spec (Some "And tomorrow?") (Some "RAG");
     spec (Some "And in Paris?") (Some "CUSTOM")])].

(** The surroundings in which the evaluator for the tag ['COT'] is
    [cot], and the pipeline after two runs in which every score is 0.9. *)
Definition world_with (cot : Evaluator.EvaluatorClass string)
    : CICD.World string :=
  {| CICD.w_env := environment cot (Returned good_data) [];
     CICD.w_pre_sched := [2%nat; 0%nat];
     CICD.w_post_sched := [];
     CICD.w_elapsed := 12%Q |}.

Definition seasoned_pipeline : CICD.CICDPipeline :=
  PipelineRuns.after None integration_hooks
    (replicate 2
       {| PipelineRuns.c_world := world (Returned good_data);
          PipelineRuns.c_data_file := "data_file.json";
          PipelineRuns.c_max_workers := 5 |}).

(** A hook whose [execute] raises, and the calls that register it, at
    priority 5, after a hook that succeeds, at priority 0. *)
Definition broken_hook : Hooks.BaseHook string :=
  {| Hooks.name := "broken"; Hooks.hook_type := Hooks.CUSTOM;
     Hooks.priority := 5; Hooks.enabled := true;
     Hooks.execute := λ _, Raised (Exception "RuntimeError" "boom") |}.

Definition good_hook : Hooks.BaseHook string :=
  Hooks.CustomHook "good" Hooks.CUSTOM ok_function 0.

Definition good_then_broken : list (Dispatcher.call string) :=
  [Dispatcher.Register good_hook; Dispatcher.Register broken_hook].

(** The context of the first turn of a trajectory: the question, the
    expected answer and the ordinal 0. *)
Definition first_turn_context : Hooks.HookContext HookLibrary.Dict :=
  {| Hooks.ctx_hook_type := Hooks.PRE_EVALUATION;
     Hooks.ctx_session_id := Some "test_session";
     Hooks.ctx_turn_id := Some 0;
     Hooks.ctx_trajectory_id := Some "test_trajectory";
     Hooks.ctx_data :=
       Some (<["question_id" := HookLibrary.VInt 0]>
               (<["ground_truth" := HookLibrary.VStr "Sunny."]>
                  {["question" := HookLibrary.VStr "What is the weather?"]}));
     Hooks.ctx_results := None; Hooks.ctx_error := None |}.

(** Two batches with the same three successful turns, whose scores for
    helpfulness are 0.1, 0.2 and 0.3, in opposite orders. *)
Definition helpfulness (v : float) : Evaluator.Payload string :=
  {| Evaluator.agent_response := Some "answer";
     Evaluator.evaluation_results :=
       Some {| Evaluator.metrics_scores :=
                 Some [("helpfulness", {| Evaluator.score := Some v |})] |} |}.

Definition turn_record (i : nat) (v : float) : Evaluator.TurnResult string :=
  {| Evaluator.tr_session_id := "session-0"; Evaluator.tr_turn_id := i;
     Evaluator.status := "success";
     Evaluator.results := Some (helpfulness v);
     Evaluator.error := None |}.

Definition session_result (rs : list (Evaluator.TurnResult string))
    : Evaluator.SessionResult string :=
  {| Evaluator.sr_session_id := "session-0";
     Evaluator.sr_trajectory_id := "trajectory";
     Evaluator.sr_results := Some rs;
     Evaluator.sr_context := Some ∅;
     Evaluator.sr_error := None; Evaluator.sr_status := None |}.

Definition batch_in_order : list (Evaluator.SessionResult string) :=
  [session_result [turn_record 0 0.1; turn_record 1 0.2; turn_record 2 0.3]].

Definition batch_reversed : list (Evaluator.SessionResult string) :=
  [session_result [turn_record 2 0.3; turn_record 1 0.2; turn_record 0 0.1]].

(** The default gate with a lower minimum success rate, and one that
    also requires a metric the summary does not track. *)
Definition lenient_gate : CICD.QualityGate :=
  {| CICD.min_success_rate := 5 # 10;
     CICD.min_average_score := 0.7;
     CICD.max_execution_time := 300;
     CICD.max_failed_turns := 5;
     CICD.required_metrics := ["helpfulness"; "faithfulness"] |}.

Definition accuracy_gate : CICD.QualityGate :=
  {| CICD.min_success_rate := 5 # 10;
     CICD.min_average_score := 0.7;
     CICD.max_execution_time := 300;
     CICD.max_failed_turns := 5;
     CICD.required_metrics := ["helpfulness"; "accuracy"] |}.

(** A run with low averages, older than the three of [steady_history]. *)
Definition older_history : list CICD.EvaluationResults :=
  [batch (1 # 10) (averages 0.1)].

(** The three integration tests of [integration_hooks], the second of
    which raises. *)
Definition raising_tests
    : list (string * (Hooks.HookContext CICD.HookObj → outcome CICD.HookObj)
            * Z) :=
  [("agent_connectivity_test",
    λ _, Returned (CICD.Value "connectivity: success"), 10);
   ("data_integrity_test",
    λ _, Raised (Exception "TypeError" "argument is not iterable"), 9);
   ("langfuse_connection_test",
    λ _, Returned (CICD.Value "langfuse: connected"), 8)].

Definition raising_pipeline : CICD.CICDPipeline :=
  CICD.CICDPipeline_init None
    (Hooks.register_all
       ((λ t, Hooks.IntegrationTestHook t.1.1 t.1.2 t.2) <$> raising_tests)).

End Scenarios.

(** * Properties *)

(** ** Python calls *)

Module PyFacts.

(** The sort of hooks: [lt x y] is [key x > key y]. *)
Section SortByKey.
Context {A : Type} (key : A → Z).

Lemma sort_insert_perm (x : A) (l : list A) :
  Py.sort_insert (key_lt key) x l ≡ₚ x :: l.
Proof.
  induction l as [|y l IH]; simpl; [done|].
  destruct ((key_lt key) y x); [|done].
  rewrite IH. apply Permutation_swap.
Qed.

Lemma sort_perm (l : list A) : Py.sort (key_lt key) l ≡ₚ l.
Proof.
  induction l as [|x l IH]; simpl; [done|].
  by rewrite sort_insert_perm, IH.
Qed.

Lemma sort_insert_sorted (x : A) (l : list A) :
  StronglySorted (key_ge key) l →
  StronglySorted (key_ge key) (Py.sort_insert (key_lt key) x l).
Proof.
  induction 1 as [|y l Hs IH Hy]; simpl.
  { repeat constructor. }
  unfold key_lt at 1. case_bool_decide as Hlt.
  - constructor; [done|].
    rewrite sort_insert_perm. constructor; [unfold key_ge; lia | done].
  - constructor; [by constructor|].
    constructor; [unfold key_ge; lia|].
    eapply Forall_impl; [exact Hy|]. unfold key_ge. intros z Hz. lia.
Qed.

Lemma sort_sorted (l : list A) :
  StronglySorted (key_ge key) (Py.sort (key_lt key) l).
Proof.
  induction l as [|x l IH]; simpl; [constructor|].
  by apply sort_insert_sorted.
Qed.

(** Stability: among the elements of one key nothing moves. *)
Lemma sort_insert_filter (k : Z) (x : A) (l : list A) :
  StronglySorted (key_ge key) l →
  filter (λ y, key y = k) (Py.sort_insert (key_lt key) x l)
  = filter (λ y, key y = k) (x :: l).
Proof.
  induction 1 as [|y l Hs IH Hy]; simpl; [done|].
  unfold key_lt at 1. case_bool_decide as Hlt; [|done].
  rewrite !filter_cons in *. rewrite IH.
  repeat case_decide; try done; lia.
Qed.

Lemma sort_filter (k : Z) (l : list A) :
  filter (λ y, key y = k) (Py.sort (key_lt key) l) = filter (λ y, key y = k) l.
Proof.
  induction l as [|x l IH]; simpl; [done|].
  rewrite sort_insert_filter by apply sort_sorted.
  by rewrite !filter_cons, IH.
Qed.

End SortByKey.

(** A future holds the value of its own task. *)
Lemma pool_run_lookup {A} (sched : list nat) (tasks : list A) i r :
  Py.pool_run sched tasks !! i = Some (Some r) → tasks !! i = Some r.
Proof.
  unfold Py.pool_run.
  assert (∀ cells : list (option A),
            (∀ j s, cells !! j = Some (Some s) → tasks !! j = Some s) →
            ∀ j s,
              foldl (λ cells i,
                       match tasks !! i with
                       | Some t => <[i := Some t]> cells
                       | None => cells
                       end) cells sched !! j = Some (Some s) →
              tasks !! j = Some s) as Hgen.
  { induction sched as [|n sched IH]; intros cells Hc j s; simpl; [by auto|].
    apply IH. intros j' s'.
    destruct (tasks !! n) as [t|] eqn:Ht; [|by auto].
    rewrite list_lookup_insert_Some. intros [(-> & [= <-] & _)|[_ ?]]; auto. }
  apply Hgen. intros j s. rewrite lookup_replicate. by intros [[=] _].
Qed.

Lemma future_result_task {A} (sched : list nat) (tasks : list A) i t :
  tasks !! i = Some t →
  Py.future_result (Py.pool_run sched tasks) i t = t.
Proof.
  intros Ht. unfold Py.future_result.
  destruct (Py.pool_run sched tasks !! i) as [[r|]|] eqn:Hc; [|done..].
  apply pool_run_lookup in Hc. congruence.
Qed.

(** [as_completed] yields every pending future once. *)
Lemma as_completed_perm {A} (picks : list nat) (pending : list A) :
  Py.as_completed picks pending ≡ₚ pending.
Proof.
  revert pending. induction picks as [|p picks IH]; intros pending; simpl.
  { done. }
  destruct (pending !! _) as [x|] eqn:Hx; [|done].
  rewrite IH. symmetry. by apply delete_Permutation.
Qed.

Lemma as_completed_fmap {A B} (f : A → B) (picks : list nat) (l : list A) :
  Py.as_completed picks (f <$> l) = f <$> Py.as_completed picks l.
Proof.
  revert l. induction picks as [|p picks IH]; intros l; simpl; [done|].
  rewrite length_fmap, list_lookup_fmap.
  destruct (l !! _) as [x|]; simpl; [|done].
  by rewrite <-list_fmap_delete, IH.
Qed.

(** Texts. *)
Lemma string_length_app (s t : string) :
  String.length (s +:+ t) = (String.length s + String.length t)%nat.
Proof.
  induction s as [|a s IH]; [done|].
  change (S (String.length (s +:+ t))
          = S (String.length s + String.length t)).
  by rewrite IH.
Qed.

Lemma string_app_inj_r (s1 s2 t : string) : s1 +:+ t = s2 +:+ t → s1 = s2.
Proof.
  revert s2. induction s1 as [|a s1 IH]; intros [|b s2] H.
  - done.
  - apply (f_equal String.length) in H.
    change ("" +:+ t) with t in H.
    rewrite string_length_app in H. cbn in H. lia.
  - apply (f_equal String.length) in H.
    change ("" +:+ t) with t in H.
    rewrite string_length_app in H. cbn in H. lia.
  - change (String a (s1 +:+ t) = String b (s2 +:+ t)) in H.
    injection H as -> H. f_equal. by apply IH.
Qed.

(** Writing entries into a dict one after the other. *)
Section Writes.
Context {V : Type}.
Implicit Types (m : gmap string V) (ws : list (string * V)).

Lemma writes_dom ws m :
  dom (foldl (λ m w, <[w.1 := w.2]> m) m ws) = dom m ∪ list_to_set ws.*1.
Proof.
  revert m. induction ws as [|w ws IH]; intros m; simpl.
  { set_solver. }
  rewrite IH, dom_insert_L. set_solver.
Qed.

Lemma writes_other ws m (k : string) :
  k ∉ ws.*1 → foldl (λ m w, <[w.1 := w.2]> m) m ws !! k = m !! k.
Proof.
  revert m. induction ws as [|w ws IH]; intros m Hk; simpl; [done|].
  rewrite fmap_cons, not_elem_of_cons in Hk. destruct Hk as [Hne Hk].
  rewrite IH by done. by rewrite lookup_insert_ne.
Qed.

Lemma writes_lookup ws m (k : string) (v : V) :
  NoDup ws.*1 → (k, v) ∈ ws →
  foldl (λ m w, <[w.1 := w.2]> m) m ws !! k = Some v.
Proof.
  revert m. induction ws as [|w ws IH]; intros m Hnd Hin; simpl.
  { by apply elem_of_nil in Hin. }
  rewrite fmap_cons, NoDup_cons in Hnd. destruct Hnd as [Hw Hnd].
  apply elem_of_cons in Hin as [<-|Hin].
  - rewrite writes_other by done. simpl. by rewrite lookup_insert_eq.
  - by apply IH.
Qed.

End Writes.

(** One more firing without a success does not raise the quotient. *)
Lemma truediv_S_le (s t : nat) :
  (0 < t)%nat → (Py.truediv s (S t) <= Py.truediv s t)%Q.
Proof.
  intros Ht. destruct t as [|t]; [lia|].
  unfold Py.truediv, Qdiv, Qmult, Qinv, Qle, inject_Z. simpl.
  rewrite !Pos.mul_1_l. nia.
Qed.

Lemma truediv_lt_S (s t : nat) :
  (0 < t)%nat → (Py.truediv s t < Py.truediv (S s) t)%Q.
Proof.
  intros Ht. destruct t as [|t]; [lia|].
  unfold Py.truediv, Qdiv, Qmult, Qinv, Qlt, inject_Z. simpl.
  rewrite !Pos.mul_1_l. nia.
Qed.

Lemma truediv_S_lt (s t : nat) :
  (0 < t)%nat → (0 < s)%nat → (Py.truediv s (S t) < Py.truediv s t)%Q.
Proof.
  intros Ht Hs. destruct t as [|t]; [lia|].
  unfold Py.truediv, Qdiv, Qmult, Qinv, Qlt, inject_Z. simpl.
  rewrite !Pos.mul_1_l. nia.
Qed.

(** Quotients of counters. *)
Lemma truediv_bounds (s t : nat) :
  (s ≤ t)%nat → (0 < t)%nat →
  (0 <= Py.truediv s t)%Q ∧ (Py.truediv s t <= 1)%Q
  ∧ ((Py.truediv s t == 1)%Q ↔ s = t)
  ∧ ((Py.truediv s t == 0)%Q ↔ s = 0%nat).
Proof.
  intros Hle Ht. destruct t as [|t]; [lia|].
  unfold Py.truediv, Qdiv, Qmult, Qinv, Qle, Qeq, inject_Z. simpl.
  rewrite !Pos.mul_1_l. split_and!; try split; intros; lia.
Qed.

(** The order of binary64 floats, from the specification of the
    primitive comparisons. *)
Lemma SFleb_trans (x y z : spec_float) :
  SFleb x y = true → SFleb y z = true → SFleb x z = true.
Proof.
  unfold SFleb, SFcompare.
  destruct x as [sx|sx| |sx mx ex], y as [sy|sy| |sy my ey],
    z as [sz|sz| |sz mz ez]; try done;
    repeat match goal with s : bool |- _ => destruct s end; try done.
  all: destruct (Z.compare_spec ex ey), (Z.compare_spec ey ez),
         (Z.compare_spec ex ez); try done; try lia; subst;
       rewrite ?Pos.compare_cont_spec; unfold Pos.switch_Eq;
       destruct (Pos.compare_spec mx my), (Pos.compare_spec my mz),
         (Pos.compare_spec mx mz); simpl; try done; try lia.
Qed.

Lemma leb_trans (x y z : float) :
  (x <=? y)%float = true → (y <=? z)%float = true → (x <=? z)%float = true.
Proof. rewrite !leb_spec. apply SFleb_trans. Qed.

Lemma ltb_zero_not_leb (m : float) :
  (0 <? m)%float = true → (m <=? 0)%float = false.
Proof.
  rewrite ltb_spec, leb_spec.
  change (Prim2SF 0) with (S754_zero false).
  unfold SFltb, SFleb, SFcompare.
  destruct (Prim2SF m) as [s|s| |s mm e]; try done; by destruct s.
Qed.

(** Writes that give a key always the same value. *)
Lemma writes_lookup_fun {V} (ws : list (string * V)) (m : gmap string V)
    (k : string) (v : V) :
  (∀ w, w ∈ ws → w.1 = k → w.2 = v) → k ∈ ws.*1 →
  foldl (λ m w, <[w.1 := w.2]> m) m ws !! k = Some v.
Proof.
  revert m. induction ws as [|w ws IH]; intros m Hv Hk; simpl.
  { by apply elem_of_nil in Hk. }
  destruct (decide (k ∈ ws.*1)) as [Hin|Hnin].
  - apply IH; [|done]. intros w' Hw'. apply Hv. by right.
  - rewrite writes_other by done.
    rewrite fmap_cons in Hk. apply elem_of_cons in Hk as [->|Hk]; [|done].
    rewrite lookup_insert_eq. f_equal. apply Hv; [by left|done].
Qed.

End PyFacts.

(** ** hooks_system.py *)

Module HooksSpec.
Import Hooks.

Section Facts.
Context {Obj : Type}.
Implicit Types (self : HooksManager Obj) (hook : BaseHook Obj).
Implicit Types (regs hs : list (BaseHook Obj)).

Lemma register_all_snoc regs hook :
  register_all (regs ++ [hook]) = register_hook hook (register_all regs).
Proof. unfold register_all. by rewrite foldl_snoc. Qed.

Lemma hooks_register_hook hook self ty :
  hooks (register_hook hook self) ty =
  if decide (enabled hook ∧ hook_type hook = ty)
  then Py.sort (Py.key_lt priority) (hooks self ty ++ [hook])
  else hooks self ty.
Proof.
  unfold register_hook. destruct (enabled hook); simpl.
  - case_decide as Hd.
    + destruct Hd as [? <-]. by rewrite fn_lookup_insert.
    + rewrite fn_lookup_insert_ne; [done|]. intros Heq. by apply Hd.
  - done.
Qed.

Lemma register_all_sorted regs ty :
  StronglySorted (Py.key_ge priority) (hooks (register_all regs) ty).
Proof.
  induction regs as [|hook regs IH] using rev_ind.
  { constructor. }
  rewrite register_all_snoc, hooks_register_hook.
  case_decide; [apply PyFacts.sort_sorted | done].
Qed.

Lemma register_all_stable regs ty (p : Z) :
  filter (λ hook, priority hook = p) (hooks (register_all regs) ty)
  = filter (λ hook, priority hook = p)
      (filter (λ hook, enabled hook ∧ hook_type hook = ty) regs).
Proof.
  induction regs as [|hook regs IH] using rev_ind; [done|].
  rewrite register_all_snoc, hooks_register_hook, !filter_app.
  rewrite (filter_cons _ hook []), filter_nil.
  case_decide.
  - by rewrite PyFacts.sort_filter, filter_app, IH.
  - by rewrite IH, filter_nil, app_nil_r.
Qed.

(** [execute_hooks], with the pool taken out. *)
Lemma execute_hooks_eq sched ty context self :
  execute_hooks sched ty context self =
  match hooks self ty with
  | [] => ([], self)
  | _ =>
      (records_of context (hooks self ty),
       {| hooks := hooks self;
          execution_history :=
            execution_history self ++
            [{| ex_hook_type := value ty; ex_context := context;
                ex_results := records_of context (hooks self ty) |}];
          max_workers := max_workers self |})
  end.
Proof.
  unfold execute_hooks.
  destruct (hooks self ty) as [|hook0 rest] eqn:Hhs; [done|].
  assert ((if bool_decide (1 < length (hook0 :: rest))%nat
           then imap (λ i hook,
                        collect hook
                          (Py.future_result
                             (Py.pool_run sched
                                (map (λ hook, execute hook context)
                                     (hook0 :: rest)))
                             i (execute hook context)))
                     (hook0 :: rest)
           else [collect hook0 (execute hook0 context)])
          = records_of context (hook0 :: rest)) as ->; [|done].
  case_bool_decide as Hlen.
  - unfold records_of. etrans; [|apply imap_const].
    apply imap_ext. intros i hook Hi. unfold const. f_equal.
    apply PyFacts.future_result_task.
    change (map ?f ?l) with (f <$> l).
    by rewrite list_lookup_fmap, Hi.
  - destruct rest; [done|]. simpl in Hlen. lia.
Qed.

Lemma execute_hooks_records sched ty context self :
  (execute_hooks sched ty context self).1
  = records_of context (hooks self ty).
Proof.
  rewrite execute_hooks_eq. by destruct (hooks self ty).
Qed.

(** C6.  After any sequence of [register_hook] calls on a new
    dispatcher the hooks of a lifecycle point are in descending priority,
    the hooks of one priority are in the order of their registration, and
    a firing returns the records in the order of that list, whatever the
    order in which the workers finish. *)
Theorem hooks_sorted_and_fired_in_order regs ty :
  StronglySorted (λ h1 h2, (priority h2 ≤ priority h1)%Z)
    (hooks (register_all regs) ty)
  ∧ (∀ p : Z,
       filter (λ hook, priority hook = p) (hooks (register_all regs) ty)
       = filter (λ hook, priority hook = p)
           (filter (λ hook, enabled hook ∧ hook_type hook = ty) regs))
  ∧ (∀ sched context,
       (execute_hooks sched ty context (register_all regs)).1
       = map (λ hook, collect hook (execute hook context))
           (hooks (register_all regs) ty)).
Proof.
  split_and!.
  - apply register_all_sorted.
  - intros p. apply register_all_stable.
  - intros sched context. apply execute_hooks_records.
Qed.


(** *** The summary *)

Lemma foldl_tally (rs : list (HookRecord Obj)) (acc : nat * nat) :
  foldl tally acc rs = (acc.1 + successes rs, acc.2 + failures rs)%nat.
Proof.
  revert acc. induction rs as [|r rs IH]; intros [a b]; simpl.
  { f_equal; unfold successes, failures; simpl; lia. }
  rewrite IH. unfold tally, successes, failures. rewrite !filter_cons.
  case_decide; simpl.
  - rewrite decide_False by tauto. f_equal; simpl; lia.
  - rewrite decide_True by done. f_equal; simpl; lia.
Qed.

Lemma successes_app (l k : list (HookRecord Obj)) :
  successes (l ++ k) = (successes l + successes k)%nat.
Proof. unfold successes. by rewrite filter_app, length_app. Qed.

Lemma failures_app (l k : list (HookRecord Obj)) :
  failures (l ++ k) = (failures l + failures k)%nat.
Proof. unfold failures. by rewrite filter_app, length_app. Qed.

Lemma foldl_executions (es : list (Execution Obj)) (acc : nat * nat) :
  foldl (λ acc execution, foldl tally acc (ex_results execution)) acc es
  = (acc.1 + successes (concat (map ex_results es)),
     acc.2 + failures (concat (map ex_results es)))%nat.
Proof.
  revert acc. induction es as [|e es IH]; intros [a b]; simpl.
  { f_equal; unfold successes, failures; simpl; lia. }
  rewrite IH, foldl_tally, successes_app, failures_app. simpl.
  f_equal; lia.
Qed.

Lemma summary_eq self :
  get_execution_summary self =
  {| total_executions := length (execution_history self);
     successful_executions := successes (all_records self);
     failed_executions := failures (all_records self);
     success_rate :=
       if bool_decide (0 < length (execution_history self))%nat
       then Py.truediv (successes (all_records self))
              (length (execution_history self))
       else 0%Q |}.
Proof.
  unfold get_execution_summary. rewrite foldl_executions. done.
Qed.

(** *** Records that are not ['success'] *)

Lemma ErrorHandlingHook_execute_status nm handlers (context : HookContext Obj) :
  ∃ r, ErrorHandlingHook_execute nm handlers context = Returned r
       ∧ hook_name r = nm
       ∧ status r ∈ ["handled"; "failed"; "unhandled"; "no_error"].
Proof.
  unfold ErrorHandlingHook_execute.
  destruct (ctx_error context) as [err|];
    [|eexists; split_and!; [done..|set_solver]].
  destruct (handlers !! exn_type err) as [handler|];
    [|eexists; split_and!; [done..|set_solver]].
  destruct (handler context); eexists; (split_and!; [done..|set_solver]).
Qed.

Lemma error_records_status (context : HookContext Obj) hs :
  Forall is_ErrorHandlingHook hs →
  Forall (λ r, status r ∈ ["handled"; "failed"; "unhandled"; "no_error"])
    (records_of context hs).
Proof.
  unfold records_of. induction 1 as [|hook hs (nm & handlers & prio & ->) _ IH];
    simpl; constructor; [|done].
  destruct (ErrorHandlingHook_execute_status nm handlers context)
    as (r & -> & _ & Hst). done.
Qed.

Lemma no_success_counts (rs : list (HookRecord Obj)) :
  Forall (λ r, status r ≠ "success") rs →
  successes rs = 0%nat ∧ failures rs = length rs.
Proof.
  unfold successes, failures.
  induction 1 as [|r rs Hr _ [IH1 IH2]]; [done|].
  rewrite !filter_cons, decide_False, decide_True by done. simpl.
  by rewrite IH1, IH2.
Qed.

(** A record that is not ['success'] makes the rate lower than the same
    record with status ['success'] would. *)
Lemma non_success_record_lowers_rate self (es1 es2 : list (Execution Obj))
    (ex : Execution Obj) (rs1 rs2 : list (HookRecord Obj))
    (r r' : HookRecord Obj) :
  status r ≠ "success" → status r' = "success" →
  (success_rate
     (get_execution_summary
        (with_history (es1 ++ with_results (rs1 ++ r :: rs2) ex :: es2) self))
   < success_rate
       (get_execution_summary
          (with_history (es1 ++ with_results (rs1 ++ r' :: rs2) ex :: es2)
             self)))%Q.
Proof.
  intros Hr Hr'. rewrite !summary_eq. unfold all_records.
  cbn [with_history execution_history success_rate].
  rewrite !length_app. cbn [length].
  rewrite !bool_decide_true by lia.
  rewrite !map_app, !concat_app. cbn [map concat with_results ex_results].
  rewrite !successes_app.
  replace (successes (r :: rs2)) with (successes rs2).
  2:{ unfold successes. by rewrite filter_cons, decide_False. }
  replace (successes (r' :: rs2)) with (S (successes rs2)).
  2:{ unfold successes. by rewrite filter_cons, decide_True. }
  match goal with
  | |- (Py.truediv ?a ?t < Py.truediv ?b ?t)%Q =>
      replace b with (S a) by lia
  end.
  apply PyFacts.truediv_lt_S. lia.
Qed.

(** C10.  The summary counts a record as a success when its status is
    ['success'] and as a failure otherwise, and a record that is not
    ['success'] gives a lower success rate than the same record with
    status ['success'] would.  The records of error-handling hooks
    (['handled'], ['unhandled'], ['no_error'], and ['failed'] when the
    handler raises) are never ['success']: a firing of such hooks adds
    each of its records to the failure count, adds nothing to the success
    count, and the success rate after it is not higher than before, and
    lower when there was a success before. *)
Theorem non_success_records_count_as_failures self :
  let s := get_execution_summary self in
  successful_executions s = successes (all_records self)
  ∧ failed_executions s = failures (all_records self)
  ∧ (successes (all_records self) + failures (all_records self)
     = length (all_records self))%nat
  ∧ (∀ es1 es2 ex rs1 rs2 r r',
       status r ≠ "success" → status r' = "success" →
       (success_rate
          (get_execution_summary
             (with_history (es1 ++ with_results (rs1 ++ r :: rs2) ex :: es2)
                self))
        < success_rate
            (get_execution_summary
               (with_history (es1 ++ with_results (rs1 ++ r' :: rs2) ex :: es2)
                  self)))%Q)
  ∧ ∀ sched context,
      hooks self ERROR_HANDLER ≠ [] →
      Forall is_ErrorHandlingHook (hooks self ERROR_HANDLER) →
      let fired := execute_hooks sched ERROR_HANDLER context self in
      let s' := get_execution_summary fired.2 in
      Forall (λ r, status r ∈ ["handled"; "failed"; "unhandled"; "no_error"])
        fired.1
      ∧ length fired.1 = length (hooks self ERROR_HANDLER)
      ∧ failed_executions s' = (failed_executions s + length fired.1)%nat
      ∧ successful_executions s' = successful_executions s
      ∧ (success_rate s' <= success_rate s)%Q
      ∧ ((0 < successful_executions s)%nat
         → (success_rate s' < success_rate s)%Q).
Proof.
  intros s. subst s.
  split_and!; [by rewrite summary_eq..| | |].
  { unfold successes, failures.
    rewrite <-length_app. apply Permutation_length.
    apply filter_app_complement. }
  { intros; by apply non_success_record_lowers_rate. }
  intros sched context Hne Hall fired s'. subst s' fired.
  rewrite execute_hooks_eq.
  destruct (hooks self ERROR_HANDLER) as [|hook0 rest] eqn:Hhs; [done|].
  rewrite !summary_eq. unfold all_records.
  cbn [fst snd execution_history total_executions successful_executions
       failed_executions success_rate].
  rewrite map_app, concat_app, successes_app, failures_app.
  cbn [map concat ex_results].
  rewrite app_nil_r, length_app. cbn [length].
  pose proof (error_records_status context _ Hall) as Hst.
  destruct (no_success_counts (records_of context (hook0 :: rest))) as [Hs Hf].
  { eapply Forall_impl; [exact Hst|]. simpl. intros r Hr Heq. rewrite Heq in Hr.
    rewrite !elem_of_cons, elem_of_nil in Hr.
    destruct Hr as [Hr|[Hr|[Hr|[Hr|[]]]]]; discriminate Hr. }
  rewrite Hs, Hf, Nat.add_0_r, Nat.add_1_r.
  split_and!; [done|by unfold records_of; rewrite length_map|done..| |].
  - rewrite bool_decide_true by lia.
    destruct (execution_history self) as [|e es] eqn:Hh.
    + by vm_compute.
    + rewrite bool_decide_true by (simpl; lia).
      apply PyFacts.truediv_S_le. simpl. lia.
  - intros Hpos. rewrite bool_decide_true by lia.
    destruct (execution_history self) as [|e es] eqn:Hh.
    + simpl in Hpos. unfold successes in Hpos. simpl in Hpos. lia.
    + rewrite bool_decide_true by (simpl; lia).
      apply PyFacts.truediv_S_lt; [simpl; lia | done].
Qed.

End Facts.

Lemma non_success_records_count_as_failures_witness :
  hooks Scenarios.with_error_hook ERROR_HANDLER ≠ []
  ∧ Forall is_ErrorHandlingHook (hooks Scenarios.with_error_hook ERROR_HANDLER)
  ∧ (0 < successful_executions
           (get_execution_summary Scenarios.with_error_hook))%nat
  ∧ (success_rate
       (get_execution_summary
          (execute_hooks [] ERROR_HANDLER Scenarios.error_context
             Scenarios.with_error_hook).2)
     < success_rate (get_execution_summary Scenarios.with_error_hook))%Q.
Proof.
  assert (hooks Scenarios.with_error_hook ERROR_HANDLER
          = [ErrorHandlingHook "error_handler"
               Scenarios.default_error_handlers 10]) as Hhs by reflexivity.
  assert (hooks Scenarios.with_error_hook ERROR_HANDLER ≠ []) as H1.
  { rewrite Hhs. discriminate. }
  assert (Forall is_ErrorHandlingHook
            (hooks Scenarios.with_error_hook ERROR_HANDLER)) as H2.
  { rewrite Hhs. constructor; [|constructor].
    by exists "error_handler", Scenarios.default_error_handlers, 10. }
  assert (0 < successful_executions
                (get_execution_summary Scenarios.with_error_hook))%nat as H3.
  { vm_compute. lia. }
  split_and!; [exact H1|exact H2|exact H3|].
  destruct (non_success_records_count_as_failures Scenarios.with_error_hook)
    as (_ & _ & _ & _ & H).
  destruct (H [] Scenarios.error_context H1 H2) as (_ & _ & _ & _ & _ & Hlt).
  exact (Hlt H3).
Defined.

(** C2 (the code at the input of the claim).  One firing of a failing
    and a succeeding hook of one lifecycle point returns the two records,
    each under the name of its hook; the summary then counts one firing,
    one success and one failure, and its success rate is 1, not 1/2: the
    successes are counted per record and divided by the number of
    firings. *)
Theorem summary_rate_after_one_failing_one_succeeding (sched : list nat) :
  let fired :=
    execute_hooks sched CUSTOM (Scenarios.plain_context CUSTOM)
      Scenarios.two_hooks in
  let s := get_execution_summary fired.2 in
  map (λ r, (hook_name r, status r)) fired.1
    = [("bad", "failed"); ("good", "success")]
  ∧ total_executions s = 1%nat
  ∧ successful_executions s = 1%nat
  ∧ failed_executions s = 1%nat
  ∧ success_rate s = 1%Q
  ∧ ¬ (success_rate s == 1 # 2)%Q.
Proof.
  intros fired s. subst s fired. rewrite execute_hooks_eq.
  split_and!; try reflexivity.
  intros H. vm_compute in H. discriminate H.
Qed.

End HooksSpec.

(** ** concurrent_evaluator.py *)

Module EvaluatorSpec.
Import Evaluator.

Section Facts.
Context {Obj : Type}.
Implicit Types (env : Environment Obj) (session : ConversationSession Obj).
Implicit Types (turn : ConversationTurn Obj) (rq : EvaluatorRequest Obj).

(** *** One turn *)

Lemma create_evaluator_unknown (R T C Cu : EvaluatorClass Obj) rq :
  eval_type rq ∉ ["RAG"; "TEXT2SQL"; "COT"; "CUSTOM"] →
  create_evaluator R T C Cu rq
  = Raised (Exception "ValueError"
              ("Unknown evaluation type: " +:+ eval_type rq)).
Proof.
  intros Hty. unfold create_evaluator.
  rewrite !lookup_insert_ne, lookup_empty; [done|..];
    intros Heq; apply Hty; rewrite <-Heq; set_solver.
Qed.

(** C5.  [evaluate_single_turn] returns a turn result whatever the
    evaluator capability does: a fault of the capability gives status
    ['error'] with the text of the fault, the value [None] gives status
    ['failed'], a payload gives status ['success'] with the payload.  With
    the [create_evaluator] of the repository an evaluation-type tag
    outside its table is such a fault. *)
Theorem evaluate_single_turn_never_raises env session turn :
  ∃ r, evaluate_single_turn env session turn = Returned r
    ∧ tr_session_id r = session_id session
    ∧ tr_turn_id r = turn_id turn
    ∧ match run_capability env (request_of env session turn) with
      | Raised e =>
          status r = "error" ∧ error r = Some (exn_str e) ∧ results r = None
      | Returned None =>
          status r = "failed" ∧ error r = Some "Evaluation returned None"
          ∧ results r = None
      | Returned (Some p) =>
          status r = "success" ∧ results r = Some p ∧ error r = None
      end
    ∧ (∀ R T C Cu : EvaluatorClass Obj,
         env_create_evaluator env = create_evaluator R T C Cu →
         evaluation_type turn ∉ ["RAG"; "TEXT2SQL"; "COT"; "CUSTOM"] →
         status r = "error"
         ∧ error r
           = Some ("Unknown evaluation type: " +:+ evaluation_type turn)).
Proof.
  unfold evaluate_single_turn, run_capability.
  destruct (env_create_evaluator env (request_of env session turn))
    as [[[p|]|e]|e] eqn:Hc; simpl;
    (eexists; split_and!; [done..|]);
    intros R T C Cu HR Hty; rewrite HR in Hc;
    rewrite create_evaluator_unknown in Hc by done;
    by simplify_eq.
Qed.

(** *** Building a session *)

Lemma build_turns_ok (i : nat) (tds : list (TurnData Obj)) :
  Forall has_question tds →
  build_turns i tds = Returned (imap (λ j, turn_of (i + j)) tds).
Proof.
  intros H. revert i. induction H as [|td tds [q Hq] _ IH]; intros i; simpl.
  { done. }
  rewrite Hq. simpl. rewrite IH. simpl.
  unfold turn_of at 2. rewrite Hq, Nat.add_0_r. simpl. do 2 f_equal.
  apply imap_ext. intros j x _. simpl. f_equal. lia.
Qed.

Lemma build_turns_fail (i : nat) (tds : list (TurnData Obj)) :
  ¬ Forall has_question tds →
  build_turns i tds = Raised (Exception "KeyError" "'question'").
Proof.
  revert i. induction tds as [|td tds IH]; intros i Hn; simpl.
  { destruct Hn. constructor. }
  destruct (td_question td) as [q|] eqn:Hq; simpl; [|done].
  rewrite IH; [done|]. intros Hall. apply Hn. constructor; [|done].
  by exists q.
Qed.

Lemma turn_ids_imap (i : nat) (tds : list (TurnData Obj)) :
  map turn_id (imap (λ j, turn_of (i + j)) tds) = seq i (length tds).
Proof.
  revert i. induction tds as [|td tds IH]; intros i; simpl; [done|].
  rewrite Nat.add_0_r. f_equal. rewrite <-IH. f_equal.
  apply imap_ext. intros j x _. simpl. f_equal. lia.
Qed.

(** C4 (as the code has it).  [create_conversation_session] is a
    function of the fresh identifier, the trajectory identifier and the
    specifications.  When every specification has a question it returns
    the session whose [i]-th turn is made of the [i]-th specification,
    with ordinal [i] (so the ordinals are 0..n-1), with the tag ['COT']
    when the specification has no evaluation-type tag and the empty text
    when it has no expected answer.  When some specification has no
    question the call raises [KeyError] and builds no session. *)
Theorem create_conversation_session_spec (uuid tid : string)
    (tds : list (TurnData Obj)) :
  create_conversation_session uuid tid tds
  = (if decide (Forall has_question tds)
     then Returned {| session_id := uuid; trajectory_id := tid;
                      turns := imap turn_of tds; context := ∅;
                      max_concurrent_turns := 3 |}
     else Raised (Exception "KeyError" "'question'"))
  ∧ map turn_id (imap turn_of tds) = seq 0 (length tds)
  ∧ (∀ i td, tds !! i = Some td →
       imap turn_of tds !! i = Some (turn_of i td)
       ∧ evaluation_type (turn_of i td) = default "COT" (td_question_type td)).
Proof.
  split_and!.
  - unfold create_conversation_session. case_decide as H.
    + by rewrite build_turns_ok.
    + by rewrite build_turns_fail.
  - apply (turn_ids_imap 0).
  - intros i td Hi. by rewrite list_lookup_imap, Hi.
Qed.

(** *** The summary of a batch *)

Lemma foldl_count_turn (rs : list (TurnResult Obj)) (c : Counters) :
  let c' := foldl count_turn c rs in
  c_total c' = (c_total c + length rs)%nat
  ∧ c_successful c' = (c_successful c + count_status "success" rs)%nat
  ∧ c_failed c' = (c_failed c + count_status "failed" rs)%nat
  ∧ c_error c' = (c_error c + count_status "error" rs)%nat.
Proof.
  revert c. unfold count_status.
  induction rs as [|r rs IH]; intros c; simpl.
  { split_and!; lia. }
  destruct (IH (count_turn c r)) as (H1 & H2 & H3 & H4).
  rewrite H1, H2, H3, H4, !filter_cons. unfold count_turn.
  repeat case_decide; simpl; split_and!; try lia; congruence.
Qed.

Lemma count_status_app (st : string) (l k : list (TurnResult Obj)) :
  count_status st (l ++ k) = (count_status st l + count_status st k)%nat.
Proof. unfold count_status. by rewrite filter_app, length_app. Qed.

Lemma foldl_count_session (srs : list (SessionResult Obj)) (c : Counters) :
  let c' := foldl count_session c srs in
  c_total c' = (c_total c + length (all_turns srs))%nat
  ∧ c_successful c'
    = (c_successful c + count_status "success" (all_turns srs))%nat
  ∧ c_failed c' = (c_failed c + count_status "failed" (all_turns srs))%nat
  ∧ c_error c' = (c_error c + count_status "error" (all_turns srs))%nat.
Proof.
  revert c. unfold all_turns.
  induction srs as [|sr srs IH]; intros c; simpl.
  { unfold count_status. simpl. split_and!; lia. }
  destruct (IH (count_session c sr)) as (H1 & H2 & H3 & H4).
  rewrite H1, H2, H3, H4, length_app, !count_status_app.
  unfold count_session. destruct (sr_results sr) as [rs|]; simpl.
  - destruct (foldl_count_turn rs c) as (G1 & G2 & G3 & G4).
    rewrite G1, G2, G3, G4. split_and!; lia.
  - unfold count_status. simpl. split_and!; lia.
Qed.

(** The counters of the summary are the numbers of turn results of the
    batch: all of them, and those with status ['success'], ['failed'],
    ['error']; the rate is the quotient of the first two. *)
Lemma summary_counts (srs : list (SessionResult Obj)) :
  let s := _generate_evaluation_summary srs in
  total_turns s = length (all_turns srs)
  ∧ successful_turns s = count_status "success" (all_turns srs)
  ∧ failed_turns s = count_status "failed" (all_turns srs)
  ∧ error_turns s = count_status "error" (all_turns srs)
  ∧ success_rate s
    = (if bool_decide (0 < total_turns s)%nat
       then Py.truediv (successful_turns s) (total_turns s) else 0%Q).
Proof.
  unfold _generate_evaluation_summary. simpl.
  match goal with
  | |- context [foldl count_session ?c0 srs] =>
      destruct (foldl_count_session srs c0) as (H1 & H2 & H3 & H4)
  end.
  rewrite H1, H2, H3, H4. simpl. done.
Qed.

(** *** The context of a session *)

#[local] Instance context_key_inj : Inj (=) (=) context_key.
Proof.
  intros i j H. unfold context_key in H.
  apply (inj (String.app "turn_")) in H.
  apply PyFacts.string_app_inj_r in H.
  by apply (inj pretty) in H.
Qed.

Lemma response_of_picks picks env session turn :
  response_of (with_turn_picks picks env) session turn
  = response_of env session turn.
Proof. done. Qed.

Lemma collect_turn_context env session turn
    (acc : list (TurnResult Obj) * gmap string Obj) :
  (collect_turn session acc (evaluate_single_turn env session turn, turn)).2
  = match write_of env session turn with
    | Some w => <[w.1 := w.2]> acc.2
    | None => acc.2
    end.
Proof.
  unfold collect_turn, write_of, response_of, _update_session_context.
  destruct (evaluate_single_turn env session turn) as [r|e]; simpl; [|done].
  case_decide; simpl; [|done].
  destruct (results r) as [p|]; simpl; [|done].
  by destruct (agent_response p).
Qed.

Lemma foldl_collect_context env session (ts : list (ConversationTurn Obj))
    (acc : list (TurnResult Obj) * gmap string Obj) :
  (foldl (collect_turn session) acc
     ((λ turn, (evaluate_single_turn env session turn, turn)) <$> ts)).2
  = foldl (λ m w, <[w.1 := w.2]> m) acc.2 (omap (write_of env session) ts).
Proof.
  revert acc. induction ts as [|turn ts IH]; intros acc; [done|].
  rewrite fmap_cons. cbn [foldl omap list_omap].
  rewrite IH, collect_turn_context.
  by destruct (write_of env session turn).
Qed.

(** The context after the session: the writes of the turns, in the order
    of completion. *)
Lemma process_context env session :
  context (process_conversation_session env session).2
  = foldl (λ m w, <[w.1 := w.2]> m) (context session)
      (omap (write_of env session)
         (Py.as_completed (env_turn_picks env (session_id session))
            (turns session))).
Proof.
  unfold process_conversation_session. cbn [snd context].
  change (map ?f ?l) with (f <$> l).
  by rewrite PyFacts.as_completed_fmap, foldl_collect_context.
Qed.

Lemma written_keys env session (ts : list (ConversationTurn Obj)) :
  (omap (write_of env session) ts).*1
  = context_key ∘ turn_id
      <$> filter (λ turn, is_Some (response_of env session turn)) ts.
Proof.
  induction ts as [|turn ts IH]; [done|].
  rewrite filter_cons. cbn [omap list_omap]. unfold write_of at 1.
  destruct (response_of env session turn) as [a|] eqn:Ha.
  - rewrite decide_True by eauto. cbn [fmap option_fmap option_map].
    by rewrite !fmap_cons, IH.
  - rewrite decide_False by (by intros [? ?]). done.
Qed.

Lemma response_of_succeeded env session turn :
  Orchestration.answers env session → turn ∈ turns session →
  is_Some (response_of env session turn)
  ↔ Orchestration.succeeded env session turn.
Proof.
  intros Hans Hin.
  unfold response_of, Orchestration.succeeded, Orchestration.turn_result.
  specialize (Hans turn).
  unfold evaluate_single_turn, run_capability in *.
  destruct (env_create_evaluator env (request_of env session turn))
    as [[[p|]|e]|e]; simpl in *; try (split; [by intros [? [=]]|done]).
  split; [done|]. intros _. by apply Hans.
Qed.

Lemma response_of_capability env session turn p :
  run_capability env (request_of env session turn) = Returned (Some p) →
  response_of env session turn = agent_response p.
Proof.
  unfold response_of, evaluate_single_turn, run_capability.
  destruct (env_create_evaluator env (request_of env session turn))
    as [[[p'|]|e]|e]; simpl; try done. by intros [= ->].
Qed.

(** C9.  The evaluators returning results that have an agent response:
    whatever the order in which the turns of a session complete, the
    context after the session has, besides the keys it had before, the
    key of the ordinal of every turn whose outcome is ['success'], and no
    other key, so that when all turns succeed the key of every ordinal is
    present; the entries under other keys are unchanged (a turn with
    another status writes nothing); when the ordinals of the session are
    distinct the entry of a successful turn is its agent response; and
    the keys are the same for every order of completion. *)
Theorem context_after_session env session (picks : string → list nat) :
  Orchestration.answers env session →
  let ctx :=
    context (process_conversation_session (with_turn_picks picks env)
               session).2 in
  dom ctx
  = dom (context session)
    ∪ list_to_set
        (context_key ∘ turn_id
           <$> filter (Orchestration.succeeded env session) (turns session))
  ∧ (Forall (Orchestration.succeeded env session) (turns session) →
     ∀ turn, turn ∈ turns session →
             is_Some (ctx !! context_key (turn_id turn)))
  ∧ (∀ k : string,
       (∀ turn, turn ∈ turns session →
                Orchestration.succeeded env session turn →
                context_key (turn_id turn) ≠ k) →
       ctx !! k = context session !! k)
  ∧ (NoDup (turn_id <$> turns session) →
     ∀ turn p, turn ∈ turns session →
               run_capability env (request_of env session turn)
               = Returned (Some p) →
               is_Some (ctx !! context_key (turn_id turn))
               ∧ ctx !! context_key (turn_id turn) = agent_response p)
  ∧ (∀ picks' : string → list nat,
       dom (context (process_conversation_session
                       (with_turn_picks picks' env) session).2)
       = dom ctx).
Proof.
  intros Hans ctx. subst ctx.
  assert (∀ pk : string → list nat,
            dom (context (process_conversation_session
                            (with_turn_picks pk env) session).2)
            = dom (context session)
              ∪ list_to_set
                  (context_key ∘ turn_id
                     <$> filter (Orchestration.succeeded env session)
                           (turns session))) as Hdom.
  { intros pk. rewrite process_context.
    cbn [env_turn_picks with_turn_picks].
    set (done := Py.as_completed (pk (session_id session)) (turns session)).
    assert (done ≡ₚ turns session) as Hperm
      by apply PyFacts.as_completed_perm.
    assert (omap (write_of (with_turn_picks pk env) session) done
            = omap (write_of env session) done) as -> by done.
    rewrite PyFacts.writes_dom, written_keys. f_equal.
    apply set_eq. intros k. rewrite !elem_of_list_to_set.
    rewrite Hperm, !list_elem_of_fmap.
    split; intros (turn & -> & Hin); exists turn; (split; [done|]);
      apply list_elem_of_filter in Hin as [Hs Hin];
      apply list_elem_of_filter; (split; [|done]);
      by apply (response_of_succeeded env session turn Hans Hin). }
  split_and!.
  - apply Hdom.
  - intros Hall turn Hin. apply elem_of_dom. rewrite Hdom.
    apply elem_of_union_r, elem_of_list_to_set, list_elem_of_fmap.
    exists turn. split; [done|]. apply list_elem_of_filter.
    split; [|done]. by eapply Forall_forall in Hall.
  - rewrite process_context. cbn [env_turn_picks with_turn_picks].
    set (done := Py.as_completed (picks (session_id session))
                   (turns session)).
    assert (done ≡ₚ turns session) as Hperm
      by apply PyFacts.as_completed_perm.
    assert (omap (write_of (with_turn_picks picks env) session) done
            = omap (write_of env session) done) as -> by done.
    intros k Hk. apply PyFacts.writes_other.
    rewrite written_keys, list_elem_of_fmap.
    intros (turn & -> & Hin). apply list_elem_of_filter in Hin as [Hsome Hin].
    rewrite Hperm in Hin. apply (Hk turn); [done| |done].
    by apply (response_of_succeeded env session turn Hans Hin).
  - rewrite process_context. cbn [env_turn_picks with_turn_picks].
    set (done := Py.as_completed (picks (session_id session))
                   (turns session)).
    assert (done ≡ₚ turns session) as Hperm
      by apply PyFacts.as_completed_perm.
    assert (omap (write_of (with_turn_picks picks env) session) done
            = omap (write_of env session) done) as -> by done.
    intros Hnd turn p Hin Hp.
    destruct (Hans turn p Hin Hp) as [a Ha].
    assert (foldl (λ m w, <[w.1 := w.2]> m) (context session)
              (omap (write_of env session) done)
              !! context_key (turn_id turn) = Some a) as Hlook.
    { apply PyFacts.writes_lookup.
      + rewrite written_keys, list_fmap_compose.
        apply (NoDup_fmap_2 _).
        eapply sublist_NoDup; [|apply fmap_sublist, sublist_filter].
        by rewrite Hperm.
      + apply list_elem_of_omap. exists turn. split; [by rewrite Hperm|].
        unfold write_of.
        by rewrite (response_of_capability env session turn p Hp), Ha. }
    rewrite Hlook, Ha. split; [by eexists|done].
  - intros picks'. by rewrite !Hdom.
Qed.

Lemma summary_total_decomposition (srs : list (SessionResult Obj)) :
  let s := _generate_evaluation_summary srs in
  total_turns s
  = (successful_turns s + failed_turns s + error_turns s
     + length (filter (λ r, status r ∉ ["success"; "failed"; "error"])
                 (all_turns srs)))%nat.
Proof.
  intros s. subst s.
  pose proof (summary_counts srs) as H. cbv zeta in H.
  destruct H as (-> & -> & -> & -> & _). unfold count_status.
  induction (all_turns srs) as [|r rs IH]; [done|].
  rewrite !filter_cons. cbn [length]. rewrite IH.
  repeat case_decide; cbn [length]; try lia; try congruence;
    exfalso; set_solver.
Qed.

End Facts.

Lemma context_after_session_witness :
  let env :=
    Scenarios.environment
      (Scenarios.fixed (Returned (Some (Scenarios.payload (Some "hello")))))
      (Returned []) [] in
  let session := Scenarios.session_of ["COT"; "RAG"; "COT"] in
  let run :=
    process_conversation_session (with_turn_picks (λ _, [2%nat]) env)
      session in
  Orchestration.answers env session
  ∧ NoDup (turn_id <$> turns session)
  ∧ map tr_turn_id run.1 = [2%nat; 0%nat; 1%nat]
  ∧ map status run.1 = ["success"; "success"; "failed"]
  ∧ context run.2 !! context_key 0 = Some "hello"
  ∧ context run.2 !! context_key 1 = None
  ∧ context run.2 !! context_key 2 = Some "hello".
Proof.
  intros env session run. subst run.
  assert (Orchestration.answers env session) as Hans.
  { intros turn p Hin Hp. simpl in Hin.
    rewrite !elem_of_cons, elem_of_nil in Hin.
    destruct Hin as [->|[->|[->|[]]]]; vm_compute in Hp;
      first [discriminate Hp | injection Hp as <-; by eexists]. }
  assert (NoDup (turn_id <$> turns session)) as Hnd by apply (NoDup_seq 0 3).
  split_and!; [exact Hans|exact Hnd|reflexivity|reflexivity|..].
  - destruct (context_after_session env session (λ _, [2%nat]) Hans)
      as (_ & _ & _ & H & _).
    destruct (H Hnd (Scenarios.turn 0 "COT") (Scenarios.payload (Some "hello")))
      as [_ Heq]; [apply list_elem_of_here|vm_compute; reflexivity|exact Heq].
  - destruct (context_after_session env session (λ _, [2%nat]) Hans)
      as (_ & _ & H & _).
    rewrite H; [reflexivity|].
    intros turn Hin Hs. simpl in Hin.
    rewrite !elem_of_cons, elem_of_nil in Hin.
    destruct Hin as [->|[->|[->|[]]]]; try discriminate.
  - destruct (context_after_session env session (λ _, [2%nat]) Hans)
      as (_ & _ & _ & H & _).
    destruct (H Hnd (Scenarios.turn 2 "COT") (Scenarios.payload (Some "hello")))
      as [_ Heq]; [do 2 apply list_elem_of_further; apply list_elem_of_here|vm_compute; reflexivity|exact Heq].
Defined.

Lemma create_conversation_session_spec_witness :
  let tds :=
    [Scenarios.spec (Some "What is the weather?") (Some "RAG");
     Scenarios.spec (Some "And tomorrow?") None] in
  tds !! 1%nat = Some (Scenarios.spec (Some "And tomorrow?") None)
  ∧ ∃ s, create_conversation_session "session-0" "trajectory" tds = Returned s
         ∧ map turn_id (turns s) = [0%nat; 1%nat]
         ∧ map evaluation_type (turns s) = ["RAG"; "COT"].
Proof.
  intros tds. split; [reflexivity|].
  destruct (create_conversation_session_spec "session-0" "trajectory" tds)
    as (Hs & Hids & Hturn).
  rewrite decide_True in Hs by (repeat constructor; by eexists).
  eexists. split; [exact Hs|]. split; [exact Hids|].
  destruct (Hturn 1%nat _ eq_refl) as [_ Hty]. cbn [turns].
  reflexivity.
Defined.

(** The claim C4 fails on a specification without evaluation-type tag:
    the session is built, the turn has the tag ['COT']. *)
Lemma session_built_without_tag :
  let td := Scenarios.spec (Some "What is the weather?") None in
  td_question_type td = None
  ∧ ∃ s, create_conversation_session "session-0" "trajectory" [td]
           = Returned s
         ∧ map evaluation_type (turns s) = ["COT"].
Proof. split; [done|]. eexists. split; reflexivity. Qed.

Lemma evaluate_single_turn_never_raises_witness :
  let env :=
    Scenarios.environment (Scenarios.fixed (Returned None)) (Returned []) [] in
  let session := Scenarios.session_of ["SQL"] in
  let turn := Scenarios.turn 0 "SQL" in
  (evaluation_type turn ∉ ["RAG"; "TEXT2SQL"; "COT"; "CUSTOM"])
  ∧ ∃ r, evaluate_single_turn env session turn = Returned r
         ∧ status r = "error"
         ∧ error r = Some "Unknown evaluation type: SQL".
Proof.
  intros env session turn.
  assert (evaluation_type turn ∉ ["RAG"; "TEXT2SQL"; "COT"; "CUSTOM"]) as Hty.
  { simpl. rewrite !not_elem_of_cons. split_and!; try discriminate.
    apply not_elem_of_nil. }
  split; [exact Hty|].
  destruct (evaluate_single_turn_never_raises env session turn)
    as (r & Hr & _ & _ & _ & Htag).
  destruct (Htag _ _ _ _ eq_refl Hty) as [Hs He].
  exists r. split_and!; [exact Hr|exact Hs|exact He].
Defined.

End EvaluatorSpec.

(** ** cicd_integration.py *)

Module CICDSpec.
Import CICD.

(** *** The quality gate *)

Lemma checks_eq quality_gate evaluation_results :
  checks (_check_quality_gates quality_gate evaluation_results)
  = foldl (λ m w, <[w.1 := w.2]> m)
      (base_checks quality_gate evaluation_results)
      (check_writes quality_gate evaluation_results).
Proof.
  unfold _check_quality_gates, check_writes. cbn [checks].
  by rewrite foldl_fmap.
Qed.

Lemma avg_key_not_base (metric : string) :
  "avg_score_" +:+ metric ∉ ["success_rate"; "execution_time"; "failed_turns"].
Proof.
  rewrite !not_elem_of_cons. split_and!; [discriminate..|apply not_elem_of_nil].
Qed.

Lemma check_writes_keys quality_gate evaluation_results (k : string) :
  k ∈ (check_writes quality_gate evaluation_results).*1
  ↔ ∃ metric, metric ∈ required_metrics quality_gate
              ∧ k = "avg_score_" +:+ metric.
Proof.
  unfold check_writes. rewrite <-list_fmap_compose, list_elem_of_fmap.
  naive_solver.
Qed.

Lemma base_check_lookup quality_gate evaluation_results (k : string) :
  k ∈ ["success_rate"; "execution_time"; "failed_turns"] →
  checks (_check_quality_gates quality_gate evaluation_results) !! k
  = base_checks quality_gate evaluation_results !! k.
Proof.
  intros Hk. rewrite checks_eq. apply PyFacts.writes_other.
  rewrite check_writes_keys. intros (metric & _ & ->).
  by apply (avg_key_not_base metric).
Qed.

Lemma metric_check_lookup quality_gate evaluation_results (metric : string) :
  metric ∈ required_metrics quality_gate →
  checks (_check_quality_gates quality_gate evaluation_results)
    !! ("avg_score_" +:+ metric)
  = Some (min_average_score quality_gate
          <=? score_of evaluation_results metric)%float.
Proof.
  intros Hm. rewrite checks_eq. apply PyFacts.writes_lookup_fun.
  - unfold check_writes. intros w Hw Hk.
    apply list_elem_of_fmap in Hw as (metric' & -> & _). simpl in *.
    by apply (inj (String.app "avg_score_")) in Hk as ->.
  - apply check_writes_keys. eauto.
Qed.

Lemma all_values_true (c : gmap string bool) :
  all_values c = true ↔ ∀ k b, c !! k = Some b → b = true.
Proof.
  unfold all_values. rewrite forallb_forall. split.
  - intros H k b Hk. apply (H b), list_elem_of_In.
    change (map ?f ?l) with (f <$> l).
    apply list_elem_of_fmap. exists (k, b). split; [done|].
    by apply elem_of_map_to_list.
  - intros H b Hb. apply list_elem_of_In in Hb.
    change (map ?f ?l) with (f <$> l) in Hb.
    apply list_elem_of_fmap in Hb as ([k b'] & -> & Hkb).
    apply elem_of_map_to_list in Hkb. by apply (H k).
Qed.

(** C8.  The verdict of the gate has an entry for each check, whatever
    the outcome of the others: the success rate against its minimum, the
    run time against its maximum, the number of failed turns against its
    maximum, and, for every required metric, its average score against
    the minimum average, the average of a metric that the summary does
    not have being 0.  The gate is passed exactly when all these checks
    hold. *)
Theorem quality_gate_reports_every_check quality_gate evaluation_results :
  let verdict := _check_quality_gates quality_gate evaluation_results in
  let s := summary_of evaluation_results in
  checks verdict !! "success_rate"
  = Some (Qle_bool (min_success_rate quality_gate)
                   (default 0%Q (success_rate s)))
  ∧ checks verdict !! "execution_time"
    = Some (Qle_bool (default 0%Q (execution_time evaluation_results))
                     (max_execution_time quality_gate))
  ∧ checks verdict !! "failed_turns"
    = Some (bool_decide (default 0 (failed_turns s)
                         ≤ max_failed_turns quality_gate)%Z)
  ∧ (∀ metric, metric ∈ required_metrics quality_gate →
       checks verdict !! ("avg_score_" +:+ metric)
       = Some (min_average_score quality_gate
               <=? score_of evaluation_results metric)%float)
  ∧ (∀ metric, default ∅ (average_scores s) !! metric = None →
       score_of evaluation_results metric = 0%float)
  ∧ (passed verdict = true
     ↔ (min_success_rate quality_gate <= default 0 (success_rate s))%Q
       ∧ (default 0 (execution_time evaluation_results)
          <= max_execution_time quality_gate)%Q
       ∧ (default 0 (failed_turns s) ≤ max_failed_turns quality_gate)%Z
       ∧ ∀ metric, metric ∈ required_metrics quality_gate →
           (min_average_score quality_gate
            <=? score_of evaluation_results metric)%float = true).
Proof.
  intros verdict s. subst verdict s.
  split_and!.
  - rewrite base_check_lookup by set_solver. done.
  - rewrite base_check_lookup by set_solver. done.
  - rewrite base_check_lookup by set_solver. done.
  - apply metric_check_lookup.
  - intros metric Hm. unfold score_of. by rewrite Hm.
  - change (passed (_check_quality_gates quality_gate evaluation_results))
      with (all_values
              (checks (_check_quality_gates quality_gate evaluation_results))).
    rewrite all_values_true. split.
    + intros H. split_and!.
      * apply Qle_bool_iff, (H "success_rate").
        rewrite base_check_lookup by set_solver. done.
      * apply Qle_bool_iff, (H "execution_time").
        rewrite base_check_lookup by set_solver. done.
      * eapply bool_decide_eq_true_1, (H "failed_turns").
        rewrite base_check_lookup by set_solver. done.
      * intros metric Hm.
        apply (H ("avg_score_" +:+ metric)).
        by apply metric_check_lookup.
    + intros (H1 & H2 & H3 & H4) k b Hk.
      destruct (decide (k ∈ (check_writes quality_gate evaluation_results).*1))
        as [Hin|Hnin].
      * apply check_writes_keys in Hin as (metric & Hm & ->).
        rewrite metric_check_lookup in Hk by done.
        injection Hk as <-. by apply H4.
      * rewrite checks_eq, PyFacts.writes_other in Hk by done.
        unfold base_checks in Hk.
        rewrite !lookup_insert_Some, lookup_empty in Hk.
        destruct Hk as [[_ <-]|[_ [[_ <-]|[_ [[_ <-]|[_ [=]]]]]]].
        -- by apply bool_decide_eq_true_2.
        -- by apply Qle_bool_iff.
        -- by apply Qle_bool_iff.
Qed.

Lemma quality_gate_reports_every_check_witness :
  let verdict :=
    _check_quality_gates QualityGate_default
      (Scenarios.batch (79 # 100) (Scenarios.averages 0.9)) in
  "helpfulness" ∈ required_metrics QualityGate_default
  ∧ checks verdict !! "avg_score_helpfulness" = Some true
  ∧ checks verdict !! "execution_time" = Some true
  ∧ checks verdict !! "failed_turns" = Some true
  ∧ checks verdict !! "success_rate" = Some false
  ∧ passed verdict = false.
Proof.
  intros verdict.
  assert ("helpfulness" ∈ required_metrics QualityGate_default) as Hm.
  { simpl. set_solver. }
  destruct (quality_gate_reports_every_check QualityGate_default
              (Scenarios.batch (79 # 100) (Scenarios.averages 0.9)))
    as (H1 & H2 & H3 & H4 & _ & H6).
  split_and!; [exact Hm|exact (H4 _ Hm)|exact H2|exact H3|exact H1|].
  destruct (passed verdict) eqn:Hp; [|reflexivity].
  apply H6 in Hp as [Hrate _]. vm_compute in Hrate. by destruct Hrate.
Defined.

(** *** The regression check *)

Lemma metric_scores_ok (metric : string) (recent : list EvaluationResults) :
  Forall has_summary recent →
  metric_scores metric recent = Returned (scores_of metric recent).
Proof.
  unfold scores_of.
  induction 1 as [|run recent [s Hs] _ IH]; [done|].
  cbn [metric_scores omap list_omap]. unfold get_summary, avg_of.
  rewrite Hs, IH. simpl.
  by destruct (default ∅ (average_scores s) !! metric).
Qed.

Lemma baseline_of_ok (metrics : list string) (recent : list EvaluationResults)
    (acc : gmap string float) :
  Forall has_summary recent →
  baseline_of metrics recent acc
  = Returned (foldl (baseline_step recent) acc metrics).
Proof.
  intros Hall. revert acc.
  induction metrics as [|metric metrics IH]; intros acc; [done|].
  cbn [baseline_of foldl]. rewrite metric_scores_ok by done. simpl.
  rewrite IH. do 2 f_equal. unfold baseline_step.
  by destruct (scores_of metric recent).
Qed.

Lemma baseline_lookup (metrics : list string) (recent : list EvaluationResults)
    (acc : gmap string float) (metric : string) :
  foldl (baseline_step recent) acc metrics !! metric
  = if decide (metric ∈ metrics ∧ scores_of metric recent ≠ [])
    then Some (Py.mean (scores_of metric recent))
    else acc !! metric.
Proof.
  revert acc. induction metrics as [|m metrics IH]; intros acc.
  { cbn [foldl]. rewrite decide_False; [done|].
    intros [H _]. by apply elem_of_nil in H. }
  cbn [foldl]. rewrite IH.
  destruct (decide (metric ∈ metrics ∧ scores_of metric recent ≠ []))
    as [[Hin Hsc]|Hn].
  { rewrite decide_True; [done|]. split; [by right|done]. }
  unfold baseline_step.
  destruct (decide (metric = m)) as [->|Hne].
  - destruct (scores_of m recent) as [|sc scs] eqn:Hsc.
    + rewrite decide_False; [done|]. by intros [_ ?].
    + rewrite lookup_insert_eq, decide_True; [done|].
      split; [by left|done].
  - rewrite decide_False.
    + destruct (scores_of m recent); [done|]. by rewrite lookup_insert_ne.
    + intros [Hin Hsc]. apply elem_of_cons in Hin as [?|Hin]; [done|].
      by apply Hn.
Qed.

Lemma regression_check_recent quality_gate threshold history current s :
  (2 ≤ length history)%nat → Forall has_summary (last3 history) →
  summary current = Some s →
  _check_performance_regression quality_gate threshold history current
  = let baseline_scores :=
      foldl (baseline_step (last3 history)) ∅
            (required_metrics quality_gate) in
    let current_scores := default ∅ (average_scores s) in
    let regressions :=
      map_imap (flag threshold current_scores) baseline_scores in
    Returned (Comparison (bool_decide (0 < size regressions)%nat)
                regressions baseline_scores current_scores threshold).
Proof.
  intros Hlen Hall3 Hs. unfold _check_performance_regression.
  rewrite bool_decide_false by lia.
  assert (last3 history ≠ []) as Hne.
  { intros Heq. apply (f_equal length) in Heq.
    unfold last3 in Heq. rewrite length_drop in Heq. simpl in Heq. lia. }
  destruct (last3 history) as [|run recent] eqn:H3; [done|].
  rewrite baseline_of_ok by done. unfold get_summary. rewrite Hs. done.
Qed.

Lemma regression_check_eq quality_gate threshold history current s :
  (2 ≤ length history)%nat → Forall has_summary history →
  summary current = Some s →
  _check_performance_regression quality_gate threshold history current
  = let baseline_scores :=
      foldl (baseline_step (last3 history)) ∅
            (required_metrics quality_gate) in
    let current_scores := default ∅ (average_scores s) in
    let regressions :=
      map_imap (flag threshold current_scores) baseline_scores in
    Returned (Comparison (bool_decide (0 < size regressions)%nat)
                regressions baseline_scores current_scores threshold).
Proof.
  intros Hlen Hall Hs. apply regression_check_recent; [done| |done].
  by apply Forall_drop.
Qed.

(** The runs the check reads, when the history ends with them. *)
Lemma last3_recent (old recent : list EvaluationResults) :
  length recent = 3%nat ∨ (old = [] ∧ length recent = 2%nat) →
  last3 (old ++ recent) = recent.
Proof.
  intros H. unfold last3. rewrite length_app.
  destruct H as [H|[-> H]].
  - rewrite drop_app_ge by lia.
    replace (length old + length recent - 3 - length old)%nat with 0%nat
      by lia. done.
  - simpl. by rewrite H.
Qed.



Lemma regression_check_returns quality_gate threshold history current :
  Forall has_summary history → has_summary current →
  ∃ r, _check_performance_regression quality_gate threshold history current
       = Returned r.
Proof.
  intros Hall [s Hs].
  destruct (decide (length history < 2)%nat) as [Hlt|Hge].
  - unfold _check_performance_regression.
    rewrite bool_decide_true by done. by eexists.
  - rewrite (regression_check_eq _ _ _ _ s) by (done || lia). by eexists.
Qed.

Lemma pre_pipeline_tests_passed (pre_results : list HookRecord) :
  _check_pre_pipeline_tests pre_results = true
  ↔ Forall (λ r, Hooks.status r = "success") pre_results.
Proof.
  unfold _check_pre_pipeline_tests.
  rewrite forallb_forall, Forall_forall.
  split; intros H r Hr.
  - eapply bool_decide_eq_true_1, H. by apply list_elem_of_In.
  - apply bool_decide_eq_true_2, H. by apply list_elem_of_In.
Qed.

Section Pipeline.
Context {Resp : Type}.
Implicit Types (w : World Resp) (self : CICDPipeline).

(** C1 (as the code has it).  A run of the pipeline on a pipeline
    object whose history is well formed ends in one of three ways.  When
    a record of the pre-pipeline hooks is not ['success'] (a fault of a
    hook is such a record) the call returns a report with status
    ['failed'] and the stage tag ['pre_pipeline'], and the evaluation
    does not run.  Otherwise, when the evaluation stage raises, the call
    raises the same fault and no report is made.  Otherwise the call
    returns the full report, without stage tag, whose status is
    ['failed'] when the gate is not passed, else ['warning'] when a
    regression is detected, else ['passed'], and the run is appended to
    the history. *)
Theorem run_evaluation_pipeline_outcome w (data_file : string)
    (max_workers : Z) self :
  history_ok self →
  let pre :=
    (Hooks.execute_hooks (w_pre_sched w) Hooks.INTEGRATION_TEST
       (pre_context data_file max_workers) (hooks_manager self)).1 in
  let run := run_evaluation_pipeline w data_file max_workers self in
  (_check_pre_pipeline_tests pre = true
   ↔ Forall (λ r, Hooks.status r = "success") pre)
  ∧ if _check_pre_pipeline_tests pre then
      match
        Evaluator.run_concurrent_evaluation (w_env w) data_file max_workers
      with
      | Raised e =>
          run.1 = Raised e
          ∧ evaluation_history run.2 = evaluation_history self
      | Returned output =>
          let evaluation_results := of_output output (w_elapsed w) in
          let verdict :=
            _check_quality_gates (quality_gate self) evaluation_results in
          ∃ report regression,
            _check_performance_regression (quality_gate self)
              (self_regression_threshold self)
              (h_results <$> evaluation_history self) evaluation_results
            = Returned regression
            ∧ run.1 = Returned report
            ∧ report_stage report = None
            ∧ report_status report
              = (if passed verdict
                 then if regression_detected regression
                      then "warning" else "passed"
                 else "failed")
            ∧ h_results <$> evaluation_history run.2
              = (h_results <$> evaluation_history self) ++ [evaluation_results]
            ∧ history_ok run.2
      end
    else
      run.1 = Returned (PrePipelineFailure "failed" "pre_pipeline"
                          "Pre-pipeline tests failed" pre)
      ∧ report_stage (PrePipelineFailure "failed" "pre_pipeline"
                        "Pre-pipeline tests failed" pre)
        = Some "pre_pipeline"
      ∧ evaluation_history run.2 = evaluation_history self.
Proof.
  intros Hok pre run. subst pre run.
  split; [apply pre_pipeline_tests_passed|].
  unfold run_evaluation_pipeline.
  destruct (Hooks.execute_hooks (w_pre_sched w) Hooks.INTEGRATION_TEST
              (pre_context data_file max_workers) (hooks_manager self))
    as [pre hm1]. cbn [fst].
  destruct (_check_pre_pipeline_tests pre); cbn [negb]; [|done].
  destruct (Evaluator.run_concurrent_evaluation (w_env w) data_file
              max_workers) as [output|e]; [|done].
  cbv zeta.
  destruct (Hooks.execute_hooks (w_post_sched w) Hooks.POST_EVALUATION
              (post_context (of_output output (w_elapsed w))) hm1)
    as [post hm2].
  change (map h_results ?l) with (h_results <$> l).
  destruct (regression_check_returns (quality_gate self)
              (self_regression_threshold self)
              (h_results <$> evaluation_history self)
              (of_output output (w_elapsed w)))
    as [regression Hreg]; [done|by eexists|].
  rewrite Hreg. simpl.
  eexists _, regression. split_and!; [done..| | |].
  - cbn [report_status]. unfold overall_status.
    match goal with
    | |- _ = (if ?b then _ else _) =>
        change b with (passed (_check_quality_gates (quality_gate self)
                                 (of_output output (w_elapsed w))))
    end.
    by destruct (passed _), (regression_detected regression).
  - by rewrite fmap_app.
  - unfold history_ok. cbn [evaluation_history].
    rewrite fmap_app. apply Forall_app. split; [done|].
    repeat constructor. by eexists.
Qed.

End Pipeline.

Lemma run_evaluation_pipeline_outcome_witness :
  let run cot self :=
    run_evaluation_pipeline (Scenarios.world_with cot) "data_file.json" 5
      self in
  let reports cot self status :=
    ∃ report, (run cot self).1 = Returned report
              ∧ report_stage report = None
              ∧ report_status report = status in
  history_ok Scenarios.pipeline
  ∧ history_ok Scenarios.seasoned_pipeline
  ∧ reports (Scenarios.fixed (Returned (Some (Scenarios.scored 0.9))))
      Scenarios.pipeline "passed"
  ∧ reports (Scenarios.fixed (Returned None)) Scenarios.pipeline "failed"
  ∧ reports (Scenarios.fixed (Returned (Some (Scenarios.scored 0.75))))
      Scenarios.seasoned_pipeline "warning"
  ∧ reports (Scenarios.fixed (Returned (Some (Scenarios.scored 0.82))))
      Scenarios.seasoned_pipeline "passed".
Proof.
  intros run reports. subst run reports. cbv beta.
  assert (history_ok Scenarios.pipeline) as Hok by constructor.
  assert (history_ok Scenarios.seasoned_pipeline) as Hok'.
  { repeat constructor; by eexists. }
  assert (∀ cot self status,
            history_ok self →
            _check_pre_pipeline_tests
              (Hooks.execute_hooks (w_pre_sched (Scenarios.world_with cot))
                 Hooks.INTEGRATION_TEST (pre_context "data_file.json" 5)
                 (hooks_manager self)).1 = true →
            match
              Evaluator.run_concurrent_evaluation
                (w_env (Scenarios.world_with cot)) "data_file.json" 5
            with
            | Returned output =>
                let evaluation_results :=
                  of_output output (w_elapsed (Scenarios.world_with cot)) in
                match
                  _check_performance_regression (quality_gate self)
                    (self_regression_threshold self)
                    (h_results <$> evaluation_history self)
                    evaluation_results
                with
                | Returned regression =>
                    (if passed (_check_quality_gates (quality_gate self)
                                  evaluation_results)
                     then if regression_detected regression
                          then "warning" else "passed"
                     else "failed") = status
                | Raised _ => False
                end
            | Raised _ => False
            end →
            ∃ report,
              (run_evaluation_pipeline (Scenarios.world_with cot)
                 "data_file.json" 5 self).1 = Returned report
              ∧ report_stage report = None
              ∧ report_status report = status) as Hrun.
  { intros cot self status Hself Hpre Hstatus.
    destruct (run_evaluation_pipeline_outcome (Scenarios.world_with cot)
                "data_file.json" 5 self Hself) as [_ H].
    rewrite Hpre in H.
    destruct (Evaluator.run_concurrent_evaluation
                (w_env (Scenarios.world_with cot)) "data_file.json" 5)
      as [output|e]; [|done].
    destruct H as (report & regression & Hreg & Hret & Hstage & Hst & _).
    cbv zeta in Hstatus. rewrite Hreg in Hstatus.
    exists report. split_and!; [exact Hret|exact Hstage|].
    by rewrite Hst. }
  split_and!; [exact Hok|exact Hok'|..];
    (apply Hrun; [assumption|vm_compute; reflexivity..]).
Defined.

(** The claim C1 fails when the evaluation stage faults: on a data file
    with a turn that has no question the call raises [KeyError] and
    returns no report. *)
Lemma pipeline_raises_on_malformed_data :
  let run :=
    run_evaluation_pipeline
      (Scenarios.world (Returned Scenarios.malformed_data))
      "data_file.json" 5 Scenarios.pipeline in
  run.1 = Raised (Exception "KeyError" "'question'")
  ∧ ¬ ∃ report, run.1 = Returned report.
Proof.
  assert ((run_evaluation_pipeline
             (Scenarios.world (Returned Scenarios.malformed_data))
             "data_file.json" 5 Scenarios.pipeline).1
          = Raised (Exception "KeyError" "'question'")) as H by reflexivity.
  split; [exact H|]. intros [report Hr]. rewrite H in Hr. discriminate Hr.
Qed.

End CICDSpec.

(** ** More on hooks_system.py *)

Module DispatcherFacts.
Import Hooks Dispatcher.

Section Facts.
Context {Obj : Type}.
Implicit Types (self : HooksManager Obj) (hook : BaseHook Obj).
Implicit Types (hs : list (BaseHook Obj)) (context : HookContext Obj).

(** *** Sorting *)

Lemma sort_sorted_id hs :
  StronglySorted (Py.key_ge priority) hs → Py.sort (Py.key_lt priority) hs = hs.
Proof.
  induction 1 as [|hook hs Hs IH Hall]; [done|].
  cbn [Py.sort]. rewrite IH.
  destruct hs as [|hook' hs']; [done|].
  cbn [Py.sort_insert]. unfold Py.key_lt at 1.
  rewrite bool_decide_false; [done|].
  apply Forall_cons in Hall as [Hge _]. unfold Py.key_ge in Hge. lia.
Qed.

Lemma sort_insert_filter_any (P : BaseHook Obj → Prop)
    `{!∀ hook, Decision (P hook)} hook hs :
  StronglySorted (Py.key_ge priority) hs →
  filter P (Py.sort_insert (Py.key_lt priority) hook hs)
  = if decide (P hook)
    then Py.sort_insert (Py.key_lt priority) hook (filter P hs)
    else filter P hs.
Proof.
  induction 1 as [|hook' hs Hs IH Hall]; cbn [Py.sort_insert].
  { rewrite filter_cons, filter_nil. by case_decide. }
  unfold Py.key_lt at 1. case_bool_decide as Hlt.
  - rewrite !filter_cons, IH.
    destruct (decide (P hook)), (decide (P hook')); try done.
    cbn [Py.sort_insert]. unfold Py.key_lt at 2.
    by rewrite bool_decide_true.
  - rewrite !filter_cons.
    destruct (decide (P hook)) as [Hp|Hp]; [|done].
    destruct (decide (P hook')) as [Hp'|Hp'].
    + cbn [Py.sort_insert]. unfold Py.key_lt at 1.
      by rewrite bool_decide_false.
    + destruct (filter P hs) as [|hook'' hs''] eqn:Hf; [done|].
      cbn [Py.sort_insert]. unfold Py.key_lt at 1.
      rewrite bool_decide_false; [done|].
      assert (hook'' ∈ hs) as Hin.
      { eapply (list_elem_of_filter P). rewrite Hf. by left. }
      rewrite Forall_forall in Hall. specialize (Hall _ Hin).
      unfold Py.key_ge in Hall. lia.
Qed.

Lemma sort_filter_any (P : BaseHook Obj → Prop)
    `{!∀ hook, Decision (P hook)} hs :
  filter P (Py.sort (Py.key_lt priority) hs)
  = Py.sort (Py.key_lt priority) (filter P hs).
Proof.
  induction hs as [|hook hs IH]; [done|].
  cbn [Py.sort]. rewrite sort_insert_filter_any by apply PyFacts.sort_sorted.
  rewrite filter_cons, IH. by case_decide.
Qed.

Lemma filter_sorted (P : BaseHook Obj → Prop)
    `{!∀ hook, Decision (P hook)} hs :
  StronglySorted (Py.key_ge priority) hs →
  StronglySorted (Py.key_ge priority) (filter P hs).
Proof.
  induction 1 as [|hook hs Hs IH Hall]; [constructor|].
  rewrite filter_cons. case_decide; [|done].
  constructor; [done|].
  rewrite Forall_forall in Hall |- *.
  intros x Hx. apply list_elem_of_filter in Hx as [_ Hx]. by apply Hall.
Qed.

(** *** The calls on a dispatcher *)

Lemma hooks_unregister_hook (n : string) (ty ty' : HookType) self :
  hooks (unregister_hook n ty self) ty'
  = if decide (ty = ty')
    then filter (λ hook, name hook ≠ n) (hooks self ty')
    else hooks self ty'.
Proof.
  unfold unregister_hook. cbn [hooks]. case_decide as Hty.
  - subst ty'. by rewrite fn_lookup_insert.
  - by rewrite fn_lookup_insert_ne.
Qed.

Lemma hooks_execute_hooks sched ty context self :
  hooks (execute_hooks sched ty context self).2 = hooks self.
Proof.
  rewrite HooksSpec.execute_hooks_eq. by destruct (hooks self ty).
Qed.

Lemma after_snoc (cs : list (call Obj)) (c : call Obj) :
  after (cs ++ [c]) = apply_call (after cs) c.
Proof. unfold after. by rewrite foldl_snoc. Qed.

Lemma after_sorted (cs : list (call Obj)) (ty : HookType) :
  StronglySorted (Py.key_ge priority) (hooks (after cs) ty).
Proof.
  induction cs as [|c cs IH] using rev_ind; [constructor|].
  rewrite after_snoc.
  destruct c as [hook|n ty'|sched ty' context]; cbn [apply_call].
  - rewrite HooksSpec.hooks_register_hook.
    case_decide; [apply PyFacts.sort_sorted | done].
  - rewrite hooks_unregister_hook. case_decide; [|done].
    by apply filter_sorted.
  - by rewrite hooks_execute_hooks.
Qed.

(** X1.  Whatever calls are made on a new dispatcher (registrations,
    removals, firings, in any order), the hooks of every lifecycle point
    stay in descending order of priority. *)
Theorem hooks_stay_sorted (cs : list (call Obj)) (ty : HookType) :
  StronglySorted (λ h1 h2, (priority h2 ≤ priority h1)%Z)
    (hooks (after cs) ty).
Proof. apply after_sorted. Qed.

(** X2.  A firing does not change the registered hooks.  It returns one
    record per hook of the point.  When the point has no hook the history
    is left as it is; otherwise one entry is added to the history, which
    holds the value of the lifecycle point, the context and the records
    returned. *)
Theorem firing_adds_one_history_entry sched ty context self :
  let fired := execute_hooks sched ty context self in
  hooks fired.2 = hooks self
  ∧ length fired.1 = length (hooks self ty)
  ∧ execution_history fired.2
    = match hooks self ty with
      | [] => execution_history self
      | _ => execution_history self
             ++ [{| ex_hook_type := value ty; ex_context := context;
                    ex_results := fired.1 |}]
      end.
Proof.
  intros fired. subst fired. rewrite HooksSpec.execute_hooks_eq.
  destruct (hooks self ty) as [|hook0 rest] eqn:Hhs; [done|].
  cbn [fst snd hooks execution_history].
  split_and!; [done| |done].
  unfold records_of. by rewrite length_map.
Qed.

(** X3.  In a firing every hook gets its own record, at the position of
    the hook in the list of its lifecycle point, whatever the other hooks
    do and whatever the order in which the workers finish: the record the
    hook returns, or, when the hook raises, a record with status
    ['exception'], the name of the hook and the text of the fault. *)
Theorem hook_faults_are_isolated sched ty context self (i : nat) hook :
  hooks self ty !! i = Some hook →
  (execute_hooks sched ty context self).1 !! i
  = Some (record_of context hook)
  ∧ (∀ r, execute hook context = Returned r → record_of context hook = r)
  ∧ (∀ e, execute hook context = Raised e →
       status (record_of context hook) = "exception"
       ∧ hook_name (record_of context hook) = name hook
       ∧ error (record_of context hook) = Some (exn_str e)).
Proof.
  intros Hi. split_and!.
  - rewrite HooksSpec.execute_hooks_records. unfold records_of.
    change (map ?f ?l) with (f <$> l).
    by rewrite list_lookup_fmap, Hi.
  - intros r Hr. unfold record_of. by rewrite Hr.
  - intros e He. unfold record_of. by rewrite He.
Qed.

(** X4.  [unregister_hook(name, point)] removes every hook of that name
    from the point and nothing else: the hooks left are those with
    another name, in their order; the other lifecycle points and the
    history are untouched; and when no hook of the point has the name the
    list of the point is unchanged. *)
Theorem unregister_removes_by_name (n : string) (ty : HookType) self :
  let self' := unregister_hook n ty self in
  (∀ hook, hook ∈ hooks self' ty
           ↔ hook ∈ hooks self ty ∧ name hook ≠ n)
  ∧ hooks self' ty `sublist_of` hooks self ty
  ∧ (∀ ty', ty' ≠ ty → hooks self' ty' = hooks self ty')
  ∧ execution_history self' = execution_history self
  ∧ (Forall (λ hook, name hook ≠ n) (hooks self ty) →
     hooks self' ty = hooks self ty).
Proof.
  intros self'. subst self'. split_and!.
  - intros hook. rewrite hooks_unregister_hook, decide_True by done.
    rewrite list_elem_of_filter. tauto.
  - rewrite hooks_unregister_hook, decide_True by done.
    apply sublist_filter.
  - intros ty' Hne. by rewrite hooks_unregister_hook, decide_False.
  - done.
  - intros Hall. rewrite hooks_unregister_hook, decide_True by done.
    induction Hall as [|hook hs Hn _ IH]; [done|].
    by rewrite filter_cons, decide_True, IH.
Qed.

(** X5.  Registering a hook and removing it again by its name gives back
    the hooks there were, at every lifecycle point, provided no hook of
    that name was registered at the point before. *)
Theorem register_then_unregister (cs : list (call Obj)) hook :
  Forall (λ h, name h ≠ name hook) (hooks (after cs) (hook_type hook)) →
  ∀ ty,
    hooks (after (cs ++ [Register hook;
                         Unregister (name hook) (hook_type hook)])) ty
    = hooks (after cs) ty.
Proof.
  intros Hfresh ty.
  replace (cs ++ [Register hook; Unregister (name hook) (hook_type hook)])
    with ((cs ++ [Register hook])
          ++ [Unregister (name hook) (hook_type hook)])
    by (by rewrite <-app_assoc).
  rewrite !after_snoc. cbn [apply_call].
  rewrite hooks_unregister_hook, HooksSpec.hooks_register_hook.
  assert (filter (λ h, name h ≠ name hook) (hooks (after cs) (hook_type hook))
          = hooks (after cs) (hook_type hook)) as Hkeep.
  { induction Hfresh as [|h hs Hn _ IH]; [done|].
    by rewrite filter_cons, decide_True, IH. }
  destruct (decide (hook_type hook = ty)) as [<-|Hne].
  - destruct (decide (enabled hook ∧ hook_type hook = hook_type hook))
      as [_|_]; [|done].
    rewrite sort_filter_any, filter_app, Hkeep.
    rewrite filter_cons, decide_False, filter_nil, app_nil_r by tauto.
    apply sort_sorted_id, after_sorted.
  - rewrite decide_False by tauto. done.
Qed.

(** X6.  Registering an enabled hook adds it to the list of its lifecycle
    point and keeps every hook that was there; nothing changes at the
    other points or in the history.  Registering a disabled hook changes
    nothing. *)
Theorem register_keeps_hooks hook self :
  if enabled hook then
    hooks (register_hook hook self) (hook_type hook)
      ≡ₚ hooks self (hook_type hook) ++ [hook]
    ∧ (∀ ty, ty ≠ hook_type hook →
         hooks (register_hook hook self) ty = hooks self ty)
    ∧ execution_history (register_hook hook self) = execution_history self
  else register_hook hook self = self.
Proof.
  destruct (enabled hook) eqn:He.
  - split_and!.
    + rewrite HooksSpec.hooks_register_hook, He.
      rewrite decide_True by done. apply PyFacts.sort_perm.
    + intros ty Hne. rewrite HooksSpec.hooks_register_hook.
      rewrite decide_False; [done|]. intros [_ Heq]. by apply Hne.
    + unfold register_hook. by rewrite He.
  - unfold register_hook. by rewrite He.
Qed.

(** X7.  An error-handling hook never raises, and the status of its
    record tells what happened: ['no_error'] exactly when the context
    holds no error; ['unhandled'] exactly when it holds an error for whose
    class name no handler is registered; ['handled'] exactly when the
    handler registered under the class name of the error returns; and
    ['failed'] exactly when that handler raises. *)
Theorem error_handling_hook_status (nm : string)
    (handlers : gmap string (HookContext Obj → outcome Obj)) (prio : Z)
    context :
  ∃ r, execute (ErrorHandlingHook nm handlers prio) context = Returned r
    ∧ hook_name r = nm
    ∧ (status r = "no_error" ↔ ctx_error context = None)
    ∧ (status r = "unhandled"
       ↔ ∃ err, ctx_error context = Some err
                ∧ handlers !! exn_type err = None)
    ∧ (status r = "handled"
       ↔ ∃ err handler v,
           ctx_error context = Some err
           ∧ handlers !! exn_type err = Some handler
           ∧ handler context = Returned v ∧ result r = Some v)
    ∧ (status r = "failed"
       ↔ ∃ err handler e,
           ctx_error context = Some err
           ∧ handlers !! exn_type err = Some handler
           ∧ handler context = Raised e ∧ error r = Some (exn_str e)).
Proof.
  cbn [execute ErrorHandlingHook]. unfold ErrorHandlingHook_execute.
  destruct (ctx_error context) as [err|].
  2:{ eexists. split_and!; [done..| | |]; split; try done;
        intros (? & ?); naive_solver. }
  destruct (handlers !! exn_type err) as [handler|] eqn:Hh.
  2:{ eexists. split_and!; [done..| | |]; split; try done;
        try (intros (? & ?); naive_solver).
      intros _. by exists err. }
  destruct (handler context) as [v|e] eqn:Hc.
  - eexists. split_and!; [done..| | | |]; split; try done;
      try (intros (? & ?); naive_solver).
    intros _. by exists err, handler, v.
  - eexists. split_and!; [done..| | | |]; split; try done;
      try (intros (? & ?); naive_solver).
    intros _. by exists err, handler, e.
Qed.

End Facts.

Lemma hook_faults_are_isolated_witness :
  let self := after Scenarios.good_then_broken in
  let records :=
    (execute_hooks [1%nat] CUSTOM (Scenarios.plain_context CUSTOM) self).1 in
  hooks self CUSTOM !! 0%nat = Some Scenarios.broken_hook
  ∧ (status <$> records !! 0%nat) = Some "exception"
  ∧ (hook_name <$> records !! 0%nat) = Some "broken"
  ∧ (status <$> records !! 1%nat) = Some "success".
Proof.
  intros self records.
  assert (hooks self CUSTOM !! 0%nat = Some Scenarios.broken_hook) as H0
    by reflexivity.
  assert (hooks self CUSTOM !! 1%nat = Some Scenarios.good_hook) as H1
    by reflexivity.
  destruct (hook_faults_are_isolated [1%nat] CUSTOM
              (Scenarios.plain_context CUSTOM) self 0 _ H0) as (R0 & _ & E0).
  destruct (hook_faults_are_isolated [1%nat] CUSTOM
              (Scenarios.plain_context CUSTOM) self 1 _ H1) as (R1 & _ & _).
  destruct (E0 _ eq_refl) as (Es & En & _).
  subst records. rewrite R0, R1. cbn [fmap option_fmap option_map].
  rewrite Es, En. split_and!; [exact H0|reflexivity..].
Defined.

Lemma register_then_unregister_witness :
  Forall (λ h, name h ≠ name Scenarios.broken_hook)
    (hooks (after [Register Scenarios.good_hook])
       (hook_type Scenarios.broken_hook))
  ∧ name <$> hooks
      (after ([Register Scenarios.good_hook]
              ++ [Register Scenarios.broken_hook;
                  Unregister (name Scenarios.broken_hook)
                    (hook_type Scenarios.broken_hook)])) CUSTOM
    = ["good"].
Proof.
  assert (Forall (λ h, name h ≠ name Scenarios.broken_hook)
            (hooks (after [Register Scenarios.good_hook])
               (hook_type Scenarios.broken_hook))) as Hfresh.
  { repeat constructor. discriminate. }
  split; [exact Hfresh|].
  by rewrite (register_then_unregister [Register Scenarios.good_hook]
                Scenarios.broken_hook Hfresh CUSTOM).
Defined.

End DispatcherFacts.

(** ** The hooks that read the context *)

Module HookLibraryFacts.
Import Hooks HookLibrary.

Lemma validated_fields (data : Dict) (rules : list (string * Rule)) :
  v_field <$> omap (validate_field data) rules
  = filter (λ f, is_Some (data !! f)) rules.*1.
Proof.
  induction rules as [|[field rule] rules IH]; [done|].
  rewrite fmap_cons, filter_cons. cbn [omap list_omap fst].
  unfold validate_field at 1.
  destruct (data !! field) as [value|] eqn:Hv.
  - rewrite decide_True by eauto. rewrite fmap_cons, IH. f_equal.
    destruct (_ && _); [done|].
    destruct (type rule) as [t|]; [|done].
    by destruct (negb (isinstance value t)).
  - rewrite decide_False by (by intros [? ?]). done.
Qed.

Lemma context_data_lookup (context : HookContext Dict) (f : string) v :
  default ∅ (ctx_data context) !! f = Some v →
  ∃ data, ctx_data context = Some data ∧ data !! f = Some v
          ∧ bool_decide (dom data ≠ ∅) = true.
Proof.
  destruct (ctx_data context) as [data|]; simpl; [|by rewrite lookup_empty].
  intros Hv. exists data. split_and!; [done..|].
  apply bool_decide_eq_true_2. intros Hd.
  apply dom_empty_inv_L in Hd. subst data. by rewrite lookup_empty in Hv.
Qed.

(** X8.  The data-validation hook never raises and its record always has
    status ['success'], also when fields fail their rule.  Its list of
    validation results has one entry for every rule whose field is in the
    data of the context, in the order of the rules: a rule whose field is
    not in the data gives no entry, even when the rule says the field is
    required, and without data the list is empty. *)
Theorem data_validation_never_fails (nm : string)
    (rules : list (string * Rule)) (prio : Z) (context : HookContext Dict) :
  ∃ r, execute (DataValidationHook nm rules prio) context = Returned r
    ∧ status r = "success"
    ∧ hook_name r = nm
    ∧ result r
      = Some {["validation_results" :=
                 VList (encode_result <$> validation_results rules context)]}
    ∧ v_field <$> validation_results rules context
      = filter (λ f, is_Some (default ∅ (ctx_data context) !! f)) rules.*1.
Proof.
  eexists. split_and!; [done..|].
  unfold validation_results.
  destruct (ctx_data context) as [data|]; simpl.
  - case_bool_decide as Hd; [apply validated_fields|].
    assert (data = ∅) as ->.
    { apply dom_empty_inv_L. by destruct (decide (dom data = ∅)). }
    induction rules as [|[f r] rules IH]; [done|].
    rewrite fmap_cons, filter_cons, decide_False; [done|].
    rewrite lookup_empty. by intros [? ?].
  - induction rules as [|[f r] rules IH]; [done|].
    rewrite fmap_cons, filter_cons, decide_False; [done|].
    rewrite lookup_empty. by intros [? ?].
Qed.

Lemma validate_field_Some (data : Dict) (field : string) (rule : Rule)
    (value : PyVal) :
  data !! field = Some value →
  ∃ entry, validate_field data (field, rule) = Some entry
    ∧ v_field entry = field
    ∧ (v_status entry = "passed"
       ↔ (truthy (default (VBool false) (required rule)) = true
          → truthy value = true)
         ∧ (∀ t, type rule = Some t → isinstance value t = true))
    ∧ (truthy (default (VBool false) (required rule)) = true →
       truthy value = false →
       v_status entry = "failed"
       ∧ v_message entry
         = Some ("Required field " +:+ field +:+ " is empty")).
Proof.
  intros Hv. unfold validate_field. rewrite Hv.
  destruct (truthy (default (VBool false) (required rule)));
    destruct (truthy value);
    destruct (type rule) as [t|]; try destruct (isinstance value t) eqn:Hi;
    cbn [andb negb]; eexists; (split; [reflexivity|]);
    cbn [v_field v_status v_message];
    (split; [reflexivity|]); (split; [|done]);
    (split; [intros H; try discriminate H|intros [H1 H2]]);
    try done;
    try (split; [done|]; intros t' [= <-]; done);
    try (specialize (H2 _ eq_refl); congruence);
    try (specialize (H1 eq_refl); congruence).
Qed.

(** X9.  For a rule whose field is in the data of the context the list
    of validation results has an entry for the field.  The entry is
    ['passed'] exactly when the value is truthy if the rule requires the
    field and is an instance of the class of the rule if the rule names
    one.  When the rule requires the field and the value is falsy (0, the
    empty text, [False], [None], an empty list or dict) the entry is
    ['failed'] with the message that the required field is empty,
    whatever the class of the value. *)
Theorem validation_verdict (rules : list (string * Rule))
    (context : HookContext Dict) (field : string) (rule : Rule)
    (value : PyVal) :
  (field, rule) ∈ rules →
  default ∅ (ctx_data context) !! field = Some value →
  ∃ entry, entry ∈ validation_results rules context
    ∧ v_field entry = field
    ∧ (v_status entry = "passed"
       ↔ (truthy (default (VBool false) (required rule)) = true
          → truthy value = true)
         ∧ (∀ t, type rule = Some t → isinstance value t = true))
    ∧ (truthy (default (VBool false) (required rule)) = true →
       truthy value = false →
       v_status entry = "failed"
       ∧ v_message entry
         = Some ("Required field " +:+ field +:+ " is empty")).
Proof.
  intros Hin Hv.
  apply context_data_lookup in Hv as (data & Hd & Hv & Hne).
  unfold validation_results. rewrite Hd, Hne.
  destruct (validate_field_Some data field rule value Hv)
    as (entry & He & Hrest).
  exists entry. split; [|exact Hrest].
  apply list_elem_of_omap. by exists (field, rule).
Qed.

Lemma validation_verdict_witness :
  let rule := {| required := Some (VBool true); type := Some TInt |} in
  ("question_id", rule) ∈ default_validation_rules
  ∧ default ∅ (ctx_data Scenarios.first_turn_context) !! "question_id"
    = Some (VInt 0)
  ∧ ∃ entry,
      entry ∈ validation_results default_validation_rules
                Scenarios.first_turn_context
      ∧ v_field entry = "question_id"
      ∧ v_status entry = "failed"
      ∧ v_message entry = Some "Required field question_id is empty".
Proof.
  intros rule.
  assert (("question_id", rule) ∈ default_validation_rules) as Hin.
  { unfold default_validation_rules. do 2 right. left. }
  assert (default ∅ (ctx_data Scenarios.first_turn_context) !! "question_id"
          = Some (VInt 0)) as Hv by reflexivity.
  split_and!; [exact Hin|exact Hv|].
  destruct (validation_verdict default_validation_rules
              Scenarios.first_turn_context "question_id" rule (VInt 0)
              Hin Hv) as (entry & He & Hf & _ & Hempty).
  destruct (Hempty eq_refl eq_refl) as [Hs Hm].
  exists entry. split_and!; [exact He|exact Hf|exact Hs|exact Hm].
Defined.

(** X10.  [test_data_integrity] never raises.  It reports ['passed']
    exactly when the data of the context has both a ['question'] and a
    ['ground_truth'] entry, and ['failed'] otherwise: with the list of
    the missing ones among the two when there is data, with the error
    ['No data provided'] when the data is absent or empty.  The
    integration-test hook made of it has status ['success'] whatever the
    report says. *)
Theorem data_integrity_report (context : HookContext Dict) :
  let data := default ∅ (ctx_data context) in
  ∃ d, test_data_integrity context = Returned d
    ∧ (d !! "integrity" = Some (VStr "passed")
       ↔ is_Some (data !! "question") ∧ is_Some (data !! "ground_truth"))
    ∧ (d !! "integrity" = Some (VStr "passed")
       ∨ d !! "integrity" = Some (VStr "failed"))
    ∧ (data ≠ ∅ → d !! "integrity" = Some (VStr "failed") →
       d !! "missing_fields" = Some (VList (VStr <$> missing_fields data))
       ∧ missing_fields data ≠ [])
    ∧ (data = ∅ → d !! "error" = Some (VStr "No data provided"))
    ∧ ∃ r, execute integrity_hook context = Returned r
           ∧ status r = "success" ∧ result r = Some d.
Proof.
  intros data. subst data.
  cbn [execute integrity_hook IntegrationTestHook].
  unfold test_data_integrity.
  destruct (ctx_data context) as [data|]; cbn [from_option id].
  2:{ eexists. split; [reflexivity|]. rewrite !lookup_empty.
      split_and!; try done.
      - split; [done|]. by intros [[? ?] _].
      - by right.
      - eexists. split_and!; reflexivity. }
  case_bool_decide as Hd.
  2:{ assert (data = ∅) as ->.
      { apply dom_empty_inv_L.
        by destruct (decide (dom (D:=gset string) data = ∅)). }
      eexists. split; [reflexivity|]. rewrite !lookup_empty.
      split_and!; try done.
      - split; [done|]. by intros [[? ?] _].
      - by right.
      - eexists. split_and!; reflexivity. }
  assert (data ≠ ∅) as Hne.
  { intros ->. by rewrite dom_empty_L in Hd. }
  unfold missing_fields. rewrite !filter_cons, filter_nil.
  destruct (data !! "question") as [q|] eqn:Hq;
    destruct (data !! "ground_truth") as [g|] eqn:Hg;
    repeat (first [rewrite decide_True by (by intros [? ?])
                  |rewrite decide_False by (intros Hx; apply Hx; eauto)]);
    (eexists; split; [reflexivity|]);
    (split_and!;
     [ split; [try done; intros _; eauto | try done; intros [[? ?] [? ?]]; done]
     | first [by left | by right]
     | try done
     | done
     | eexists; split_and!; reflexivity ]).
Qed.

End HookLibraryFacts.

(** ** More on concurrent_evaluator.py *)

Module OrchestrationFacts.
Import Evaluator Orchestration.

Section Facts.
Context {Obj : Type}.
Implicit Types (env : Environment Obj) (session : ConversationSession Obj).
Implicit Types (turn : ConversationTurn Obj).

(** *** The results of a session *)

Lemma foldl_collect_results env session (ts : list (ConversationTurn Obj))
    (acc : list (TurnResult Obj) * gmap string Obj) :
  (foldl (collect_turn session) acc
     ((λ turn, (evaluate_single_turn env session turn, turn)) <$> ts)).1
  = acc.1 ++ (turn_result env session <$> ts).
Proof.
  revert acc. induction ts as [|turn ts IH]; intros acc.
  { by rewrite app_nil_r. }
  rewrite !fmap_cons. cbn [foldl]. rewrite IH.
  assert ((collect_turn session acc
             (evaluate_single_turn env session turn, turn)).1
          = acc.1 ++ [turn_result env session turn]) as ->.
  { unfold collect_turn, turn_result.
    by destruct (evaluate_single_turn env session turn) as [r|e]. }
  by rewrite <-app_assoc.
Qed.

Lemma process_results env session :
  (process_conversation_session env session).1
  = turn_result env session
      <$> Py.as_completed (env_turn_picks env (session_id session))
            (turns session).
Proof.
  unfold process_conversation_session. cbn [fst].
  change (map ?f ?l) with (f <$> l).
  by rewrite PyFacts.as_completed_fmap, foldl_collect_results.
Qed.

Lemma turn_result_status env session turn :
  status (turn_result env session turn) ∈ ["success"; "failed"; "error"].
Proof.
  unfold turn_result, evaluate_single_turn.
  destruct (env_create_evaluator env (request_of env session turn))
    as [[[p|]|e]|e]; simpl; set_solver.
Qed.

(** X11.  A session run gives exactly one result per turn: the results
    are, in the order of completion, those of the turns of the session,
    whose status is ['success'], ['failed'] or ['error'] (never
    ['exception']); the identifiers and the turns of the session are
    left as they were. *)
Theorem one_result_per_turn env session :
  let run := process_conversation_session env session in
  run.1 ≡ₚ turn_result env session <$> turns session
  ∧ length run.1 = length (turns session)
  ∧ tr_turn_id <$> run.1 ≡ₚ turn_id <$> turns session
  ∧ Forall (λ r, status r ∈ ["success"; "failed"; "error"]
                 ∧ tr_session_id r = session_id session) run.1
  ∧ session_id run.2 = session_id session
  ∧ trajectory_id run.2 = trajectory_id session
  ∧ turns run.2 = turns session.
Proof.
  intros run. subst run.
  assert ((process_conversation_session env session).1
          ≡ₚ turn_result env session <$> turns session) as Hperm.
  { rewrite process_results. by rewrite PyFacts.as_completed_perm. }
  split_and!; [done| | | |done..].
  - by rewrite Hperm, length_fmap.
  - rewrite Hperm, <-list_fmap_compose.
    assert (tr_turn_id ∘ turn_result env session <$> turns session
            = turn_id <$> turns session) as ->; [|done].
    apply list_fmap_ext. intros i turn _. simpl.
    unfold turn_result, evaluate_single_turn.
    by destruct (env_create_evaluator env (request_of env session turn))
      as [[[p|]|e]|e].
  - rewrite Hperm. apply Forall_fmap, Forall_forall. intros turn _. simpl.
    split; [apply turn_result_status|].
    unfold turn_result, evaluate_single_turn.
    by destruct (env_create_evaluator env (request_of env session turn))
      as [[[p|]|e]|e].
Qed.

(** X12.  When the evaluator capability returns a payload for every
    turn of a session, the session run gives as many results as the
    session has turns, all with status ['success'], whatever the order
    in which the turns complete. *)
Theorem all_turns_succeed env session :
  (∀ turn, turn ∈ turns session →
     ∃ p, run_capability env (request_of env session turn)
          = Returned (Some p)) →
  ∀ picks : string → list nat,
    let results :=
      (process_conversation_session (with_turn_picks picks env) session).1 in
    length results = length (turns session)
    ∧ Forall (λ r, status r = "success") results.
Proof.
  intros Hall picks results. subst results. rewrite process_results.
  cbn [env_turn_picks with_turn_picks].
  split.
  - by rewrite length_fmap, PyFacts.as_completed_perm.
  - apply Forall_fmap, Forall_forall. intros turn Hin. simpl.
    rewrite PyFacts.as_completed_perm in Hin.
    destruct (Hall turn Hin) as [p Hp].
    unfold turn_result, evaluate_single_turn.
    unfold run_capability in Hp. cbn [env_create_evaluator with_turn_picks].
    change (request_of (with_turn_picks picks env) session turn)
      with (request_of env session turn).
    destruct (env_create_evaluator env (request_of env session turn))
      as [ev|e]; [|done].
    simpl in Hp. by rewrite Hp.
Qed.

(** *** The summary of a batch *)

(** X13.  In the summary of a batch the turns counted as successful,
    failed and error are together at most the total; the success rate
    lies between 0 and 1; it is 1 exactly when there is a turn and every
    turn is a success, and 0 exactly when no turn is a success. *)
Theorem summary_rate_bounds (srs : list (SessionResult Obj)) :
  let s := _generate_evaluation_summary srs in
  (successful_turns s + failed_turns s + error_turns s ≤ total_turns s)%nat
  ∧ (0 <= success_rate s)%Q
  ∧ (success_rate s <= 1)%Q
  ∧ ((success_rate s == 1)%Q
     ↔ (0 < total_turns s)%nat ∧ successful_turns s = total_turns s)
  ∧ ((success_rate s == 0)%Q ↔ successful_turns s = 0%nat).
Proof.
  intros s. subst s.
  pose proof (EvaluatorSpec.summary_total_decomposition srs) as Hdec.
  pose proof (EvaluatorSpec.summary_counts srs) as Hc.
  cbv zeta in Hdec, Hc. destruct Hc as (_ & _ & _ & _ & Hrate).
  set (s := _generate_evaluation_summary srs) in *.
  split; [lia|]. rewrite Hrate.
  case_bool_decide as Ht.
  - destruct (PyFacts.truediv_bounds (successful_turns s) (total_turns s))
      as (H0 & H1 & He1 & He0); [lia|done|].
    split_and!; [done|done| |done].
    rewrite He1. split; [by intros ->|by intros [_ ->]].
  - assert (successful_turns s = 0%nat) as Hs0 by lia.
    split_and!; [done|done| |done].
    split; [by intros [=]|]. intros [? _]. lia.
Qed.

(** *** The average scores *)

Lemma add_score_lookup (scores : gmap string (list float))
    (entry : string * MetricData) (m : string) :
  add_score scores entry !! m
  = (λ l, l ++ option_list (score_for m entry)) <$> scores !! m.
Proof.
  unfold add_score, score_for.
  destruct (score entry.2) as [sc|].
  2:{ case_decide; simpl; destruct (scores !! m); simpl;
        by rewrite ?app_nil_r. }
  destruct (scores !! Py.lower entry.1) as [l|] eqn:Hl.
  - destruct (decide (Py.lower entry.1 = m)) as [<-|Hne].
    + by rewrite lookup_insert_eq, Hl.
    + rewrite lookup_insert_ne by done.
      destruct (scores !! m); simpl; by rewrite ?app_nil_r.
  - destruct (decide (Py.lower entry.1 = m)) as [<-|Hne].
    + by rewrite Hl.
    + destruct (scores !! m); simpl; by rewrite ?app_nil_r.
Qed.

Lemma foldl_add_score_lookup (ms : list (string * MetricData))
    (scores : gmap string (list float)) (m : string) :
  foldl add_score scores ms !! m
  = (λ l, l ++ omap (score_for m) ms) <$> scores !! m.
Proof.
  revert scores. induction ms as [|entry ms IH]; intros scores.
  { simpl. destruct (scores !! m); simpl; by rewrite ?app_nil_r. }
  cbn [foldl omap list_omap]. rewrite IH, add_score_lookup.
  destruct (scores !! m) as [l|]; simpl; [|done].
  f_equal. rewrite <-app_assoc. f_equal.
  by destruct (score_for m entry).
Qed.

Lemma count_turn_scores (c : Counters) (r : TurnResult Obj) (m : string) :
  c_scores (count_turn c r) !! m
  = (λ l, l ++ reported_by m r) <$> c_scores c !! m.
Proof.
  unfold count_turn, reported_by.
  destruct (decide (status r = "success")) as [Hs|Hs].
  - cbn [c_scores]. unfold extract_scores.
    destruct (results r) as [p|]; simpl.
    2:{ destruct (c_scores c !! m); simpl; by rewrite ?app_nil_r. }
    destruct (evaluation_results p) as [er|]; simpl.
    2:{ destruct (c_scores c !! m); simpl; by rewrite ?app_nil_r. }
    destruct (metrics_scores er) as [ms|]; simpl.
    2:{ destruct (c_scores c !! m); simpl; by rewrite ?app_nil_r. }
    apply foldl_add_score_lookup.
  - repeat case_decide; cbn [c_scores];
      destruct (c_scores c !! m); simpl; by rewrite ?app_nil_r.
Qed.

Lemma foldl_count_turn_scores (rs : list (TurnResult Obj)) (c : Counters)
    (m : string) :
  c_scores (foldl count_turn c rs) !! m
  = (λ l, l ++ reported m rs) <$> c_scores c !! m.
Proof.
  revert c. unfold reported. induction rs as [|r rs IH]; intros c.
  { simpl. destruct (c_scores c !! m); simpl; by rewrite ?app_nil_r. }
  cbn [foldl]. rewrite IH, count_turn_scores, bind_cons.
  destruct (c_scores c !! m); simpl; [|done].
  by rewrite <-app_assoc.
Qed.

Lemma foldl_count_session_scores (srs : list (SessionResult Obj))
    (c : Counters) (m : string) :
  c_scores (foldl count_session c srs) !! m
  = (λ l, l ++ reported m (all_turns srs)) <$> c_scores c !! m.
Proof.
  revert c. unfold all_turns, reported.
  induction srs as [|sr srs IH]; intros c.
  { simpl. destruct (c_scores c !! m); simpl; by rewrite ?app_nil_r. }
  cbn [foldl map concat]. rewrite IH, bind_app.
  assert (c_scores (count_session c sr) !! m
          = (λ l, l ++ (default [] (sr_results sr) ≫= reported_by m))
              <$> c_scores c !! m) as ->.
  { unfold count_session. destruct (sr_results sr) as [rs|]; simpl.
    - apply foldl_count_turn_scores.
    - destruct (c_scores c !! m); simpl; by rewrite ?app_nil_r. }
  destruct (c_scores c !! m); simpl; [|done].
  by rewrite <-app_assoc.
Qed.

Lemma evaluation_scores_init_lookup (m : string) :
  evaluation_scores_init !! m = if decide (m ∈ tracked) then Some [] else None.
Proof.
  unfold evaluation_scores_init, tracked.
  case_decide as Hm.
  - rewrite !elem_of_cons, elem_of_nil in Hm.
    destruct Hm as [->|[->|[->|[->|[]]]]]; reflexivity.
  - rewrite !not_elem_of_cons in Hm. destruct Hm as (?&?&?&?&_).
    by rewrite !lookup_insert_ne, lookup_empty.
Qed.

Lemma average_scores_lookup (srs : list (SessionResult Obj)) (m : string) :
  average_scores (_generate_evaluation_summary srs) !! m
  = if decide (m ∈ tracked)
    then Some match reported m (all_turns srs) with
              | [] => 0%float
              | scores => Py.mean scores
              end
    else None.
Proof.
  unfold _generate_evaluation_summary. cbn [average_scores].
  rewrite lookup_fmap, foldl_count_session_scores. cbn [c_scores].
  rewrite evaluation_scores_init_lookup.
  case_decide; [|done]. simpl.
  by destruct (reported m (all_turns srs)).
Qed.

(** X14.  The summary has an average for each of the four tracked
    metrics and for nothing else.  The average of a tracked metric is
    0.0 when no successful turn reports a score under the name of the
    metric (in whatever letter case the name is written); otherwise it
    is the sum of those scores, added one after the other in the order
    in which the batch holds the turn results, divided by their number,
    sum and quotient being those of binary64 floats.  Scores under other
    names are ignored. *)
Theorem average_scores_characterised (srs : list (SessionResult Obj)) :
  let s := _generate_evaluation_summary srs in
  dom (average_scores s) = list_to_set tracked
  ∧ ∀ m, average_scores s !! m
         = if decide (m ∈ tracked)
           then Some match reported m (all_turns srs) with
                     | [] => 0%float
                     | scores =>
                         (foldl PrimFloat.add 0 scores
                          / PrimFloat.of_uint63
                              (Uint63.of_Z (Z.of_nat (length scores))))%float
                     end
           else None.
Proof.
  intros s. subst s.
  assert (∀ m, average_scores (_generate_evaluation_summary srs) !! m
               = if decide (m ∈ tracked)
                 then Some match reported m (all_turns srs) with
                           | [] => 0%float
                           | scores =>
                               (foldl PrimFloat.add 0 scores
                                / PrimFloat.of_uint63
                                    (Uint63.of_Z
                                       (Z.of_nat (length scores))))%float
                           end
                 else None) as Hlook.
  { intros m. rewrite average_scores_lookup. case_decide; [|done].
    unfold Py.mean, Py.float_of_nat.
    by destruct (reported m (all_turns srs)). }
  split; [|exact Hlook].
  apply set_eq. intros m.
  rewrite elem_of_dom, Hlook, elem_of_list_to_set.
  case_decide as Hm; split; intros H; try done;
    try (by eexists); by destruct H.
Qed.

Lemma count_status_perm (st : string) (l k : list (TurnResult Obj)) :
  l ≡ₚ k → count_status st l = count_status st k.
Proof. intros Hp. unfold count_status. by rewrite Hp. Qed.

(** X15.  The counts and the success rate of the summary of a batch do
    not depend on the order of its turn results: two batches of as many
    sessions that hold the same turn results, in whatever order and
    however spread over the sessions, have the same total, the same
    numbers of successful, failed and error turns and the same success
    rate.  (The averages may differ: the scores are added in the order
    of the turn results, and the sum of floats depends on that order.) *)
Theorem summary_independent_of_order (srs srs' : list (SessionResult Obj)) :
  all_turns srs ≡ₚ all_turns srs' →
  length srs = length srs' →
  let s := _generate_evaluation_summary srs in
  let s' := _generate_evaluation_summary srs' in
  total_turns s = total_turns s'
  ∧ successful_turns s = successful_turns s'
  ∧ failed_turns s = failed_turns s'
  ∧ error_turns s = error_turns s'
  ∧ success_rate s = success_rate s'
  ∧ total_sessions s = total_sessions s'.
Proof.
  intros Hp Hlen s s'. subst s s'.
  pose proof (EvaluatorSpec.summary_counts srs) as H.
  pose proof (EvaluatorSpec.summary_counts srs') as H'.
  cbv zeta in H, H'.
  destruct H as (Ht & Hs & Hf & He & Hr), H' as (Ht' & Hs' & Hf' & He' & Hr').
  assert (total_turns (_generate_evaluation_summary srs)
          = total_turns (_generate_evaluation_summary srs')) as Etot.
  { by rewrite Ht, Ht', Hp. }
  assert (successful_turns (_generate_evaluation_summary srs)
          = successful_turns (_generate_evaluation_summary srs')) as Esuc.
  { rewrite Hs, Hs'. by apply count_status_perm. }
  split_and!; [done|done| | | |done].
  - rewrite Hf, Hf'. by apply count_status_perm.
  - rewrite He, He'. by apply count_status_perm.
  - by rewrite Hr, Hr', Etot, Esuc.
Qed.

(** *** A whole batch *)

Lemma create_sessions_ok env (n : nat)
    (data : list (string * list (TurnData Obj))) :
  well_formed data →
  create_sessions env n data
  = Returned
      (imap (λ k entry,
               {| session_id := env_uuid4 env (n + k);
                  trajectory_id := entry.1;
                  turns := imap turn_of entry.2; context := ∅;
                  max_concurrent_turns := 3 |})
            data).
Proof.
  intros H. revert n.
  induction H as [|[tid tds] data Hq _ IH]; intros n; [done|].
  cbn [create_sessions]. unfold create_conversation_session.
  rewrite (EvaluatorSpec.build_turns_ok 0) by done. simpl.
  rewrite IH. simpl. rewrite Nat.add_0_r. do 2 f_equal.
  apply imap_ext. intros k x _. simpl. do 2 f_equal. lia.
Qed.

Lemma create_sessions_fail env (n : nat)
    (data : list (string * list (TurnData Obj))) :
  ¬ well_formed data →
  create_sessions env n data = Raised (Exception "KeyError" "'question'").
Proof.
  revert n. induction data as [|[tid tds] data IH]; intros n Hn.
  { destruct Hn. constructor. }
  cbn [create_sessions]. unfold create_conversation_session.
  destruct (decide (Forall has_question tds)) as [Hq|Hq].
  - rewrite (EvaluatorSpec.build_turns_ok 0) by done. simpl.
    rewrite IH; [done|]. intros Hall. apply Hn. by constructor.
  - by rewrite EvaluatorSpec.build_turns_fail.
Qed.

Lemma foldl_collect_session
    (dl : list (list (TurnResult Obj) * ConversationSession Obj))
    (acc : list (SessionResult Obj) *
           gmap string (string * list (TurnResult Obj) * gmap string Obj)) :
  (foldl collect_session acc dl).1 = acc.1 ++ (session_record <$> dl)
  ∧ dom (foldl collect_session acc dl).2
    = dom acc.2 ∪ list_to_set ((λ d, trajectory_id d.2) <$> dl).
Proof.
  revert acc. induction dl as [|[rs session] dl IH]; intros acc.
  { simpl. split; [by rewrite app_nil_r|set_solver]. }
  cbn [foldl]. destruct (IH (collect_session acc (rs, session))) as [-> ->].
  cbn [collect_session fst snd]. rewrite <-app_assoc. split; [done|].
  rewrite dom_insert_L, fmap_cons. cbn [list_to_set snd]. set_solver.
Qed.

Lemma all_turns_records
    (dl : list (list (TurnResult Obj) * ConversationSession Obj)) :
  all_turns (session_record <$> dl) = dl ≫= fst.
Proof.
  unfold all_turns. induction dl as [|d dl IH]; [done|].
  rewrite fmap_cons, bind_cons. cbn [map concat]. by rewrite <-IH.
Qed.

Lemma bind_perm_ext {A B} (f g : A → list B) (l : list A) :
  (∀ x, x ∈ l → f x ≡ₚ g x) → l ≫= f ≡ₚ l ≫= g.
Proof.
  induction l as [|x l IH]; intros H; [done|].
  rewrite !bind_cons. rewrite (H x) by set_solver.
  rewrite IH; [done|]. intros y Hy. apply H. set_solver.
Qed.

Lemma foldl_add_sum {A} (f : A → nat) (l : list A) (a : nat) :
  foldl Nat.add a (f <$> l) = (a + sum_list_with f l)%nat.
Proof.
  revert a. induction l as [|x l IH]; intros a; simpl; [lia|].
  rewrite IH. lia.
Qed.

Lemma sum_list_with_imap {A B} (f : nat → A → B) (g : B → nat)
    (h : A → nat) (l : list A) :
  (∀ k x, g (f k x) = h x) →
  sum_list_with g (imap f l) = sum_list_with h l.
Proof.
  revert f. induction l as [|x l IH]; intros f H; simpl; [done|].
  rewrite H. f_equal. apply IH. intros k y. apply H.
Qed.

Lemma length_bind {A B} (f : A → list B) (l : list A) :
  length (l ≫= f) = sum_list_with (λ x, length (f x)) l.
Proof.
  induction l as [|x l IH]; [done|].
  rewrite bind_cons, length_app, IH. done.
Qed.

Lemma filter_none {A} (P : A → Prop) `{!∀ x, Decision (P x)} (l : list A) :
  Forall (λ x, ¬ P x) l → filter P l = [].
Proof.
  induction 1 as [|x l Hx _ IH]; [done|].
  by rewrite filter_cons_False.
Qed.

Lemma expected_results_status env
    (data : list (string * list (TurnData Obj))) :
  Forall (λ r, status r ∈ ["success"; "failed"; "error"])
         (expected_results env data).
Proof.
  unfold expected_results. apply Forall_forall. intros r Hr.
  apply list_elem_of_bind in Hr as (session & Hr & _).
  apply list_elem_of_fmap in Hr as (turn & -> & _).
  apply turn_result_status.
Qed.

(** The batch that [run_concurrent_evaluations] hands to the summary:
    the results of [process_conversation_session] on the sessions. *)
Lemma run_turn_statuses env (data_file : string)
    (o : EvaluationOutput Obj) :
  run_concurrent_evaluations env data_file = Returned o →
  eo_summary o = _generate_evaluation_summary (eo_sessions o)
  ∧ Forall (λ r, status r ∈ ["success"; "failed"; "error"])
           (all_turns (eo_sessions o)).
Proof.
  unfold run_concurrent_evaluations.
  destruct (env_json_load env data_file) as [data|e]; [|done]. simpl.
  destruct (create_sessions env 0 data) as [sessions|e]; [|done]. simpl.
  intros [= <-]. cbn [eo_summary eo_sessions]. split; [done|].
  change (map ?f ?l) with (f <$> l).
  destruct (foldl_collect_session
              (Py.as_completed (env_session_picks env)
                 (process_conversation_session env <$> sessions)) ([], ∅))
    as [-> _].
  cbn [fst]. rewrite app_nil_l, all_turns_records.
  rewrite PyFacts.as_completed_perm, list_fmap_bind.
  apply Forall_forall. intros r Hr.
  apply list_elem_of_bind in Hr as (session & Hr & _).
  unfold compose in Hr. rewrite process_results in Hr.
  apply list_elem_of_fmap in Hr as (turn & -> & _).
  apply turn_result_status.
Qed.


End Facts.

Lemma summary_independent_of_order_witness :
  let s := _generate_evaluation_summary Scenarios.batch_in_order in
  let s' := _generate_evaluation_summary Scenarios.batch_reversed in
  all_turns Scenarios.batch_in_order ≡ₚ all_turns Scenarios.batch_reversed
  ∧ length Scenarios.batch_in_order = length Scenarios.batch_reversed
  ∧ successful_turns s = successful_turns s'
  ∧ success_rate s = success_rate s'
  ∧ average_scores s !! "helpfulness" = Some 0.20000000000000004%float
  ∧ average_scores s' !! "helpfulness" = Some 0.19999999999999998%float.
Proof.
  intros s s'. subst s s'.
  assert (all_turns Scenarios.batch_in_order
          ≡ₚ all_turns Scenarios.batch_reversed) as Hp.
  { exact (Permutation_rev
             [Scenarios.turn_record 0 0.1; Scenarios.turn_record 1 0.2;
              Scenarios.turn_record 2 0.3]). }
  assert (length Scenarios.batch_in_order
          = length Scenarios.batch_reversed) as Hlen by reflexivity.
  destruct (summary_independent_of_order _ _ Hp Hlen)
    as (_ & Hs & _ & _ & Hr & _).
  split_and!; [exact Hp|exact Hlen|exact Hs|exact Hr|reflexivity..].
Defined.

Lemma all_turns_succeed_witness :
  let env :=
    Scenarios.environment
      (Scenarios.fixed (Returned (Some Scenarios.scored_payload)))
      (Returned []) [] in
  let session := Scenarios.session_of ["COT"; "COT"; "COT"] in
  (∀ turn, turn ∈ turns session →
     ∃ p, run_capability env (request_of env session turn)
          = Returned (Some p))
  ∧ status <$> (process_conversation_session
                  (with_turn_picks (λ _, [2%nat; 0%nat]) env) session).1
    = ["success"; "success"; "success"].
Proof.
  intros env session.
  assert (∀ turn, turn ∈ turns session →
            ∃ p, run_capability env (request_of env session turn)
                 = Returned (Some p)) as Hall.
  { intros turn Hin. simpl in Hin.
    rewrite !elem_of_cons, elem_of_nil in Hin.
    destruct Hin as [->|[->|[->|[]]]]; by eexists. }
  split; [exact Hall|].
  destruct (all_turns_succeed env session Hall (λ _, [2%nat; 0%nat]))
    as [Hlen Hs].
  destruct (process_conversation_session _ session).1
    as [|r1 [|r2 [|r3 [|r4 rs]]]]; try discriminate Hlen.
  apply Forall_cons in Hs as [H1 Hs].
  apply Forall_cons in Hs as [H2 Hs].
  apply Forall_cons in Hs as [H3 _].
  cbn [fmap list_fmap]. rewrite H1, H2, H3. reflexivity.
Defined.

End OrchestrationFacts.

(** ** The summary of a batch run *)

Module BatchSummarySpec.
Import Evaluator Orchestration.

(** C3.  For every batch that a run of the orchestrator aggregates, the
    summary counts every turn result in the total, the numbers of
    successful, failed and error turns are the numbers of turn results
    with these statuses, no turn result has the status ['exception'],
    and so the counts by status add up to the total; the success rate is
    the number of successes divided by the total, and 0 when the total
    is 0. *)
Theorem batch_summary_counts {Obj : Type} (env : Environment Obj)
    (data_file : string) (o : EvaluationOutput Obj) :
  run_concurrent_evaluations env data_file = Returned o →
  let s := eo_summary o in
  let turns := all_turns (eo_sessions o) in
  total_turns s = length turns
  ∧ successful_turns s = count_status "success" turns
  ∧ failed_turns s = count_status "failed" turns
  ∧ error_turns s = count_status "error" turns
  ∧ count_status "exception" turns = 0%nat
  ∧ (successful_turns s + failed_turns s + error_turns s
     + count_status "exception" turns)%nat
    = total_turns s
  ∧ success_rate s
    = (if bool_decide (0 < total_turns s)%nat
       then (inject_Z (Z.of_nat (successful_turns s))
             / inject_Z (Z.of_nat (total_turns s)))%Q
       else 0%Q).
Proof.
  intros Hrun s turns. subst s turns.
  destruct (OrchestrationFacts.run_turn_statuses env data_file o Hrun)
    as [-> Hst].
  pose proof (EvaluatorSpec.summary_counts (eo_sessions o)) as Hc.
  pose proof (EvaluatorSpec.summary_total_decomposition (eo_sessions o))
    as Hdec.
  cbv zeta in Hc, Hdec. destruct Hc as (Ht & Hs & Hf & He & Hr).
  assert (count_status "exception" (all_turns (eo_sessions o)) = 0%nat)
    as Hex.
  { unfold count_status. rewrite OrchestrationFacts.filter_none; [done|].
    eapply Forall_impl; [exact Hst|]. intros r Hr' Heq.
    cbv beta in Hr', Heq. rewrite Heq in Hr'.
    rewrite !elem_of_cons, elem_of_nil in Hr'.
    by destruct Hr' as [?|[?|[?|[]]]]. }
  split_and!; [done..| |done].
  rewrite Hex, Hdec, OrchestrationFacts.filter_none; [simpl; lia|].
  eapply Forall_impl; [exact Hst|]. intros r Hr'. simpl. tauto.
Qed.

Lemma batch_summary_counts_witness :
  let env :=
    Scenarios.environment
      (Scenarios.fixed (Returned (Some (Scenarios.scored 0.9))))
      (Returned Scenarios.mixed_data) [1%nat] in
  ∃ o, run_concurrent_evaluations env "data_file.json" = Returned o
       ∧ total_turns (eo_summary o) = 3%nat
       ∧ count_status "success" (all_turns (eo_sessions o)) = 1%nat
       ∧ count_status "failed" (all_turns (eo_sessions o)) = 1%nat
       ∧ count_status "error" (all_turns (eo_sessions o)) = 1%nat
       ∧ (successful_turns (eo_summary o) + failed_turns (eo_summary o)
          + error_turns (eo_summary o))%nat = 3%nat
       ∧ success_rate (eo_summary o) = (1 # 3)%Q.
Proof.
  intros env.
  assert (match run_concurrent_evaluations env "data_file.json" with
          | Returned o =>
              total_turns (eo_summary o) = 3%nat
              ∧ successful_turns (eo_summary o) = 1%nat
              ∧ failed_turns (eo_summary o) = 1%nat
              ∧ error_turns (eo_summary o) = 1%nat
          | Raised _ => False
          end) as Hvalues.
  { vm_compute. by split_and!. }
  destruct (run_concurrent_evaluations env "data_file.json") as [o|e] eqn:Hrun;
    [|done].
  destruct Hvalues as (Ht & Hs & Hf & He).
  destruct (batch_summary_counts env "data_file.json" o Hrun)
    as (_ & Hs' & Hf' & He' & _ & Hsum & Hrate).
  exists o. rewrite Hrate, <-Hs', <-Hf', <-He', Ht, Hs, Hf, He.
  split_and!; reflexivity.
Defined.

End BatchSummarySpec.

(** ** More on cicd_integration.py *)

Module GateFacts.
Import CICD PipelineRuns.

(** *** The quality gate *)

Lemma passed_iff quality_gate evaluation_results :
  passed (_check_quality_gates quality_gate evaluation_results) = true
  ↔ (min_success_rate quality_gate
     <= default 0 (success_rate (summary_of evaluation_results)))%Q
    ∧ (default 0 (execution_time evaluation_results)
       <= max_execution_time quality_gate)%Q
    ∧ (default 0 (failed_turns (summary_of evaluation_results))
       ≤ max_failed_turns quality_gate)%Z
    ∧ ∀ metric, metric ∈ required_metrics quality_gate →
        (min_average_score quality_gate
         <=? score_of evaluation_results metric)%float = true.
Proof.
  change (passed (_check_quality_gates quality_gate evaluation_results))
    with (all_values
            (checks (_check_quality_gates quality_gate evaluation_results))).
  rewrite CICDSpec.all_values_true. split.
  - intros H. split_and!.
    + apply Qle_bool_iff, (H "success_rate").
      rewrite CICDSpec.base_check_lookup by set_solver. done.
    + apply Qle_bool_iff, (H "execution_time").
      rewrite CICDSpec.base_check_lookup by set_solver. done.
    + eapply bool_decide_eq_true_1, (H "failed_turns").
      rewrite CICDSpec.base_check_lookup by set_solver. done.
    + intros metric Hm.
      apply (H ("avg_score_" +:+ metric)).
      by apply CICDSpec.metric_check_lookup.
  - intros (H1 & H2 & H3 & H4) k b Hk.
    destruct (decide (k ∈ (check_writes quality_gate evaluation_results).*1))
      as [Hin|Hnin].
    + apply CICDSpec.check_writes_keys in Hin as (metric & Hm & ->).
      rewrite CICDSpec.metric_check_lookup in Hk by done.
      injection Hk as <-. by apply H4.
    + rewrite CICDSpec.checks_eq, PyFacts.writes_other in Hk by done.
      unfold base_checks in Hk.
      rewrite !lookup_insert_Some, lookup_empty in Hk.
      destruct Hk as [[_ <-]|[_ [[_ <-]|[_ [[_ <-]|[_ [=]]]]]]].
      * by apply bool_decide_eq_true_2.
      * by apply Qle_bool_iff.
      * by apply Qle_bool_iff.
Qed.

(** X17.  The verdict of the gate has a check for the success rate, the
    run time and the failed turns, one check [avg_score_<metric>] for
    each required metric, and no other: a metric that is not required
    is never checked, whatever its average.  The verdict carries the
    thresholds of the gate and the averages it read. *)
Theorem gate_checks_domain quality_gate evaluation_results :
  let verdict := _check_quality_gates quality_gate evaluation_results in
  dom (checks verdict)
  = {["success_rate"; "execution_time"; "failed_turns"]}
    ∪ list_to_set ((λ metric, "avg_score_" +:+ metric)
                     <$> required_metrics quality_gate)
  ∧ (∀ metric, metric ∉ required_metrics quality_gate →
       checks verdict !! ("avg_score_" +:+ metric) = None)
  ∧ thresholds verdict = quality_gate
  ∧ av_average_scores (actual_values verdict)
    = default ∅ (average_scores (summary_of evaluation_results)).
Proof.
  intros verdict. subst verdict.
  assert (dom (checks (_check_quality_gates quality_gate evaluation_results))
          = {["success_rate"; "execution_time"; "failed_turns"]}
            ∪ list_to_set ((λ metric, "avg_score_" +:+ metric)
                             <$> required_metrics quality_gate)) as Hdom.
  { rewrite CICDSpec.checks_eq, PyFacts.writes_dom.
    unfold check_writes. rewrite <-list_fmap_compose.
    unfold base_checks. rewrite !dom_insert_L, dom_empty_L.
    f_equal; set_solver. }
  split_and!; [done| |done..].
  intros metric Hm. apply not_elem_of_dom. rewrite Hdom.
  pose proof (CICDSpec.avg_key_not_base metric) as Hbase.
  rewrite not_elem_of_union. split; [set_solver|].
  rewrite elem_of_list_to_set, list_elem_of_fmap.
  intros (metric' & Heq & Hin). apply (inj _) in Heq. by subst.
Qed.

(** X18.  The gate is monotone: results that pass a gate pass every gate
    that asks at most as much (a lower or equal minimum success rate and
    minimum average, a higher or equal maximum run time and maximum of
    failed turns, and required metrics among those of the first). *)
Theorem gate_monotone (g' g : QualityGate) evaluation_results :
  laxer g' g →
  passed (_check_quality_gates g evaluation_results) = true →
  passed (_check_quality_gates g' evaluation_results) = true.
Proof.
  intros (Hr & Ha & Ht & Hf & Hm). rewrite !passed_iff.
  intros (H1 & H2 & H3 & H4). split_and!.
  - by eapply Qle_trans.
  - by eapply Qle_trans.
  - lia.
  - intros metric Hin. eapply PyFacts.leb_trans; [done|].
    apply H4. by apply Hm.
Qed.

Lemma gate_monotone_witness :
  laxer Scenarios.lenient_gate QualityGate_default
  ∧ passed (_check_quality_gates QualityGate_default
              (Scenarios.batch (9 # 10) (Scenarios.averages 0.9)))
    = true
  ∧ passed (_check_quality_gates Scenarios.lenient_gate
              (Scenarios.batch (9 # 10) (Scenarios.averages 0.9)))
    = true.
Proof.
  assert (laxer Scenarios.lenient_gate QualityGate_default) as Hl.
  { unfold laxer. simpl. split_and!; [done|done|done|lia|set_solver]. }
  assert (passed (_check_quality_gates QualityGate_default
                    (Scenarios.batch (9 # 10) (Scenarios.averages 0.9)))
          = true) as Hp by reflexivity.
  split_and!; [exact Hl|exact Hp|].
  exact (gate_monotone _ _ _ Hl Hp).
Defined.

End GateFacts.

Module PipelineFacts.
Import CICD PipelineRuns.

(** *** The gate on the summary of a batch *)

Section Batch.
Context {Resp : Type}.
Implicit Types (env : Evaluator.Environment Resp).
Implicit Types (o : Evaluator.EvaluationOutput Resp).

Lemma run_summary env (data_file : string) (max_workers : Z) o :
  Evaluator.run_concurrent_evaluation env data_file max_workers = Returned o →
  Evaluator.eo_summary o
  = Evaluator._generate_evaluation_summary (Evaluator.eo_sessions o).
Proof.
  unfold Evaluator.run_concurrent_evaluation,
    Evaluator.run_concurrent_evaluations.
  destruct (Evaluator.env_setup env) as [[]|e]; [|done]. simpl.
  destruct (Evaluator.env_json_load env data_file) as [data|e]; [|done].
  simpl.
  destruct (Evaluator.create_sessions env 0 data) as [sessions|e]; [|done].
  simpl. by intros [= <-].
Qed.

Lemma not_passed quality_gate evaluation_results :
  ¬ ((min_success_rate quality_gate
      <= default 0 (success_rate (summary_of evaluation_results)))%Q
     ∧ (default 0 (execution_time evaluation_results)
        <= max_execution_time quality_gate)%Q
     ∧ (default 0 (failed_turns (summary_of evaluation_results))
        ≤ max_failed_turns quality_gate)%Z
     ∧ ∀ metric, metric ∈ required_metrics quality_gate →
         (min_average_score quality_gate
          <=? score_of evaluation_results metric)%float = true) →
  passed (_check_quality_gates quality_gate evaluation_results) = false.
Proof.
  intros Hn.
  destruct (passed (_check_quality_gates quality_gate evaluation_results))
    eqn:Hp; [|done].
  by apply GateFacts.passed_iff in Hp.
Qed.

(** X19.  The gate on the results of a batch run.  The check of the
    failed turns counts the turns with status ['failed'] only: turns
    that ended in ['error'] are not held against the maximum.  The run
    time checked is the one the pipeline measured.  A required metric
    that is not one of the four the summary tracks has the average 0,
    so a gate with a positive minimum average that requires such a
    metric is never passed; and a gate with a positive minimum success
    rate is never passed by a batch without turns. *)
Theorem gate_on_batch quality_gate env (data_file : string)
    (max_workers : Z) o (elapsed : Q) :
  Evaluator.run_concurrent_evaluation env data_file max_workers = Returned o →
  let verdict := _check_quality_gates quality_gate (of_output o elapsed) in
  let turns := Evaluator.all_turns (Evaluator.eo_sessions o) in
  checks verdict !! "failed_turns"
  = Some (bool_decide (Z.of_nat (Evaluator.count_status "failed" turns)
                       ≤ max_failed_turns quality_gate)%Z)
  ∧ checks verdict !! "execution_time"
    = Some (Qle_bool elapsed (max_execution_time quality_gate))
  ∧ (∀ metric, metric ∈ required_metrics quality_gate →
       metric ∉ Orchestration.tracked →
       checks verdict !! ("avg_score_" +:+ metric)
       = Some (min_average_score quality_gate <=? 0)%float
       ∧ ((0 <? min_average_score quality_gate)%float = true →
          passed verdict = false))
  ∧ (turns = [] → (0 < min_success_rate quality_gate)%Q →
     passed verdict = false).
Proof.
  intros Hrun verdict turns. subst verdict turns.
  apply run_summary in Hrun.
  pose proof (EvaluatorSpec.summary_counts (Evaluator.eo_sessions o)) as Hc.
  cbv zeta in Hc. rewrite <-Hrun in Hc.
  destruct Hc as (Ht & _ & Hf & _ & Hrate).
  assert (∀ metric, metric ∉ Orchestration.tracked →
            score_of (of_output o elapsed) metric = 0%float) as Hzero.
  { intros metric Hm. unfold score_of, summary_of, of_output. simpl.
    rewrite Hrun, OrchestrationFacts.average_scores_lookup.
    by rewrite decide_False. }
  split_and!.
  - rewrite CICDSpec.base_check_lookup by set_solver.
    unfold base_checks, summary_of, of_output. simpl.
    rewrite lookup_insert_eq. by rewrite Hf.
  - rewrite CICDSpec.base_check_lookup by set_solver.
    unfold base_checks. rewrite lookup_insert_ne by done.
    by rewrite lookup_insert_eq.
  - intros metric Hin Hm. split.
    + rewrite CICDSpec.metric_check_lookup by done. by rewrite Hzero.
    + intros Hpos. apply not_passed. intros (_ & _ & _ & H).
      specialize (H metric Hin). rewrite Hzero in H by done.
      by rewrite PyFacts.ltb_zero_not_leb in H.
  - intros Hnil Hpos. apply not_passed. intros (H & _).
    unfold summary_of, of_output in H. simpl in H.
    rewrite Hrate, Ht, Hnil in H. simpl in H.
    by eapply Qlt_not_le.
Qed.

End Batch.

Lemma gate_on_batch_witness :
  let env := w_env (Scenarios.world (Returned Scenarios.good_data)) in
  ∃ o, Evaluator.run_concurrent_evaluation env "data_file.json" 5
       = Returned o
       ∧ "accuracy" ∈ required_metrics Scenarios.accuracy_gate
       ∧ ("accuracy" ∉ Orchestration.tracked)
       ∧ passed (_check_quality_gates Scenarios.accuracy_gate
                   (of_output o 12))
         = false.
Proof.
  intros env.
  destruct (Evaluator.run_concurrent_evaluation env "data_file.json" 5)
    as [o|e] eqn:Hrun; [|by vm_compute in Hrun].
  assert ("accuracy" ∈ required_metrics Scenarios.accuracy_gate) as Hin.
  { simpl. set_solver. }
  assert ("accuracy" ∉ Orchestration.tracked) as Hm.
  { unfold Orchestration.tracked. set_solver. }
  exists o. split_and!; [done|exact Hin|exact Hm|].
  destruct (gate_on_batch Scenarios.accuracy_gate env "data_file.json" 5 o 12
              Hrun) as (_ & _ & H & _).
  by apply (H "accuracy" Hin Hm).
Defined.

(** *** The regression check *)

Lemma last3_length {A} (history : list A) :
  length (last3 history) = (length history `min` 3)%nat.
Proof. unfold last3. rewrite length_drop. lia. Qed.

Lemma last3_app {A} (old recent : list A) :
  (3 ≤ length recent)%nat → last3 (old ++ recent) = last3 recent.
Proof.
  intros H. unfold last3. rewrite length_app.
  rewrite drop_app_ge by lia. f_equal. lia.
Qed.

Lemma last3_idemp {A} (history : list A) :
  last3 (last3 history) = last3 history.
Proof.
  unfold last3 at 1. rewrite last3_length.
  replace (length history `min` 3 - 3)%nat with 0%nat by lia. done.
Qed.

(** X20.  The regression check reads the three most recent runs of the
    history only: with at least three runs, the runs before them do not
    change its result. *)
Theorem regression_uses_last_three quality_gate (threshold : float)
    (old recent : list EvaluationResults) current :
  (3 ≤ length recent)%nat →
  _check_performance_regression quality_gate threshold (old ++ recent) current
  = _check_performance_regression quality_gate threshold (last3 recent)
      current.
Proof.
  intros H. unfold _check_performance_regression.
  rewrite last3_app, last3_idemp by done.
  rewrite !bool_decide_false; [done| |].
  - rewrite last3_length. lia.
  - rewrite length_app. lia.
Qed.

Lemma regression_uses_last_three_witness :
  (3 ≤ length Scenarios.steady_history)%nat
  ∧ _check_performance_regression QualityGate_default regression_threshold
      (Scenarios.older_history ++ Scenarios.steady_history)
      (Scenarios.batch (9 # 10) (Scenarios.averages 0.82))
    = _check_performance_regression QualityGate_default regression_threshold
        Scenarios.steady_history
        (Scenarios.batch (9 # 10) (Scenarios.averages 0.82)).
Proof.
  assert (3 ≤ length Scenarios.steady_history)%nat as H by (simpl; lia).
  split; [exact H|].
  exact (regression_uses_last_three QualityGate_default regression_threshold
           Scenarios.older_history Scenarios.steady_history _ H).
Defined.

Lemma metric_scores_fail (metric : string) (recent : list EvaluationResults) :
  ¬ Forall has_summary recent →
  metric_scores metric recent = Raised (Exception "KeyError" "'summary'").
Proof.
  induction recent as [|run recent IH]; intros Hn.
  { destruct Hn. constructor. }
  cbn [metric_scores]. unfold get_summary.
  destruct (summary run) as [s|] eqn:Hs; [|done]. simpl.
  rewrite IH; [done|]. intros Hall. apply Hn. constructor; [|done].
  by exists s.
Qed.

(** X21.  The outcome of the regression check.  With fewer than two runs
    in the history it reports that the history is insufficient, reading
    neither the history nor the current run.  Otherwise it returns a
    comparison when the gate requires no metric or each of the three
    most recent runs has a summary, and the current run has a summary;
    if not it raises [KeyError] for the key ['summary'].  It never
    reports that no previous results are available. *)
Theorem regression_check_outcome quality_gate (threshold : float)
    (history : list EvaluationResults) current :
  let check :=
    _check_performance_regression quality_gate threshold history current in
  check ≠ Returned (NoComparison "No previous results available")
  ∧ if decide (length history < 2)%nat then
      check
      = Returned (NoComparison "Insufficient history for regression detection")
    else if decide ((required_metrics quality_gate = []
                     ∨ Forall has_summary (last3 history))
                    ∧ has_summary current)
    then ∃ detected flagged baseline_scores current_scores,
           check = Returned (Comparison detected flagged baseline_scores
                               current_scores threshold)
    else check = Raised (Exception "KeyError" "'summary'").
Proof.
  intros check.
  assert (if decide (length history < 2)%nat then
            check
            = Returned
                (NoComparison "Insufficient history for regression detection")
          else if decide ((required_metrics quality_gate = []
                           ∨ Forall has_summary (last3 history))
                          ∧ has_summary current)
          then ∃ detected flagged baseline_scores current_scores,
                 check = Returned (Comparison detected flagged baseline_scores
                                     current_scores threshold)
          else check = Raised (Exception "KeyError" "'summary'")) as H.
  { subst check. unfold _check_performance_regression.
    case_decide as Hlen.
    { by rewrite bool_decide_true. }
    rewrite bool_decide_false by done.
    pose proof (last3_length history) as Hl3.
    destruct (last3 history) as [|run0 recent] eqn:Hrecent.
    { simpl in Hl3. lia. }
    case_decide as Hok.
    - destruct Hok as [Hbase [s Hs]].
      assert (∃ b, baseline_of (required_metrics quality_gate)
                     (run0 :: recent) ∅ = Returned b) as [b Hb].
      { destruct Hbase as [->|Hall]; [by eexists|].
        rewrite CICDSpec.baseline_of_ok by done. by eexists. }
      rewrite Hb. unfold get_summary. rewrite Hs. simpl. by eexists _, _, _, _.
    - destruct (decide (required_metrics quality_gate = []
                        ∨ Forall has_summary (run0 :: recent)))
        as [Hbase|Hbase].
      + assert (∃ b, baseline_of (required_metrics quality_gate)
                       (run0 :: recent) ∅ = Returned b) as [b Hb].
        { destruct Hbase as [->|Hall]; [by eexists|].
          rewrite CICDSpec.baseline_of_ok by done. by eexists. }
        rewrite Hb. unfold get_summary.
        destruct (summary current) as [s|] eqn:Hs; [|done].
        destruct Hok. split; [done|by exists s].
      + destruct (required_metrics quality_gate) as [|metric metrics].
        { destruct Hbase. by left. }
        cbn [baseline_of]. rewrite metric_scores_fail; [done|].
        intros Hall. apply Hbase. by right. }
  split; [|exact H].
  intros Heq. rewrite Heq in H.
  case_decide; [done|]. case_decide; [|done].
  by destruct H as (? & ? & ? & ? & [=]).
Qed.

(** *** A run of the pipeline *)

Section Pipeline.
Context {Resp : Type}.
Implicit Types (w : World Resp) (self : CICDPipeline).

Lemma execute_hooks_hooks sched ty context (hm : HooksManager) :
  Hooks.hooks (Hooks.execute_hooks sched ty context hm).2 = Hooks.hooks hm.
Proof.
  rewrite HooksSpec.execute_hooks_eq. by destruct (Hooks.hooks hm ty).
Qed.

Lemma fired_records sched ty context (hm : HooksManager) :
  (Hooks.execute_hooks sched ty context hm).1
  = Hooks.records_of context (Hooks.hooks hm ty).
Proof.
  rewrite HooksSpec.execute_hooks_eq. by destruct (Hooks.hooks hm ty).
Qed.

(** The three ways a run of the pipeline ends. *)
Lemma run_cases w (data_file : string) (max_workers : Z) self :
  let fired :=
    Hooks.execute_hooks (w_pre_sched w) Hooks.INTEGRATION_TEST
      (pre_context data_file max_workers) (hooks_manager self) in
  let run := run_evaluation_pipeline w data_file max_workers self in
  (_check_pre_pipeline_tests fired.1 = false
   ∧ run = (Returned (PrePipelineFailure "failed" "pre_pipeline"
                        "Pre-pipeline tests failed" fired.1),
            with_hooks_manager fired.2 self))
  ∨ (_check_pre_pipeline_tests fired.1 = true
     ∧ ∃ e, Evaluator.run_concurrent_evaluation (w_env w) data_file
              max_workers = Raised e
            ∧ run = (Raised e, with_hooks_manager fired.2 self))
  ∨ (_check_pre_pipeline_tests fired.1 = true
     ∧ ∃ o, Evaluator.run_concurrent_evaluation (w_env w) data_file
              max_workers = Returned o
         ∧ let evaluation_results := of_output o (w_elapsed w) in
           let post :=
             Hooks.execute_hooks (w_post_sched w) Hooks.POST_EVALUATION
               (post_context evaluation_results) fired.2 in
           let verdict :=
             _check_quality_gates (quality_gate self) evaluation_results in
           match
             _check_performance_regression (quality_gate self)
               (self_regression_threshold self)
               (h_results <$> evaluation_history self) evaluation_results
           with
           | Raised e => run = (Raised e, with_hooks_manager post.2 self)
           | Returned regression =>
               ∃ s, summary evaluation_results = Some s ∧
               let report :=
                 Report (overall_status verdict regression) s verdict
                   regression fired.1 post.1 (w_elapsed w)
                   (Evaluator.eo_total_sessions o)
                   (Evaluator.eo_total_turns o) in
               run = (Returned report,
                      {| quality_gate := quality_gate self;
                         hooks_manager := post.2;
                         evaluation_history :=
                           evaluation_history self ++
                           [{| h_results := evaluation_results;
                               h_quality_gate := verdict;
                               h_regression := regression;
                               h_pipeline_report := report |}];
                         self_regression_threshold :=
                           self_regression_threshold self |})
           end).
Proof.
  intros fired run. subst fired run. unfold run_evaluation_pipeline.
  destruct (Hooks.execute_hooks (w_pre_sched w) Hooks.INTEGRATION_TEST
              (pre_context data_file max_workers) (hooks_manager self))
    as [pre hm1]. cbn [fst snd].
  destruct (_check_pre_pipeline_tests pre); cbn [negb]; [|by left].
  right.
  destruct (Evaluator.run_concurrent_evaluation (w_env w) data_file
              max_workers) as [o|e]; [right|left; by eauto].
  split; [done|]. exists o. split; [done|]. cbv zeta.
  destruct (Hooks.execute_hooks (w_post_sched w) Hooks.POST_EVALUATION
              (post_context (of_output o (w_elapsed w))) hm1)
    as [post hm2]. cbn [fst snd].
  change (map h_results ?l) with (h_results <$> l).
  destruct (_check_performance_regression (quality_gate self)
              (self_regression_threshold self)
              (h_results <$> evaluation_history self)
              (of_output o (w_elapsed w))) as [regression|e]; [|done].
  simpl. by eexists.
Qed.

(** X22.  A pipeline with fewer than two runs in its history never
    reports the status ['warning']: the status of its report is
    ['failed'] or ['passed'], as the pre-pipeline tests and the gate
    decide; and it raises only what the evaluation raises. *)
Theorem cold_start_never_warns w (data_file : string) (max_workers : Z)
    self :
  (length (evaluation_history self) < 2)%nat →
  let run := run_evaluation_pipeline w data_file max_workers self in
  (∀ report, run.1 = Returned report →
     report_status report ∈ ["passed"; "failed"])
  ∧ (∀ e, run.1 = Raised e →
       Evaluator.run_concurrent_evaluation (w_env w) data_file max_workers
       = Raised e).
Proof.
  intros Hlen run. subst run.
  destruct (run_cases w data_file max_workers self)
    as [[_ ->]|[(_ & e & He & ->)|(_ & o & Ho & H)]]; cbn [fst].
  - split; [|done]. intros report [= <-]. simpl. set_solver.
  - split; [done|]. by intros e' [= <-].
  - cbv zeta in H. unfold _check_performance_regression in H.
    rewrite bool_decide_true in H by (by rewrite length_fmap).
    simpl in H. destruct H as (s & _ & ->). cbn [fst].
    split; [|done]. intros report [= <-]. cbn [report_status].
    unfold overall_status. cbn [regression_detected].
    destruct (passed _); simpl; set_solver.
Qed.

(** X23.  What a run of the pipeline leaves as it was and what it adds.
    The gate, the regression threshold and the hooks registered are
    unchanged.  The history is unchanged when the run stops at the
    pre-pipeline stage or raises, and has exactly one more entry when a
    full report is returned: the entry holds that report, the results
    and the verdict of the gate on them. *)
Theorem run_bookkeeping w (data_file : string) (max_workers : Z) self :
  let run := run_evaluation_pipeline w data_file max_workers self in
  quality_gate run.2 = quality_gate self
  ∧ self_regression_threshold run.2 = self_regression_threshold self
  ∧ Hooks.hooks (hooks_manager run.2) = Hooks.hooks (hooks_manager self)
  ∧ match run.1 with
    | Returned (Report _ _ _ _ _ _ _ _ _ as report) =>
        ∃ entry,
          evaluation_history run.2 = evaluation_history self ++ [entry]
          ∧ h_pipeline_report entry = report
          ∧ h_quality_gate entry
            = _check_quality_gates (quality_gate self) (h_results entry)
    | _ => evaluation_history run.2 = evaluation_history self
    end.
Proof.
  intros run. subst run.
  destruct (run_cases w data_file max_workers self)
    as [[_ ->]|[(_ & e & He & ->)|(_ & o & Ho & H)]]; cbn [fst snd].
  - split_and!; [done..|apply execute_hooks_hooks|done].
  - split_and!; [done..|apply execute_hooks_hooks|done].
  - cbv zeta in H.
    destruct (_check_performance_regression _ _ _ _) as [regression|e].
    + destruct H as (s & _ & ->). cbn [fst snd quality_gate
        self_regression_threshold hooks_manager evaluation_history].
      split_and!; [done..| |by eexists].
      by rewrite !execute_hooks_hooks.
    + rewrite H. cbn [fst snd].
      split_and!; [done..| |done].
      cbn [with_hooks_manager hooks_manager].
      by rewrite !execute_hooks_hooks.
Qed.

Lemma run_config w (data_file : string) (max_workers : Z) self :
  let run := run_evaluation_pipeline w data_file max_workers self in
  quality_gate run.2 = quality_gate self
  ∧ self_regression_threshold run.2 = self_regression_threshold self
  ∧ (length (evaluation_history run.2)
     ≤ S (length (evaluation_history self)))%nat.
Proof.
  intros run. subst run.
  destruct (run_cases w data_file max_workers self)
    as [[_ ->]|[(_ & e & He & ->)|(_ & o & Ho & H)]]; cbn [fst snd].
  - split_and!; [done..|simpl; lia].
  - split_and!; [done..|simpl; lia].
  - cbv zeta in H.
    destruct (_check_performance_regression _ _ _ _) as [regression|e].
    + destruct H as (s & _ & ->). cbn [fst snd quality_gate
        self_regression_threshold evaluation_history].
      split_and!; [done..|]. rewrite length_app. simpl. lia.
    + rewrite H. cbn [fst snd]. split_and!; [done..|simpl; lia].
Qed.

Lemma run_keeps_history_ok w (data_file : string) (max_workers : Z) self :
  history_ok self →
  history_ok (run_evaluation_pipeline w data_file max_workers self).2
  ∧ ∀ e, (run_evaluation_pipeline w data_file max_workers self).1 = Raised e →
         Evaluator.run_concurrent_evaluation (w_env w) data_file max_workers
         = Raised e.
Proof.
  intros Hok.
  destruct (run_cases w data_file max_workers self)
    as [[_ ->]|[(_ & e & He & ->)|(_ & o & Ho & H)]]; cbn [fst snd].
  - done.
  - split; [done|]. by intros e' [= <-].
  - cbv zeta in H.
    destruct (CICDSpec.regression_check_returns (quality_gate self)
                (self_regression_threshold self)
                (h_results <$> evaluation_history self)
                (of_output o (w_elapsed w)))
      as [regression Hreg]; [done|by eexists|].
    rewrite Hreg in H. destruct H as (s & _ & ->). cbn [fst snd].
    split; [|done]. unfold history_ok. cbn [evaluation_history].
    rewrite fmap_app. apply Forall_app. split; [done|].
    repeat constructor. by eexists.
Qed.

(** X24.  A pipeline object made by the constructor and used through
    [run_evaluation_pipeline] only, whatever the calls returned or
    raised: every run in its history has a summary, the history has at
    most one entry per call, the gate is the one given to the
    constructor (the default gate when none was given) and the
    threshold is 0.1.  So a further run raises only what the evaluation
    stage raises: the gate, the regression check and the report never
    raise on such a pipeline. *)
Theorem constructed_pipeline_invariant (quality_gate : option QualityGate)
    (default_hooks : HooksManager) (cs : list (Call Resp)) :
  let self := after quality_gate default_hooks cs in
  history_ok self
  ∧ (length (evaluation_history self) ≤ length cs)%nat
  ∧ CICD.quality_gate self = default QualityGate_default quality_gate
  ∧ self_regression_threshold self = regression_threshold
  ∧ ∀ (c : Call Resp) e, (run self c).1 = Raised e →
      Evaluator.run_concurrent_evaluation (w_env (c_world c)) (c_data_file c)
        (c_max_workers c) = Raised e.
Proof.
  intros self. subst self.
  assert (history_ok (after quality_gate default_hooks cs)
          ∧ (length (evaluation_history (after quality_gate default_hooks cs))
             ≤ length cs)%nat
          ∧ CICD.quality_gate (after quality_gate default_hooks cs)
            = default QualityGate_default quality_gate
          ∧ self_regression_threshold (after quality_gate default_hooks cs)
            = regression_threshold) as (Hok & Hlen & Hg & Ht).
  { unfold after. induction cs as [|c cs IH] using rev_ind.
    { split_and!; [constructor|done..]. }
    rewrite foldl_app. cbn [foldl].
    destruct IH as (Hok & Hlen & Hg & Ht).
    set (self := foldl _ _ cs) in *. unfold run.
    pose proof (run_config (c_world c) (c_data_file c) (c_max_workers c)
                  self) as Hb. cbv zeta in Hb.
    destruct Hb as (Hg' & Ht' & Hh).
    split_and!.
    - by apply run_keeps_history_ok.
    - rewrite length_app. simpl. lia.
    - by rewrite Hg'.
    - by rewrite Ht'. }
  split_and!; [done..|].
  intros c e. unfold run. by apply run_keeps_history_ok.
Qed.

(** X25.  With integration tests registered at the pre-pipeline point,
    the pipeline stops at the pre-pipeline stage exactly when one of the
    test functions raises.  A test that returns, whatever it returns
    (a dict that reports a failure as well), lets the evaluation run. *)
Theorem pre_pipeline_stops_on_raising_test w (data_file : string)
    (max_workers : Z) self
    (tests : list (string * (Hooks.HookContext HookObj → outcome HookObj)
                   * Z)) :
  Hooks.hooks (hooks_manager self) Hooks.INTEGRATION_TEST
  = (λ t, Hooks.IntegrationTestHook t.1.1 t.1.2 t.2) <$> tests →
  let run := run_evaluation_pipeline w data_file max_workers self in
  (∃ report, run.1 = Returned report
             ∧ report_stage report = Some "pre_pipeline")
  ↔ ∃ t e, t ∈ tests ∧ t.1.2 (pre_context data_file max_workers) = Raised e.
Proof.
  intros Hhooks run. subst run.
  assert (_check_pre_pipeline_tests
            (Hooks.execute_hooks (w_pre_sched w) Hooks.INTEGRATION_TEST
               (pre_context data_file max_workers) (hooks_manager self)).1
          = false
          ↔ ∃ t e, t ∈ tests
                   ∧ t.1.2 (pre_context data_file max_workers) = Raised e)
    as Hpre.
  { rewrite <-not_true_iff_false, CICDSpec.pre_pipeline_tests_passed.
    rewrite fired_records, Hhooks. unfold Hooks.records_of.
    change (map ?f ?l) with (f <$> l).
    rewrite <-list_fmap_compose, Forall_fmap, <-Exists_Forall_neg.
    2:{ intros t. unfold compose.
        match goal with
        | |- ?x = ?y ∨ _ => destruct (decide (x = y)); auto
        end. }
    - rewrite Exists_exists. split.
      + intros (t & Hin & Hst). exists t. simpl in Hst.
        destruct (t.1.2 (pre_context data_file max_workers)) as [r|e] eqn:Ht.
        * by destruct Hst.
        * by exists e.
      + intros (t & e & Hin & Ht). exists t. split; [done|].
        simpl. by rewrite Ht. }
  rewrite <-Hpre.
  destruct (run_cases w data_file max_workers self)
    as [[Hc ->]|[(Hc & e & He & ->)|(Hc & o & Ho & H)]]; cbn [fst].
  - split; [done|]. intros _. by eexists.
  - rewrite Hc. split; [by intros (? & [=] & _)|done].
  - rewrite Hc. split; [|done]. intros (report & Hret & Hstage).
    cbv zeta in H.
    destruct (_check_performance_regression _ _ _ _) as [regression|e].
    + destruct H as (s & _ & H). rewrite H in Hret. cbn [fst] in Hret.
      injection Hret as <-. done.
    + rewrite H in Hret. done.
Qed.

End Pipeline.

Lemma cold_start_never_warns_witness :
  let run :=
    run_evaluation_pipeline (Scenarios.world (Returned Scenarios.good_data))
      "data_file.json" 5 Scenarios.pipeline in
  (length (evaluation_history Scenarios.pipeline) < 2)%nat
  ∧ ∀ report, run.1 = Returned report →
      report_status report ∈ ["passed"; "failed"].
Proof.
  intros run. subst run.
  assert (length (evaluation_history Scenarios.pipeline) < 2)%nat as Hlen
    by (simpl; lia).
  split; [exact Hlen|].
  exact (proj1 (cold_start_never_warns
                  (Scenarios.world (Returned Scenarios.good_data))
                  "data_file.json" 5 Scenarios.pipeline Hlen)).
Defined.

Lemma pre_pipeline_stops_on_raising_test_witness :
  let run :=
    run_evaluation_pipeline (Scenarios.world (Returned Scenarios.good_data))
      "data_file.json" 5 Scenarios.raising_pipeline in
  Hooks.hooks (hooks_manager Scenarios.raising_pipeline)
    Hooks.INTEGRATION_TEST
  = (λ t, Hooks.IntegrationTestHook t.1.1 t.1.2 t.2)
      <$> Scenarios.raising_tests
  ∧ ∃ report, run.1 = Returned report
              ∧ report_stage report = Some "pre_pipeline".
Proof.
  intros run. subst run.
  assert (Hooks.hooks (hooks_manager Scenarios.raising_pipeline)
            Hooks.INTEGRATION_TEST
          = (λ t, Hooks.IntegrationTestHook t.1.1 t.1.2 t.2)
              <$> Scenarios.raising_tests) as Hhooks by reflexivity.
  split; [exact Hhooks|].
  apply (pre_pipeline_stops_on_raising_test
           (Scenarios.world (Returned Scenarios.good_data))
           "data_file.json" 5 Scenarios.raising_pipeline
           Scenarios.raising_tests Hhooks).
  exists ("data_integrity_test",
          (λ _ : Hooks.HookContext HookObj,
             Raised (Exception "TypeError" "argument is not iterable")
             : outcome HookObj),
          9),
         (Exception "TypeError" "argument is not iterable").
  split; [|reflexivity].
  unfold Scenarios.raising_tests. apply list_elem_of_further, list_elem_of_here.
Defined.

End PipelineFacts.
